(** * rl-bench: the metric [Logger] (rlbench/logger.py, rlbench/utils.py)

    A shallow embedding of the logger of the rl-bench scaffold and the
    properties its specification states about it.

    Conventions of the embedding.
    - A Python [dict] keyed by strings is a [gmap string _]; where the
      iteration order of a dict is observable (the caller's [metrics]
      argument) the dict is given by its items in insertion order.
    - A Python [set] of strings is a [gset string]; the order in which
      [list(s)] enumerates a set depends on the interpreter's string hashing
      and is a parameter of the model ([list_set_difference] in
      [PyRuntime]).
    - Methods are state transformers over the pair of the logger object and
      the outside world; an exception is a [Raise] result that stops the
      method and keeps the state reached so far.
    - [int] values are [Z]; [float] values are idealised as rationals. *)

From Stdlib Require Import ZArith QArith Ascii DecimalString.
From stdpp Require Import gmap strings list fin_maps.

Local Open Scope string_scope.
Local Open Scope list_scope.

(** ** Python exceptions *)

(** The [raise] statements of the logger, and the failures of the built-in
    operations it uses, each with the data its message carries. *)
Inductive raise_site : Type :=
  | InvalidLogMode (log_mode : string)
  | SubLoggersOfSubLogger
  | InvalidWandbMode (wandb_mode : string)
  | BinSizeKeys
  | BinSizeType
  | ReinitFalse
  | MetricsEmpty (metric_group : string)
  | InvalidGroup (group : string)
  | InvalidKeys (set_diff : gset string)
  | BinSizeIsNone
  | BinnedKeys
  | StepMetricMissing (step_metric : string)
  | UnregisteredKeys (set_diff : gset string)
  | SummaryNotSet
  | AlreadyFinished
  | Unreachable
  | NotImplemented
  (* raised by the interpreter or the standard library *)
  | NoneNotSubscriptable
  | NoneHasNoAttribute
  | DictPlusInt
  | JoinNoneOrMissing
  | UnpackString (s : string)
  | ClosedFile (path : string)
  | PathIsAFile (path : string)
  | PathExists (path : string).

Inductive exn : Type :=
  | ValueError (site : raise_site)
  | TypeError (site : raise_site)
  | RuntimeError (site : raise_site)
  | NotImplementedError (site : raise_site)
  | AttributeError (site : raise_site)
  | KeyError (key : string)
  | ZeroDivisionError
  | OSError (site : raise_site).

(** ** Results and the state-and-exception monad *)

Inductive result (A : Type) : Type :=
  | Ok (a : A)
  | Raise (e : exn).
Arguments Ok {A} a.
Arguments Raise {A} e.

Definition M (St A : Type) : Type := St → result A * St.

Definition ret {St A} (a : A) : M St A := λ st, (Ok a, st).
Definition raise {St A} (e : exn) : M St A := λ st, (Raise e, st).
Definition bind {St A B} (c : M St A) (k : A → M St B) : M St B :=
  λ st, match c st with
        | (Ok a, st') => k a st'
        | (Raise e, st') => (Raise e, st')
        end.
Definition get {St} : M St St := λ st, (Ok st, st).
Definition put {St} (st : St) : M St unit := λ _, (Ok tt, st).
Definition modify {St} (f : St → St) : M St unit := λ st, (Ok tt, f st).
Definition lift_result {St A} (r : result A) : M St A := λ st, (r, st).

Notation "'let*' x := c 'in' k" := (bind c (λ x, k))
  (at level 10, x pattern, c at level 100, k at level 200).
Notation "c ;;; k" := (bind c (λ _, k))
  (at level 100, k at level 200, right associativity).

(** [for x in xs: body], stopping at the first exception. *)
Fixpoint for_each {St A} (xs : list A) (body : A → M St unit) : M St unit :=
  match xs with
  | [] => ret tt
  | x :: xs' => body x ;;; for_each xs' body
  end.

(** [if c: body] without an [else]. *)
Definition when {St} (c : bool) (body : M St unit) : M St unit :=
  if c then body else ret tt.

(** [m[k]] on a dict. *)
Definition getitem {V} (m : gmap string V) (k : string) : result V :=
  match m !! k with
  | Some v => Ok v
  | None => Raise (KeyError k)
  end.

(** [o[k]] where the attribute [o] is either [None] or a dict. *)
Definition getitem_opt {V} (o : option (gmap string V)) (k : string) : result V :=
  match o with
  | Some m => getitem m k
  | None => Raise (TypeError NoneNotSubscriptable)
  end.

(** ** Numbers *)

Inductive num : Type :=
  | PInt (z : Z)
  | PFloat (q : Q).

Module Num.

Definition to_Q (x : num) : Q :=
  match x with
  | PInt z => inject_Z z
  | PFloat q => q
  end.

(** [x * y] *)
Definition mul (x y : num) : num :=
  match x, y with
  | PInt a, PInt b => PInt (a * b)
  | _, _ => PFloat (Qred (to_Q x * to_Q y))
  end.

(** [x + y] *)
Definition add (x y : num) : num :=
  match x, y with
  | PInt a, PInt b => PInt (a + b)
  | _, _ => PFloat (Qred (to_Q x + to_Q y))
  end.

Definition is_zero (x : num) : bool :=
  match x with
  | PInt z => bool_decide (z = 0%Z)
  | PFloat q => Qeq_bool q 0
  end.

(** [x / y]: true division, always a float. *)
Definition div (x y : num) : result num :=
  if is_zero y then Raise ZeroDivisionError
  else Ok (PFloat (Qred (to_Q x / to_Q y))).

End Num.

(** ** The interpreter and operating-system functions the logger calls *)

Class PyRuntime : Type := {
  (** [list(set(xs).difference({y}))] for strings: every element of the
      difference once, in the order in which the interpreter's hash table
      happens to hold them. *)
  list_set_difference : list string → string → list string;
  list_set_difference_perm : ∀ xs y,
    list_set_difference xs y ≡ₚ elements (list_to_set xs ∖ {[y]} : gset string);
  (** [str(x)] for a float. *)
  str_float : Q → string;
  (** [os.path.join], [os.path.normpath], [os.path.basename]. *)
  os_path_join : list string → string;
  os_path_normpath : string → string;
  os_path_basename : string → string;
  (** [wandb.init(...).dir] *)
  wandb_run_dir : string;
}.

(** [str(x)] for a number. *)
Definition str `{PyRuntime} (x : num) : string :=
  match x with
  | PInt z => NilZero.string_of_int (Z.to_int z)
  | PFloat q => str_float q
  end.

(** The line break ["\n"]. *)
Definition newline : string := String "010"%char EmptyString.

(** [sep.join(xs)] *)
Definition str_join (sep : string) (xs : list string) : string :=
  String.concat sep xs.

(** ** The outside world *)

(** A summary group: metric name to latest value, [None] before the first. *)
Abbreviation summary_group := (gmap string (option num)).

(** The documents the logger serialises with [json.dump]. *)
Inductive json_doc : Type :=
  | JConfig (config : option string)
  | JMetadata (name : string) (job_type project group entity : option string)
              (tags : option (list string)) (notes : option string)
  | JSummary (summary : gmap string summary_group).

Inductive io_event : Type :=
  | FsRmtree (path : string)
  | FsMkdir (path : string)
  | FsOpenW (path : string)
  | FsWrite (path text : string)
  | FsClose (path : string)
  | FsDumpJson (path : string) (doc : json_doc)
  | FsCopy (src dst : string)
  | WandbInit (job_type : option string) (config : option string)
              (project entity : option string) (reinit : bool)
              (tags : option (list string)) (group notes : option string)
              (mode : string)
  | WandbDefineMetric (name step_metric : string)
  | WandbLog (data : gmap string num) (commit : bool)
  | WandbSave (path base_path policy : string)
  | WandbFinish.

Inductive fs_node : Type := Dir | File.

(** The file system as the logger can observe it (which paths exist), the
    trace of file-system and network calls made so far, oldest first, and
    the lines printed to standard output. *)
Record World : Type := {
  w_fs : gmap string fs_node;
  w_io : list io_event;
  w_stdout : list string;
}.

Module OS.

Definition emit (ev : io_event) (w : World) : World :=
  {| w_fs := w_fs w; w_io := w_io w ++ [ev]; w_stdout := w_stdout w |}.

Definition set_fs (fs : gmap string fs_node) (w : World) : World :=
  {| w_fs := fs; w_io := w_io w; w_stdout := w_stdout w |}.

(** [print(line)] *)
Definition print (line : string) : M World unit :=
  modify (λ w, {| w_fs := w_fs w; w_io := w_io w;
                  w_stdout := w_stdout w ++ [line] |}).

(** [os.path.exists(path)], [os.path.isdir(path)] *)
Definition path_exists (path : string) : M World bool :=
  λ w, (Ok (bool_decide (is_Some (w_fs w !! path))), w).
Definition path_isdir (path : string) : M World bool :=
  λ w, (Ok match w_fs w !! path with Some Dir => true | _ => false end, w).

(** [q] is [p] or lies below it. *)
Definition under (p q : string) : bool :=
  bool_decide (q = p) || String.prefix (p +:+ "/") q.

(** [shutil.rmtree(path)] *)
Definition rmtree (path : string) : M World unit :=
  λ w, match w_fs w !! path with
       | Some File => (Raise (OSError (PathIsAFile path)), w)
       | _ => (Ok tt, emit (FsRmtree path)
                        (set_fs (filter (λ kv, under path kv.1 = false) (w_fs w)) w))
       end.

(** [os.mkdir(path)] *)
Definition mkdir (path : string) : M World unit :=
  λ w, match w_fs w !! path with
       | Some _ => (Raise (OSError (PathExists path)), w)
       | None => (Ok tt, emit (FsMkdir path) (set_fs (<[path:=Dir]> (w_fs w)) w))
       end.

(** [with open(path, "w") as f: f.write(text)] *)
Definition write_file (path text : string) : M World unit :=
  modify (λ w, emit (FsClose path) (emit (FsWrite path text)
                 (emit (FsOpenW path) (set_fs (<[path:=File]> (w_fs w)) w)))).

(** [with open(path, "w") as f: json.dump(doc, f, indent=1)] *)
Definition dump_json (path : string) (doc : json_doc) : M World unit :=
  modify (λ w, emit (FsClose path) (emit (FsDumpJson path doc)
                 (emit (FsOpenW path) (set_fs (<[path:=File]> (w_fs w)) w)))).

(** [shutil.copy(src, dst)] where [target] is the file it creates. *)
Definition copy (src dst target : string) : M World unit :=
  modify (λ w, emit (FsCopy src dst) (set_fs (<[target:=File]> (w_fs w)) w)).

(** A call on the remote tracking service. *)
Definition wandb (ev : io_event) : M World unit := modify (emit ev).

End OS.

(** A text file object returned by [open(path, "w")]: the text written
    through it so far and whether it has been closed. *)
Record TextIO : Type := {
  f_path : string;
  f_text : string;
  f_closed : bool;
}.

(** ** rlbench/utils.py *)

Module utils.

Definition create_or_clear_folder (folder_path : string) : M World unit :=
  let* ex := OS.path_exists folder_path in
  when ex (OS.rmtree folder_path) ;;;
  OS.mkdir folder_path.

Definition copy_to_dict {V} (from_dict to_dict : gmap string V) : gmap string V :=
  map_fold (λ key v to_dict, <[key:=v]> to_dict) to_dict from_dict.

(** [paths] may hold [None] (an unset base directory): it passes the
    filter and makes [os.path.join] fail, as does an empty argument list. *)
Definition join_paths `{PyRuntime} (paths : list (option string)) : result string :=
  let paths := filter (λ x, x ≠ Some EmptyString) paths in
  match paths, mapM id paths with
  | _ :: _, Some ps => Ok (os_path_normpath (os_path_join ps))
  | _, _ => Raise (TypeError JoinNoneOrMissing)
  end.

Definition save_json (d : json_doc) (path : string) : M World unit :=
  OS.dump_json path d.

End utils.

(** ** rlbench/logger.py *)

Inductive LogMode : Type := DISABLED | WANDB | LOCAL.

Definition LogMode_eqb (a b : LogMode) : bool :=
  match a, b with
  | DISABLED, DISABLED | WANDB, WANDB | LOCAL, LOCAL => true
  | _, _ => false
  end.

(** The caller's [bin_size]: [None], an [int], a [dict], or a value of any
    other type. *)
Inductive bin_size_arg : Type :=
  | BinNone
  | BinInt (n : Z)
  | BinDict (d : gmap string Z)
  | BinOther.

(** What [self._metric_n[group]] holds: [_setup] stores a dict of per-metric
    zeros there, [log_binned] stores the integer [0]. *)
Inductive counter : Type :=
  | CDict (d : gmap string Z)
  | CInt (n : Z).

(** The session object returned by [wandb.init]; its calls are recorded in
    the world's trace. *)
Inductive wandb_run : Type := WandbRun.

(** An element of the caller's [sub_loggers] list; never inspected. *)
Inductive sub_logger : Type := SubLogger.

(** The arguments of [Logger(...)]. [metrics] lists the items of the caller's
    dict in insertion order (the keys of a dict are distinct). *)
Module Args.
Record t : Type := {
  log_mode : string;
  metrics : list (string * (string * list string));
  name : string;
  job_type : option string;
  project : option string;
  reinit : bool;
  group : option string;
  tags : option (list string);
  entity : option string;
  notes : option string;
  config : option string;
  bin_size : bin_size_arg;
  wandb_mode : string;
  local_base_dir : option string;
  is_sub_logger : bool;
  sub_loggers : option (list sub_logger);
}.
End Args.

Module Logger.

Record t : Type := {
  _log_mode : LogMode;
  _is_enabled : bool;
  _name : string;
  _job_type : option string;
  _project : option string;
  _group : option string;
  _entity : option string;
  _tags : option (list string);
  _notes : option string;
  _config : option string;
  _reinit : bool;
  is_sub_logger : bool;
  has_sub_loggers : bool;
  _sub_loggers : list sub_logger;
  _metric_groups : list string;
  _step_metrics : gmap string string;
  _metrics : gmap string (list string);
  _summary : option (gmap string summary_group);
  _wandb_mode : string;
  _wandb_run : option wandb_run;
  _bin_size : option (gmap string Z);
  _metric_roll_avg : option (gmap string (gmap string num));
  _metric_n : option (gmap string counter);
  _local_base_dir : option string;
  _run_dir : option string;
  _files_dir : option string;
  _artifacts_dir : option string;
  _metrics_dir : option string;
  _temp_dir : option string;
  _metrics_file_paths : option (gmap string string);
  _summary_path : option string;
  _metrics_files : option (gmap string TextIO);
  _is_finished : bool;
}.

(** Attribute assignment [self.<attr> = v], one setter per attribute that is
    assigned after the object's fields have been initialised. *)
Definition set_summary (v : option (gmap string summary_group)) (s : t) : t :=
  {| _log_mode := _log_mode s; _is_enabled := _is_enabled s; _name := _name s;
     _job_type := _job_type s; _project := _project s; _group := _group s;
     _entity := _entity s; _tags := _tags s; _notes := _notes s;
     _config := _config s; _reinit := _reinit s; is_sub_logger := is_sub_logger s;
     has_sub_loggers := has_sub_loggers s; _sub_loggers := _sub_loggers s;
     _metric_groups := _metric_groups s; _step_metrics := _step_metrics s;
     _metrics := _metrics s; _summary := v; _wandb_mode := _wandb_mode s;
     _wandb_run := _wandb_run s; _bin_size := _bin_size s;
     _metric_roll_avg := _metric_roll_avg s; _metric_n := _metric_n s;
     _local_base_dir := _local_base_dir s; _run_dir := _run_dir s;
     _files_dir := _files_dir s; _artifacts_dir := _artifacts_dir s;
     _metrics_dir := _metrics_dir s; _temp_dir := _temp_dir s;
     _metrics_file_paths := _metrics_file_paths s; _summary_path := _summary_path s;
     _metrics_files := _metrics_files s; _is_finished := _is_finished s |}.
Definition set_wandb_run (v : option wandb_run) (s : t) : t :=
  {| _log_mode := _log_mode s; _is_enabled := _is_enabled s; _name := _name s;
     _job_type := _job_type s; _project := _project s; _group := _group s;
     _entity := _entity s; _tags := _tags s; _notes := _notes s;
     _config := _config s; _reinit := _reinit s; is_sub_logger := is_sub_logger s;
     has_sub_loggers := has_sub_loggers s; _sub_loggers := _sub_loggers s;
     _metric_groups := _metric_groups s; _step_metrics := _step_metrics s;
     _metrics := _metrics s; _summary := _summary s; _wandb_mode := _wandb_mode s;
     _wandb_run := v; _bin_size := _bin_size s;
     _metric_roll_avg := _metric_roll_avg s; _metric_n := _metric_n s;
     _local_base_dir := _local_base_dir s; _run_dir := _run_dir s;
     _files_dir := _files_dir s; _artifacts_dir := _artifacts_dir s;
     _metrics_dir := _metrics_dir s; _temp_dir := _temp_dir s;
     _metrics_file_paths := _metrics_file_paths s; _summary_path := _summary_path s;
     _metrics_files := _metrics_files s; _is_finished := _is_finished s |}.
Definition set_metric_roll_avg (v : option (gmap string (gmap string num))) (s : t) : t :=
  {| _log_mode := _log_mode s; _is_enabled := _is_enabled s; _name := _name s;
     _job_type := _job_type s; _project := _project s; _group := _group s;
     _entity := _entity s; _tags := _tags s; _notes := _notes s;
     _config := _config s; _reinit := _reinit s; is_sub_logger := is_sub_logger s;
     has_sub_loggers := has_sub_loggers s; _sub_loggers := _sub_loggers s;
     _metric_groups := _metric_groups s; _step_metrics := _step_metrics s;
     _metrics := _metrics s; _summary := _summary s; _wandb_mode := _wandb_mode s;
     _wandb_run := _wandb_run s; _bin_size := _bin_size s; _metric_roll_avg := v;
     _metric_n := _metric_n s; _local_base_dir := _local_base_dir s;
     _run_dir := _run_dir s; _files_dir := _files_dir s;
     _artifacts_dir := _artifacts_dir s; _metrics_dir := _metrics_dir s;
     _temp_dir := _temp_dir s; _metrics_file_paths := _metrics_file_paths s;
     _summary_path := _summary_path s; _metrics_files := _metrics_files s;
     _is_finished := _is_finished s |}.
Definition set_metric_n (v : option (gmap string counter)) (s : t) : t :=
  {| _log_mode := _log_mode s; _is_enabled := _is_enabled s; _name := _name s;
     _job_type := _job_type s; _project := _project s; _group := _group s;
     _entity := _entity s; _tags := _tags s; _notes := _notes s;
     _config := _config s; _reinit := _reinit s; is_sub_logger := is_sub_logger s;
     has_sub_loggers := has_sub_loggers s; _sub_loggers := _sub_loggers s;
     _metric_groups := _metric_groups s; _step_metrics := _step_metrics s;
     _metrics := _metrics s; _summary := _summary s; _wandb_mode := _wandb_mode s;
     _wandb_run := _wandb_run s; _bin_size := _bin_size s;
     _metric_roll_avg := _metric_roll_avg s; _metric_n := v;
     _local_base_dir := _local_base_dir s; _run_dir := _run_dir s;
     _files_dir := _files_dir s; _artifacts_dir := _artifacts_dir s;
     _metrics_dir := _metrics_dir s; _temp_dir := _temp_dir s;
     _metrics_file_paths := _metrics_file_paths s; _summary_path := _summary_path s;
     _metrics_files := _metrics_files s; _is_finished := _is_finished s |}.
Definition set_run_dir (v : option string) (s : t) : t :=
  {| _log_mode := _log_mode s; _is_enabled := _is_enabled s; _name := _name s;
     _job_type := _job_type s; _project := _project s; _group := _group s;
     _entity := _entity s; _tags := _tags s; _notes := _notes s;
     _config := _config s; _reinit := _reinit s; is_sub_logger := is_sub_logger s;
     has_sub_loggers := has_sub_loggers s; _sub_loggers := _sub_loggers s;
     _metric_groups := _metric_groups s; _step_metrics := _step_metrics s;
     _metrics := _metrics s; _summary := _summary s; _wandb_mode := _wandb_mode s;
     _wandb_run := _wandb_run s; _bin_size := _bin_size s;
     _metric_roll_avg := _metric_roll_avg s; _metric_n := _metric_n s;
     _local_base_dir := _local_base_dir s; _run_dir := v; _files_dir := _files_dir s;
     _artifacts_dir := _artifacts_dir s; _metrics_dir := _metrics_dir s;
     _temp_dir := _temp_dir s; _metrics_file_paths := _metrics_file_paths s;
     _summary_path := _summary_path s; _metrics_files := _metrics_files s;
     _is_finished := _is_finished s |}.
Definition set_files_dir (v : option string) (s : t) : t :=
  {| _log_mode := _log_mode s; _is_enabled := _is_enabled s; _name := _name s;
     _job_type := _job_type s; _project := _project s; _group := _group s;
     _entity := _entity s; _tags := _tags s; _notes := _notes s;
     _config := _config s; _reinit := _reinit s; is_sub_logger := is_sub_logger s;
     has_sub_loggers := has_sub_loggers s; _sub_loggers := _sub_loggers s;
     _metric_groups := _metric_groups s; _step_metrics := _step_metrics s;
     _metrics := _metrics s; _summary := _summary s; _wandb_mode := _wandb_mode s;
     _wandb_run := _wandb_run s; _bin_size := _bin_size s;
     _metric_roll_avg := _metric_roll_avg s; _metric_n := _metric_n s;
     _local_base_dir := _local_base_dir s; _run_dir := _run_dir s; _files_dir := v;
     _artifacts_dir := _artifacts_dir s; _metrics_dir := _metrics_dir s;
     _temp_dir := _temp_dir s; _metrics_file_paths := _metrics_file_paths s;
     _summary_path := _summary_path s; _metrics_files := _metrics_files s;
     _is_finished := _is_finished s |}.
Definition set_artifacts_dir (v : option string) (s : t) : t :=
  {| _log_mode := _log_mode s; _is_enabled := _is_enabled s; _name := _name s;
     _job_type := _job_type s; _project := _project s; _group := _group s;
     _entity := _entity s; _tags := _tags s; _notes := _notes s;
     _config := _config s; _reinit := _reinit s; is_sub_logger := is_sub_logger s;
     has_sub_loggers := has_sub_loggers s; _sub_loggers := _sub_loggers s;
     _metric_groups := _metric_groups s; _step_metrics := _step_metrics s;
     _metrics := _metrics s; _summary := _summary s; _wandb_mode := _wandb_mode s;
     _wandb_run := _wandb_run s; _bin_size := _bin_size s;
     _metric_roll_avg := _metric_roll_avg s; _metric_n := _metric_n s;
     _local_base_dir := _local_base_dir s; _run_dir := _run_dir s;
     _files_dir := _files_dir s; _artifacts_dir := v; _metrics_dir := _metrics_dir s;
     _temp_dir := _temp_dir s; _metrics_file_paths := _metrics_file_paths s;
     _summary_path := _summary_path s; _metrics_files := _metrics_files s;
     _is_finished := _is_finished s |}.
Definition set_metrics_dir (v : option string) (s : t) : t :=
  {| _log_mode := _log_mode s; _is_enabled := _is_enabled s; _name := _name s;
     _job_type := _job_type s; _project := _project s; _group := _group s;
     _entity := _entity s; _tags := _tags s; _notes := _notes s;
     _config := _config s; _reinit := _reinit s; is_sub_logger := is_sub_logger s;
     has_sub_loggers := has_sub_loggers s; _sub_loggers := _sub_loggers s;
     _metric_groups := _metric_groups s; _step_metrics := _step_metrics s;
     _metrics := _metrics s; _summary := _summary s; _wandb_mode := _wandb_mode s;
     _wandb_run := _wandb_run s; _bin_size := _bin_size s;
     _metric_roll_avg := _metric_roll_avg s; _metric_n := _metric_n s;
     _local_base_dir := _local_base_dir s; _run_dir := _run_dir s;
     _files_dir := _files_dir s; _artifacts_dir := _artifacts_dir s;
     _metrics_dir := v; _temp_dir := _temp_dir s;
     _metrics_file_paths := _metrics_file_paths s; _summary_path := _summary_path s;
     _metrics_files := _metrics_files s; _is_finished := _is_finished s |}.
Definition set_temp_dir (v : option string) (s : t) : t :=
  {| _log_mode := _log_mode s; _is_enabled := _is_enabled s; _name := _name s;
     _job_type := _job_type s; _project := _project s; _group := _group s;
     _entity := _entity s; _tags := _tags s; _notes := _notes s;
     _config := _config s; _reinit := _reinit s; is_sub_logger := is_sub_logger s;
     has_sub_loggers := has_sub_loggers s; _sub_loggers := _sub_loggers s;
     _metric_groups := _metric_groups s; _step_metrics := _step_metrics s;
     _metrics := _metrics s; _summary := _summary s; _wandb_mode := _wandb_mode s;
     _wandb_run := _wandb_run s; _bin_size := _bin_size s;
     _metric_roll_avg := _metric_roll_avg s; _metric_n := _metric_n s;
     _local_base_dir := _local_base_dir s; _run_dir := _run_dir s;
     _files_dir := _files_dir s; _artifacts_dir := _artifacts_dir s;
     _metrics_dir := _metrics_dir s; _temp_dir := v;
     _metrics_file_paths := _metrics_file_paths s; _summary_path := _summary_path s;
     _metrics_files := _metrics_files s; _is_finished := _is_finished s |}.
Definition set_metrics_file_paths (v : option (gmap string string)) (s : t) : t :=
  {| _log_mode := _log_mode s; _is_enabled := _is_enabled s; _name := _name s;
     _job_type := _job_type s; _project := _project s; _group := _group s;
     _entity := _entity s; _tags := _tags s; _notes := _notes s;
     _config := _config s; _reinit := _reinit s; is_sub_logger := is_sub_logger s;
     has_sub_loggers := has_sub_loggers s; _sub_loggers := _sub_loggers s;
     _metric_groups := _metric_groups s; _step_metrics := _step_metrics s;
     _metrics := _metrics s; _summary := _summary s; _wandb_mode := _wandb_mode s;
     _wandb_run := _wandb_run s; _bin_size := _bin_size s;
     _metric_roll_avg := _metric_roll_avg s; _metric_n := _metric_n s;
     _local_base_dir := _local_base_dir s; _run_dir := _run_dir s;
     _files_dir := _files_dir s; _artifacts_dir := _artifacts_dir s;
     _metrics_dir := _metrics_dir s; _temp_dir := _temp_dir s;
     _metrics_file_paths := v; _summary_path := _summary_path s;
     _metrics_files := _metrics_files s; _is_finished := _is_finished s |}.
Definition set_summary_path (v : option string) (s : t) : t :=
  {| _log_mode := _log_mode s; _is_enabled := _is_enabled s; _name := _name s;
     _job_type := _job_type s; _project := _project s; _group := _group s;
     _entity := _entity s; _tags := _tags s; _notes := _notes s;
     _config := _config s; _reinit := _reinit s; is_sub_logger := is_sub_logger s;
     has_sub_loggers := has_sub_loggers s; _sub_loggers := _sub_loggers s;
     _metric_groups := _metric_groups s; _step_metrics := _step_metrics s;
     _metrics := _metrics s; _summary := _summary s; _wandb_mode := _wandb_mode s;
     _wandb_run := _wandb_run s; _bin_size := _bin_size s;
     _metric_roll_avg := _metric_roll_avg s; _metric_n := _metric_n s;
     _local_base_dir := _local_base_dir s; _run_dir := _run_dir s;
     _files_dir := _files_dir s; _artifacts_dir := _artifacts_dir s;
     _metrics_dir := _metrics_dir s; _temp_dir := _temp_dir s;
     _metrics_file_paths := _metrics_file_paths s; _summary_path := v;
     _metrics_files := _metrics_files s; _is_finished := _is_finished s |}.
Definition set_metrics_files (v : option (gmap string TextIO)) (s : t) : t :=
  {| _log_mode := _log_mode s; _is_enabled := _is_enabled s; _name := _name s;
     _job_type := _job_type s; _project := _project s; _group := _group s;
     _entity := _entity s; _tags := _tags s; _notes := _notes s;
     _config := _config s; _reinit := _reinit s; is_sub_logger := is_sub_logger s;
     has_sub_loggers := has_sub_loggers s; _sub_loggers := _sub_loggers s;
     _metric_groups := _metric_groups s; _step_metrics := _step_metrics s;
     _metrics := _metrics s; _summary := _summary s; _wandb_mode := _wandb_mode s;
     _wandb_run := _wandb_run s; _bin_size := _bin_size s;
     _metric_roll_avg := _metric_roll_avg s; _metric_n := _metric_n s;
     _local_base_dir := _local_base_dir s; _run_dir := _run_dir s;
     _files_dir := _files_dir s; _artifacts_dir := _artifacts_dir s;
     _metrics_dir := _metrics_dir s; _temp_dir := _temp_dir s;
     _metrics_file_paths := _metrics_file_paths s; _summary_path := _summary_path s;
     _metrics_files := v; _is_finished := _is_finished s |}.

(** A method runs on the object and the world. *)
Abbreviation Method A := (M (t * World) A).

Definition get_self : Method t := λ st, (Ok st.1, st).
Definition set_self (f : t → t) : Method unit := modify (λ st, (f st.1, st.2)).
Definition io {A} (c : M World A) : Method A :=
  λ st, match c st.2 with (r, w') => (r, (st.1, w')) end.

Definition conv_to_json_d (x : option string) : M World (option string) :=
  OS.print "WARNING: conv_to_json_d not properly implemented" ;;;
  ret x.

(** *** File objects held by the logger *)

(** [self._metrics_files[group].write(text)] *)
Definition file_write (group text : string) : Method unit :=
  let* s := get_self in
  match _metrics_files s with
  | None => raise (TypeError NoneNotSubscriptable)
  | Some files =>
      let* f := lift_result (getitem files group) in
      if f_closed f then raise (ValueError (ClosedFile (f_path f)))
      else
        set_self (set_metrics_files (Some (<[group :=
          {| f_path := f_path f; f_text := f_text f +:+ text; f_closed := false |}]> files))) ;;;
        io (modify (OS.emit (FsWrite (f_path f) text)))
  end.

(** [curr_file.close()] for the file of [group]; closing twice is allowed. *)
Definition file_close (group : string) : Method unit :=
  let* s := get_self in
  match _metrics_files s with
  | None => raise (AttributeError NoneHasNoAttribute)
  | Some files =>
      match files !! group with
      | Some f =>
          if f_closed f then ret tt
          else
            set_self (set_metrics_files (Some (<[group :=
              {| f_path := f_path f; f_text := f_text f; f_closed := true |}]> files))) ;;;
            io (modify (OS.emit (FsClose (f_path f))))
      | None => ret tt
      end
  end.

(** *** Setup *)

Section with_runtime.
Context `{PyRuntime}.

(** [list(set(curr_metrics).difference({step_metric}))] *)
Definition clean_metrics (step_metric : string) (curr_metrics : list string) : list string :=
  list_set_difference curr_metrics step_metric.

Definition _setup_local (reinit : bool) : Method unit :=
  when (negb reinit) (raise (NotImplementedError ReinitFalse)) ;;;
  (* SETUP PATHS *)
  let* s := get_self in
  let* run_dir := lift_result (utils.join_paths [_local_base_dir s; Some (_name s)]) in
  set_self (set_run_dir (Some run_dir)) ;;;
  let* summary_path := lift_result (utils.join_paths [Some run_dir; Some "summary.json"]) in
  set_self (set_summary_path (Some summary_path)) ;;;
  let* temp_dir := lift_result (utils.join_paths [Some run_dir; Some "temp"]) in
  set_self (set_temp_dir (Some temp_dir)) ;;;
  let* files_dir := lift_result (utils.join_paths [Some run_dir; Some "files"]) in
  set_self (set_files_dir (Some files_dir)) ;;;
  let* artifacts_dir := lift_result (utils.join_paths [Some run_dir; Some "artifacts"]) in
  set_self (set_artifacts_dir (Some artifacts_dir)) ;;;
  let* metrics_dir := lift_result (utils.join_paths [Some run_dir; Some "metrics"]) in
  set_self (set_metrics_dir (Some metrics_dir)) ;;;
  let* isdir := io (OS.path_isdir run_dir) in
  when isdir (io (OS.print ("WARNING: run_dir=" +:+ run_dir +:+ " existed and was cleared"))) ;;;
  io (utils.create_or_clear_folder run_dir) ;;;
  io (OS.mkdir temp_dir) ;;;
  io (OS.mkdir files_dir) ;;;
  io (OS.mkdir artifacts_dir) ;;;
  io (OS.mkdir metrics_dir) ;;;
  (* CONFIG & 'METADATA' *)
  let* config_path := lift_result (utils.join_paths [Some run_dir; Some "config.json"]) in
  io (utils.save_json (JConfig (_config s)) config_path) ;;;
  let metadata_d := JMetadata (_name s) (_job_type s) (_project s) (_group s)
                              (_entity s) (_tags s) (_notes s) in
  let* metadata_path := lift_result (utils.join_paths [Some run_dir; Some "metadata.json"]) in
  io (OS.dump_json metadata_path metadata_d) ;;;
  (* METRICS *)
  set_self (set_metrics_file_paths (Some ∅)) ;;;
  set_self (set_metrics_files (Some ∅)) ;;;
  for_each (_metric_groups s) (λ metric_group,
    let* curr_path :=
      lift_result (utils.join_paths [Some metrics_dir; Some (metric_group +:+ ".csv")]) in
    io (modify (λ w, OS.emit (FsOpenW curr_path)
                       (OS.set_fs (<[curr_path:=File]> (w_fs w)) w))) ;;;
    let curr_file := {| f_path := curr_path; f_text := EmptyString; f_closed := false |} in
    set_self (λ s, set_metrics_file_paths
      (Some (<[metric_group:=curr_path]> (default ∅ (_metrics_file_paths s)))) s) ;;;
    set_self (λ s, set_metrics_files
      (Some (<[metric_group:=curr_file]> (default ∅ (_metrics_files s)))) s) ;;;
    let* group_metrics := lift_result (getitem (_metrics s) metric_group) in
    when (bool_decide (length group_metrics = 0))
      (raise (ValueError (MetricsEmpty metric_group))) ;;;
    let* step_metric := lift_result (getitem (_step_metrics s) metric_group) in
    let cols_str := step_metric +:+ "," +:+ str_join "," group_metrics in
    file_write metric_group cols_str) ;;;
  (* STATUS *)
  let* status_path := lift_result (utils.join_paths [Some run_dir; Some "status.txt"]) in
  io (OS.write_file status_path "started").

(** [for name, step_metric in metrics_arr]: each element is a metric name, a
    string, and unpacks into two names only if it has exactly two characters. *)
Definition unpack_pair (x : string) : result (string * string) :=
  match x with
  | String a (String b EmptyString) => Ok (String a EmptyString, String b EmptyString)
  | _ => Raise (ValueError (UnpackString x))
  end.

Definition _setup_wandb (reinit : bool) : Method unit :=
  let* s := get_self in
  io (OS.wandb (WandbInit (_job_type s) (_config s) (_project s) (_entity s) reinit
                          (_tags s) (_group s) (_notes s) (_wandb_mode s))) ;;;
  set_self (set_wandb_run (Some WandbRun)) ;;;
  (* SETUP PATHS *)
  let run_dir := wandb_run_dir in
  set_self (set_run_dir (Some run_dir)) ;;;
  let* temp_dir := lift_result (utils.join_paths [Some run_dir; Some "temp"]) in
  set_self (set_temp_dir (Some temp_dir)) ;;;
  let* files_dir := lift_result (utils.join_paths [Some run_dir; Some "files"]) in
  set_self (set_files_dir (Some files_dir)) ;;;
  let* artifacts_dir := lift_result (utils.join_paths [Some run_dir; Some "artifacts"]) in
  set_self (set_artifacts_dir (Some artifacts_dir)) ;;;
  io (utils.create_or_clear_folder temp_dir) ;;;
  io (utils.create_or_clear_folder files_dir) ;;;
  io (utils.create_or_clear_folder artifacts_dir) ;;;
  (* SETUP METRICS: the dict is walked in insertion order, that of the groups *)
  for_each (_metric_groups s) (λ metric_group,
    match _metrics s !! metric_group with
    | Some metrics_arr =>
        for_each metrics_arr (λ x,
          let* name_step := lift_result (unpack_pair x) in
          io (OS.wandb (WandbDefineMetric name_step.1 name_step.2)))
    | None => ret tt
    end).

(** [{metric_group: {metric: zero for metric in self._metrics[metric_group]}
      for metric_group in self._metric_groups}]; every group is a key of
    [self._metrics]. *)
Definition per_metric {V W} (wrap : gmap string V → W) (zero : V) (s : t) : gmap string W :=
  list_to_map ((λ metric_group,
    (metric_group,
     wrap (list_to_map ((λ metric, (metric, zero)) <$> (_metrics s !!! metric_group)))))
    <$> _metric_groups s).

Definition _setup (reinit : option bool) : Method unit :=
  let* s := get_self in
  when (_is_enabled s) (
    (* BINNING *)
    when (bool_decide (is_Some (_bin_size s))) (
      set_self (set_metric_roll_avg (Some (per_metric id (PInt 0) s))) ;;;
      set_self (set_metric_n (Some (per_metric CDict 0%Z s)))) ;;;
    let reinit := default (_reinit s) reinit in
    (* SETUP LOCAL OR WANDB *)
    match _log_mode s with
    | LOCAL => _setup_local reinit
    | WANDB => _setup_wandb reinit
    | DISABLED => ret tt
    end).

(** *** Construction *)

Definition parse_log_mode (log_mode : string) : result LogMode :=
  if bool_decide (log_mode = "disabled") then Ok DISABLED
  else if bool_decide (log_mode = "wandb") then Ok WANDB
  else if bool_decide (log_mode = "local") then Ok LOCAL
  else Raise (ValueError (InvalidLogMode log_mode)).

(** The METRICS block: the step metric of every group, and its metric list
    with repeats and the step metric removed. Both dicts have the keys of
    [metrics], so the lookup of the step metric cannot fail. *)
Definition init_step_metrics (metrics : list (string * (string * list string)))
  : gmap string string :=
  list_to_map ((λ it, (it.1, it.2.1)) <$> metrics).

Definition init_metrics (metrics : list (string * (string * list string)))
  : gmap string (list string) :=
  let step_metrics := init_step_metrics metrics in
  let _metrics : gmap string (list string) :=
    list_to_map ((λ it, (it.1, it.2.2)) <$> metrics) in
  map_imap (λ metric_group curr_metrics,
    (λ step_metric, clean_metrics step_metric curr_metrics) <$> step_metrics !! metric_group)
    _metrics.

(** The SUMMARY block (local mode). *)
Definition init_summary (_metrics : gmap string (list string))
    (_step_metrics : gmap string string) : gmap string summary_group :=
  let summary : gmap string summary_group :=
    (λ metrics_arr, list_to_map ((λ metric, (metric, None)) <$> metrics_arr)) <$> _metrics in
  map_fold (λ metric_group step_metric summary,
    alter (λ g, <[step_metric:=None]> g) metric_group summary) summary _step_metrics.

(** The BINNING block. *)
Definition init_bin_size (bin_size : bin_size_arg) (metric_groups : list string)
  : result (option (gmap string Z)) :=
  match bin_size with
  | BinNone => Ok None
  | BinInt n => Ok (Some (list_to_map ((λ group, (group, n)) <$> metric_groups)))
  | BinDict d =>
      if bool_decide (dom d ≠ list_to_set metric_groups)
      then Raise (ValueError BinSizeKeys)
      else Ok (Some d)
  | BinOther => Raise (TypeError BinSizeType)
  end.

Definition valid_wandb_modes : list string := ["online"; "local"; "disabled"].

(** The object as [__init__] leaves it just before the SETUP block: every
    attribute assigned, the directories, paths, files and bin accumulators
    still [None]. *)
Definition new_object (a : Args.t) (log_mode : LogMode) (config : option string)
    (bin_size : option (gmap string Z)) : t :=
  let is_enabled := negb (LogMode_eqb log_mode DISABLED) in
  let metrics := init_metrics (Args.metrics a) in
  let step_metrics := init_step_metrics (Args.metrics a) in
  {| _log_mode := log_mode; _is_enabled := is_enabled; _name := Args.name a;
     _job_type := Args.job_type a; _project := Args.project a; _group := Args.group a;
     _entity := Args.entity a; _tags := Args.tags a; _notes := Args.notes a;
     _config := config; _reinit := Args.reinit a;
     is_sub_logger := Args.is_sub_logger a;
     has_sub_loggers := bool_decide (is_Some (Args.sub_loggers a));
     _sub_loggers := default [] (Args.sub_loggers a);
     _metric_groups := (Args.metrics a).*1; _step_metrics := step_metrics;
     _metrics := metrics;
     _summary := if is_enabled && LogMode_eqb log_mode LOCAL
                 then Some (init_summary metrics step_metrics) else None;
     _wandb_mode := Args.wandb_mode a; _wandb_run := None;
     _bin_size := bin_size; _metric_roll_avg := None; _metric_n := None;
     _local_base_dir := Args.local_base_dir a; _run_dir := None; _files_dir := None;
     _artifacts_dir := None; _metrics_dir := None; _temp_dir := None;
     _metrics_file_paths := None; _summary_path := None; _metrics_files := None;
     _is_finished := false |}.

(** The checks of [__init__] come in the order of the source: LOG MODE, SUB
    LOGGER, WANDB SPECIFIC, BINNING; the METRICS and SUMMARY blocks between
    them cannot raise. *)
Definition __init__ (a : Args.t) : M World t :=
  (* LOG MODE *)
  let* log_mode := lift_result (parse_log_mode (Args.log_mode a)) in
  (* GEN VARS *)
  let* config := conv_to_json_d (Args.config a) in
  (* SUB LOGGER *)
  when (Args.is_sub_logger a && bool_decide (is_Some (Args.sub_loggers a)))
    (raise (ValueError SubLoggersOfSubLogger)) ;;;
  (* WANDB SPECIFIC *)
  when (bool_decide (Args.wandb_mode a ∉ valid_wandb_modes))
    (raise (ValueError (InvalidWandbMode (Args.wandb_mode a)))) ;;;
  (* BINNING *)
  let* bin_size := lift_result (init_bin_size (Args.bin_size a) (Args.metrics a).*1) in
  let self := new_object a log_mode config bin_size in
  (* SETUP *)
  λ w, match when (_is_enabled self) (_setup None) (self, w) with
       | (Ok _, (self', w')) => (Ok self', w')
       | (Raise e, (_, w')) => (Raise e, w')
       end.

(** *** Logging: local backend *)

(** [str(dd[col])] with [dd = defaultdict] over [d] whose default is the empty string: the value's text,
    or the empty string for a metric the record omits. *)
Definition cell (d : gmap string num) (col : string) : string :=
  match d !! col with
  | Some v => str v
  | None => EmptyString
  end.

Definition _to_row (d : gmap string num) (group : string) (check_keys : bool)
  : Method string :=
  let* s := get_self in
  let* group_metrics := lift_result (getitem (_metrics s) group) in
  let* step_metric := lift_result (getitem (_step_metrics s) group) in
  when (bool_decide (step_metric ∉ dom d))
    (raise (ValueError (StepMetricMissing step_metric))) ;;;
  (* Check if non-registered keys are in d *)
  when check_keys (
    let set_diff : gset string := dom d ∖ list_to_set group_metrics in
    when (bool_decide (size set_diff = 0))
      (raise (ValueError (UnregisteredKeys set_diff)))) ;;;
  let arr := cell d <$> group_metrics in
  let* d_step := lift_result (getitem d step_metric) in
  let row := str d_step +:+ "," +:+ str_join "," arr in
  ret row.

Definition _log_local (d : gmap string num) (group : string) (check_keys : bool)
  : Method unit :=
  let* s := get_self in
  when (bool_decide (group ∉ dom (_metrics s)))
    (raise (ValueError (InvalidGroup group))) ;;;
  match _summary s with
  | None => raise (TypeError NoneNotSubscriptable)
  | Some summary =>
      let* summary_group := lift_result (getitem summary group) in
      set_self (set_summary
        (Some (<[group := utils.copy_to_dict (Some <$> d) summary_group]> summary)))
  end ;;;
  let* row := _to_row d group check_keys in
  file_write group (newline +:+ row).

Definition _log_file_local (file_path : string) : Method unit :=
  let* s := get_self in
  let file_name := os_path_basename file_path in
  let* new_path := lift_result (utils.join_paths [_files_dir s; Some file_name]) in
  let* ex := io (OS.path_exists new_path) in
  if ex then io (OS.print ("WARNING: " +:+ file_name +:+ " already in files dir so skipped."))
  else
    match _files_dir s with
    | Some files_dir => io (OS.copy file_path files_dir new_path)
    | None => raise (TypeError JoinNoneOrMissing)
    end.

(** *** Logging: remote backend *)

Definition _log_wandb (d : gmap string num) (commit : bool) : Method unit :=
  let* s := get_self in
  match _wandb_run s with
  | Some _ => io (OS.wandb (WandbLog d commit))
  | None => raise (AttributeError NoneHasNoAttribute)
  end.

Definition _log_file_wandb (file_path : string) : Method unit :=
  let* s := get_self in
  let file_name := os_path_basename file_path in
  let* new_path := lift_result (utils.join_paths [_files_dir s; Some file_name]) in
  io (OS.copy file_path new_path new_path) ;;;
  match _wandb_run s, _files_dir s with
  | Some _, Some files_dir => io (OS.wandb (WandbSave new_path files_dir "live"))
  | _, _ => raise (AttributeError NoneHasNoAttribute)
  end.

(** *** Logging: public methods *)

Definition log (d : gmap string num) (group : string) (check_keys : bool) : Method unit :=
  let* s := get_self in
  when (_is_enabled s) (
    when (bool_decide (group ∉ dom (_metrics s)))
      (raise (ValueError (InvalidGroup group))) ;;;
    when check_keys (
      let* step_metric := lift_result (getitem (_step_metrics s) group) in
      let* group_metrics := lift_result (getitem (_metrics s) group) in
      let s' : gset string := dom d ∖ {[step_metric]} in
      let set_diff : gset string := s' ∖ list_to_set group_metrics in
      when (bool_decide (size set_diff ≠ 0))
        (raise (ValueError (InvalidKeys set_diff)))) ;;;
    match _log_mode s with
    | LOCAL => _log_local d group false
    | WANDB => _log_wandb d true
    | DISABLED =>
        (* This should never be entered, but error thrown just in case *)
        raise (ValueError Unreachable)
    end).

(** [new_avg = curr_avg * (n-1)/n + val/n] *)
Definition new_avg (curr_avg : num) (n : Z) (val : num) : result num :=
  match Num.div (Num.mul curr_avg (PInt (n - 1))) (PInt n), Num.div val (PInt n) with
  | Ok x, Ok y => Ok (Num.add x y)
  | Raise e, _ => Raise e
  | _, Raise e => Raise e
  end.

Definition log_binned (d : gmap string num) (group : string) : Method unit :=
  let* s := get_self in
  when (_is_enabled s) (
    when (bool_decide (_bin_size s = None))
      (raise (ValueError BinSizeIsNone)) ;;;
    when (bool_decide (group ∉ dom (_metrics s)))
      (raise (ValueError (InvalidGroup group))) ;;;
    let* group_metrics := lift_result (getitem (_metrics s) group) in
    when (bool_decide (dom d ≠ list_to_set group_metrics))
      (raise (ValueError BinnedKeys)) ;;;
    let* group_bin_size := lift_result (getitem_opt (_bin_size s) group) in
    (* TODO: Check this is correct *)
    let* count := lift_result (getitem_opt (_metric_n s) group) in
    let* n := match count with
              | CInt k => ret (k + 1)%Z
              | CDict _ => raise (TypeError DictPlusInt)
              end in
    for_each (map_to_list d) (λ metric_val,
      let metric := metric_val.1 in
      let val := metric_val.2 in
      let* s := get_self in
      let* roll_avg := lift_result (getitem_opt (_metric_roll_avg s) group) in
      let* curr_avg := lift_result (getitem roll_avg metric) in
      (* Calc rolling average iteratively *)
      let* new_avg := lift_result (new_avg curr_avg n val) in
      set_self (set_metric_roll_avg
        (Some (<[group := <[metric := new_avg]> roll_avg]>
                 (default ∅ (_metric_roll_avg s)))))) ;;;
    when (bool_decide (n = group_bin_size)) (
      let* s := get_self in
      let* avg_d := lift_result (getitem_opt (_metric_roll_avg s) group) in
      set_self (set_metric_n (Some (<[group := CInt 0]> (default ∅ (_metric_n s))))) ;;;
      log avg_d group false)).

Definition log_file (file_path : string) : Method unit :=
  let* s := get_self in
  when (_is_enabled s) (
    match _log_mode s with
    | LOCAL => _log_file_local file_path
    | WANDB => _log_file_wandb file_path
    | DISABLED => ret tt
    end).

Definition log_summary : Method unit :=
  let* s := get_self in
  when (_is_enabled s && LogMode_eqb (_log_mode s) LOCAL) (
    match _summary s, _summary_path s with
    | None, _ => raise (ValueError SummaryNotSet)
    | Some summary, Some summary_path =>
        io (utils.save_json (JSummary summary) summary_path)
    | Some _, None => raise (TypeError JoinNoneOrMissing)
    end).

(** *** Finish *)

Definition finish : Method unit :=
  let* s := get_self in
  when (_is_enabled s) (
    when (_is_finished s)
      (raise (RuntimeError AlreadyFinished)) ;;;
    match _log_mode s with
    | LOCAL =>
        (* Close metric files (assume open); the dict is walked in insertion
           order, that of the groups *)
        match _metrics_files s with
        | None => raise (AttributeError NoneHasNoAttribute)
        | Some _ => for_each (_metric_groups s) file_close
        end ;;;
        (* SUMMARY *)
        log_summary ;;;
        (* STATUS *)
        let* status_path := lift_result (utils.join_paths [_run_dir s; Some "status.txt"]) in
        io (OS.write_file status_path "finished")
    | WANDB =>
        match _wandb_run s with
        | Some _ => io (OS.wandb WandbFinish)
        | None => raise (AttributeError NoneHasNoAttribute)
        end
    | DISABLED => ret tt
    end).

End with_runtime.
End Logger.

Import Logger.

(** * Vocabulary of the properties *)

(** ** Attributes that a method leaves alone *)

(** [keeps π c]: running [c], to a result or to an exception, leaves the
    attributes selected by [π] as they were. *)
Definition keeps {X A} (π : t → X) (c : Method A) : Prop :=
  ∀ st r st', c st = (r, st') → π st'.1 = π st.1.

(** The attributes assigned by [__init__] alone. *)
Definition fixed (s : t) :=
  (_log_mode s, _is_enabled s, _name s, _job_type s, _project s, _group s, _entity s,
   _tags s, _notes s, _config s, _reinit s, is_sub_logger s, has_sub_loggers s,
   _sub_loggers s, _metric_groups s, _step_metrics s, _metrics s, _wandb_mode s,
   _bin_size s, _local_base_dir s, _is_finished s).

(** ** Construction *)

(** The world after the warning that [conv_to_json_d] prints. *)
Definition warned (w : World) : World :=
  {| w_fs := w_fs w; w_io := w_io w;
     w_stdout := w_stdout w ++ ["WARNING: conv_to_json_d not properly implemented"] |}.

(** The errors the specification calls [ConfigurationError]: the [ValueError]s
    and the [TypeError] that [__init__] and the local setup raise about the
    constructor's arguments. *)
Definition ConfigurationError (e : exn) : Prop :=
  match e with
  | ValueError (InvalidLogMode _) | ValueError SubLoggersOfSubLogger
  | ValueError (InvalidWandbMode _) | ValueError BinSizeKeys
  | TypeError BinSizeType | ValueError (MetricsEmpty _) => True
  | _ => False
  end.

(** ** Metrics files *)

(** The header line of a metrics file as [_setup_local] writes it. *)
Definition header (step_metric : string) (cols : list string) : string :=
  step_metric +:+ "," +:+ str_join "," cols.

(** What the METRICS loop of [_setup_local] has established for a group. *)
Definition file_ready (s0 : t) (files : gmap string TextIO) (group : string) : Prop :=
  ∃ f step_metric cols,
    files !! group = Some f ∧ f_closed f = false ∧
    _step_metrics s0 !! group = Some step_metric ∧
    _metrics s0 !! group = Some cols ∧ cols ≠ [] ∧
    f_text f = header step_metric cols.

(** The file object after [text] has been written through it. *)
Definition appended (f : TextIO) (text : string) : TextIO :=
  {| f_path := f_path f; f_text := f_text f +:+ text; f_closed := false |}.

(** The text written so far to the metrics file of [group]. *)
Definition csv_text (s : t) (group : string) : option string :=
  files ← _metrics_files s; f ← files !! group; Some (f_text f).

(** ** An active local logger *)

(** [group] is a group of the local logger [s], with step metric
    [step_metric] and metric columns [cols], and its metrics file is open:
    the state between a successful construction and [finish]. *)
Record registered (s : t) (group step_metric : string) (cols : list string) : Prop := {
  reg_mode : _log_mode s = LOCAL;
  reg_enabled : _is_enabled s = true;
  reg_step : _step_metrics s !! group = Some step_metric;
  reg_cols : _metrics s !! group = Some cols;
  reg_nonempty : cols ≠ [];
  reg_summary : ∃ summary, _summary s = Some summary ∧ is_Some (summary !! group);
  reg_file : ∃ files f,
    _metrics_files s = Some files ∧ files !! group = Some f ∧ f_closed f = false;
}.

(** A row as the specification describes it: the step value, then the value
    of every column in the group's order, an omitted one empty, separated by
    commas. *)
Definition csv_row `{PyRuntime} (d : gmap string num) (step_metric : string)
    (cols : list string) : string :=
  str_join "," (cell d step_metric :: (cell d <$> cols)).

(** The state after a successful local [log]: the record merged into the
    group's summary and one row appended to the group's file. *)
Definition logged (s : t) (group : string) (d : gmap string num)
    (summary : gmap string summary_group) (summary_group : summary_group)
    (files : gmap string TextIO) (f : TextIO) (row : string) : t :=
  set_metrics_files (Some (<[group := appended f (newline +:+ row)]> files))
    (set_summary (Some (<[group := utils.copy_to_dict (Some <$> d) summary_group]> summary)) s).

(** [log] called once per element of [calls], each a record with its
    [check_keys] flag, for the same group. *)
Definition log_all `{PyRuntime} (group : string) (calls : list (gmap string num * bool))
  : Method unit :=
  for_each calls (λ call, log call.1 group call.2).

(** A call of [log] that the group accepts: the record holds the step metric
    and, when keys are checked, no key outside the group's schema. *)
Definition accepted (step_metric : string) (cols : list string)
    (call : gmap string num * bool) : Prop :=
  step_metric ∈ dom call.1 ∧
  (call.2 = true → dom call.1 ∖ {[step_metric]} ∖ list_to_set cols = (∅ : gset string)).

(** The paths that [_setup_local] leaves behind: the run directory, the path
    of the summary, and a status path that [join_paths] has already built
    once. *)
Definition finishable `{PyRuntime} (s : t) : Prop :=
  ∃ run_dir summary_path status_path,
    _run_dir s = Some run_dir ∧ _summary_path s = Some summary_path ∧
    utils.join_paths [Some run_dir; Some "status.txt"] = Ok status_path.

(** ** Vocabulary of the further properties *)

(** Whether the text holds a line break, the character of code 10. *)
Fixpoint has_line_break (text : string) : bool :=
  match text with
  | EmptyString => false
  | String c rest => Ascii.eqb c "010" || has_line_break rest
  end.

(** [text.split("\n")]: the text cut at every line break; a text that ends
    with a line break has an empty last line. *)
Fixpoint lines_of (text : string) : list string :=
  match text with
  | EmptyString => [EmptyString]
  | String c rest =>
      if Ascii.eqb c "010" then EmptyString :: lines_of rest
      else match lines_of rest with
           | line :: lines => String c line :: lines
           | [] => [String c EmptyString]
           end
  end.

(** The lines that the metrics file of a group should hold after [calls]:
    the header, then a row for every call. *)
Definition csv_lines `{PyRuntime} (step_metric : string) (cols : list string)
    (calls : list (gmap string num * bool)) : list string :=
  str_join "," (step_metric :: cols) ::
  ((λ call, csv_row call.1 step_metric cols) <$> calls).

(** No name of the group and no value of a record is written with a line
    break inside. *)
Definition free_of_line_breaks `{PyRuntime} (step_metric : string) (cols : list string)
    (calls : list (gmap string num * bool)) : Prop :=
  has_line_break step_metric = false ∧
  Forall (λ col, has_line_break col = false) cols ∧
  Forall (λ call : gmap string num * bool,
            map_Forall (λ _ v, has_line_break (str v) = false) call.1) calls.

(** [raises_only E c]: whenever [c] ends in an exception, it is one of [E]. *)
Definition raises_only {St A} (E : exn → Prop) (c : M St A) : Prop :=
  ∀ st e st', c st = (Raise e, st') → E e.

(** The [ValueError] of the emptiness check of [_setup_local], for a group
    whose metric list is empty in [metrics]. *)
Definition emptiness_error (metrics : gmap string (list string)) (e : exn) : Prop :=
  ∃ metric_group, e = ValueError (MetricsEmpty metric_group) ∧
                  metrics !! metric_group = Some [].

(** The exceptions of the steps that come before the emptiness check of a
    local construction: the argument checks of [__init__], [reinit=False], a
    path that cannot be joined, and a failing file-system call. *)
Definition raised_before_metrics (e : exn) : Prop :=
  match e with
  | ValueError SubLoggersOfSubLogger | ValueError (InvalidWandbMode _)
  | ValueError BinSizeKeys | TypeError BinSizeType
  | NotImplementedError ReinitFalse | TypeError JoinNoneOrMissing | OSError _ => True
  | _ => False
  end.

(** Any exception but the [ValueError] of the emptiness check. *)
Definition not_emptiness_error (e : exn) : Prop :=
  ∀ metric_group, e ≠ ValueError (MetricsEmpty metric_group).

(** The state in which [__init__] enters [_setup_local] or [_setup_wandb]:
    the bin accumulators are in place when a bin size was given. *)
Definition before_backend_setup (s : t) : t :=
  if bool_decide (is_Some (_bin_size s))
  then set_metric_n (Some (per_metric CDict 0%Z s))
         (set_metric_roll_avg (Some (per_metric id (PInt 0) s)) s)
  else s.

(** The arguments pass every check of [__init__] itself. *)
Definition passes_init_checks (a : Args.t) (log_mode : LogMode)
    (bin_size : option (gmap string Z)) : Prop :=
  parse_log_mode (Args.log_mode a) = Ok log_mode ∧
  Args.is_sub_logger a && bool_decide (is_Some (Args.sub_loggers a)) = false ∧
  Args.wandb_mode a ∈ valid_wandb_modes ∧
  init_bin_size (Args.bin_size a) (Args.metrics a).*1 = Ok bin_size.

(** What the summary holds for [key] of [group]: nothing when the group or
    the key is not there, [Some None] for a metric without a value yet. *)
Definition summary_value (s : t) (group key : string) : option (option num) :=
  summary ← _summary s; summary_group ← summary !! group; summary_group !! key.

(** The value of [key] in the last of [records] that has the key. *)
Fixpoint latest (records : list (gmap string num)) (key : string) : option num :=
  match records with
  | [] => None
  | d :: rest =>
      match latest rest key with
      | Some v => Some v
      | None => d !! key
      end
  end.

(** The attributes of the other groups that a [log] call for [group] cannot
    reach. *)
Definition others_of (other : string) (s : t) :=
  (_summary s ≫= (.!! other), _metrics_files s ≫= (.!! other)).

(** The file object after [close()]. *)
Definition closed (f : TextIO) : TextIO :=
  {| f_path := f_path f; f_text := f_text f; f_closed := true |}.

(** The call is the closing of a file. *)
Definition is_close (ev : io_event) : Prop :=
  match ev with
  | FsClose _ => True
  | _ => False
  end.

(** The calls with which [finish] ends in local mode: the summary is dumped,
    then the status is set. *)
Definition finish_trace (summary : gmap string summary_group)
    (summary_path status_path : string) : list io_event :=
  [FsOpenW summary_path; FsDumpJson summary_path (JSummary summary); FsClose summary_path;
   FsOpenW status_path; FsWrite status_path "finished"; FsClose status_path].

(** A call of one of the logger's working methods. *)
Inductive method_call : Type :=
  | CallLog (d : gmap string num) (group : string) (check_keys : bool)
  | CallLogBinned (d : gmap string num) (group : string)
  | CallLogFile (file_path : string)
  | CallLogSummary
  | CallFinish.

(** The method that a call runs. *)
Definition run_call `{PyRuntime} (c : method_call) : Method unit :=
  match c with
  | CallLog d group check_keys => log d group check_keys
  | CallLogBinned d group => log_binned d group
  | CallLogFile file_path => log_file file_path
  | CallLogSummary => log_summary
  | CallFinish => finish
  end.

(** A program that makes the calls one after the other and lets the first
    exception end it. *)
Definition run_calls `{PyRuntime} (calls : list method_call) : Method unit :=
  for_each calls run_call.

(** The world after [print(line)]. *)
Definition printed (line : string) (w : World) : World :=
  {| w_fs := w_fs w; w_io := w_io w; w_stdout := w_stdout w ++ [line] |}.

(** The calls that the METRICS loop of [_setup_local] makes for a group: its
    file is opened for writing and the header line written. *)
Definition group_setup_trace `{PyRuntime} (s : t) (metrics_dir group : string)
  : list io_event :=
  match utils.join_paths [Some metrics_dir; Some (group +:+ ".csv")],
        _step_metrics s !! group, _metrics s !! group with
  | Ok path, Some step_metric, Some cols =>
      [FsOpenW path; FsWrite path (header step_metric cols)]
  | _, _, _ => []
  end.

(** [w'] is [w] after the calls [evs] and the printed [lines]. *)
Definition grows (w w' : World) (evs : list io_event) (lines : list string) : Prop :=
  w_io w' = w_io w ++ evs ∧ w_stdout w' = w_stdout w ++ lines.

(** ** Concrete data for the examples *)

(** An interpreter that enumerates a set of strings in the order of
    [elements], joins paths with a slash and leaves them as they are. *)
Definition example_runtime : PyRuntime :=
  {| list_set_difference xs y := elements (list_to_set xs ∖ {[y]} : gset string);
     list_set_difference_perm xs y := reflexivity _;
     str_float _ := "float";
     os_path_join := String.concat "/";
     os_path_normpath := id;
     os_path_basename := id;
     wandb_run_dir := "wandb/run" |}.

(** Nothing on disk, nothing done yet. *)
Definition empty_world : World := {| w_fs := ∅; w_io := []; w_stdout := [] |}.

(** The arguments of the source's own [test()], one group ["train"] with step
    metric ["step"], with the log mode, the metric list and the bin size left
    open. *)
Definition example_args (log_mode : string) (metric_list : list string)
    (bin_size : bin_size_arg) : Args.t :=
  {| Args.log_mode := log_mode;
     Args.metrics := [("train", ("step", metric_list))];
     Args.name := "debug"; Args.job_type := None; Args.project := None;
     Args.reinit := true; Args.group := None; Args.tags := None;
     Args.entity := None; Args.notes := None; Args.config := None;
     Args.bin_size := bin_size; Args.wandb_mode := "online";
     Args.local_base_dir := Some "debug_data";
     Args.is_sub_logger := false; Args.sub_loggers := None |}.

(** The logger and the world that a construction returns, if it returns. *)
Definition constructed `{PyRuntime} (a : Args.t) (w : World) : option (t * World) :=
  match __init__ a w with
  | (Ok s, w') => Some (s, w')
  | (Raise _, _) => None
  end.

(** The record of the source's [test()], [{"step": 1, "metric1": 10}]. *)
Definition example_record : gmap string num :=
  {[ "step" := PInt 1; "metric1" := PInt 10 ]}.

(** The order that claim C7 names: the caller's list without the step metric
    and without repeats, every name at the place of its first occurrence. *)
Fixpoint first_occurrences (xs : list string) : list string :=
  match xs with
  | [] => []
  | x :: xs' => x :: filter (λ y, y ≠ x) (first_occurrences xs')
  end.

Definition insertion_order (step_metric : string) (ms : list string) : list string :=
  first_occurrences (filter (λ x, x ≠ step_metric) ms).

(** The arguments of the source's [test()] in local mode, with the
    arguments that the construction checks last left open. *)
Definition example_args_with (reinit : bool) (wandb_mode : string)
    (local_base_dir : option string) (is_sub_logger : bool)
    (sub_loggers : option (list sub_logger)) : Args.t :=
  {| Args.log_mode := "local";
     Args.metrics := [("train", ("step", ["metric1"; "metric2"]))];
     Args.name := "debug"; Args.job_type := None; Args.project := None;
     Args.reinit := reinit; Args.group := None; Args.tags := None;
     Args.entity := None; Args.notes := None; Args.config := None;
     Args.bin_size := BinNone; Args.wandb_mode := wandb_mode;
     Args.local_base_dir := local_base_dir;
     Args.is_sub_logger := is_sub_logger; Args.sub_loggers := sub_loggers |}.

(** A local logger with two groups. *)
Definition two_group_args : Args.t :=
  {| Args.log_mode := "local";
     Args.metrics := [("train", ("step", ["metric1"; "metric2"]));
                      ("eval", ("episode", ["reward"]))];
     Args.name := "debug"; Args.job_type := None; Args.project := None;
     Args.reinit := true; Args.group := None; Args.tags := None;
     Args.entity := None; Args.notes := None; Args.config := None;
     Args.bin_size := BinNone; Args.wandb_mode := "online";
     Args.local_base_dir := Some "debug_data";
     Args.is_sub_logger := false; Args.sub_loggers := None |}.

(** The second record of a run: only [metric1] is measured again. *)
Definition second_record : gmap string num :=
  {[ "step" := PInt 2; "metric1" := PInt 20 ]}.

(** * Lemmas and theorems *)

(** ** Reasoning about the monad *)

Lemma bind_Ok {St A B} (c : M St A) (k : A → M St B) st a st1 :
  c st = (Ok a, st1) → bind c k st = k a st1.
Proof. intros Hc. unfold bind. by rewrite Hc. Qed.

Lemma bind_Raise {St A B} (c : M St A) (k : A → M St B) st e st1 :
  c st = (Raise e, st1) → bind c k st = (Raise e, st1).
Proof. intros Hc. unfold bind. by rewrite Hc. Qed.

Lemma bind_inv_Ok {St A B} (c : M St A) (k : A → M St B) st b st' :
  bind c k st = (Ok b, st') →
  ∃ a st1, c st = (Ok a, st1) ∧ k a st1 = (Ok b, st').
Proof.
  unfold bind. destruct (c st) as [[a|e] st1]; [eauto | discriminate].
Qed.

Lemma bind_inv {St A B} (c : M St A) (k : A → M St B) st r st' :
  bind c k st = (r, st') →
  (∃ e, c st = (Raise e, st') ∧ r = Raise e) ∨
  (∃ a st1, c st = (Ok a, st1) ∧ k a st1 = (r, st')).
Proof.
  unfold bind. destruct (c st) as [[a|e] st1].
  - intros Hk. right. by exists a, st1.
  - intros [= <- <-]. left. by exists e.
Qed.

Lemma for_each_inv_Ok {St A} (P : list A → St → Prop) (body : A → M St unit) xs st st' :
  P [] st →
  (∀ pre x st1 st2, P pre st1 → body x st1 = (Ok tt, st2) → P (pre ++ [x]) st2) →
  for_each xs body st = (Ok tt, st') →
  P xs st'.
Proof.
  intros H0 Hstep. 
  assert (Hgen : ∀ pre st, P pre st → for_each xs body st = (Ok tt, st') → P (pre ++ xs) st').
  { clear H0 st. induction xs as [|x xs IH]; intros pre st HP Hrun; simpl in Hrun.
    - unfold ret in Hrun. inversion Hrun; subst. by rewrite app_nil_r.
    - apply bind_inv_Ok in Hrun as ([] & st1 & Hb & Hrest).
      replace (pre ++ x :: xs) with ((pre ++ [x]) ++ xs) by by rewrite <- app_assoc.
      eapply IH; [|done]. eauto. }
  intros. by apply (Hgen [] st).
Qed.

Lemma for_each_body_Ok {St A} (body : A → M St unit) xs st st' x :
  for_each xs body st = (Ok tt, st') → x ∈ xs →
  ∃ st1 st2, body x st1 = (Ok tt, st2).
Proof.
  revert st. induction xs as [|y xs IH]; intros st Hrun Hx; [by apply elem_of_nil in Hx|].
  simpl in Hrun. apply bind_inv_Ok in Hrun as ([] & st1 & Hb & Hrest).
  apply elem_of_cons in Hx as [->|Hx]; eauto.
Qed.

Theorem log_unknown_group `{PyRuntime} (s : t) (w : World) (d : gmap string num)
    (group : string) (check_keys : bool) :
  _is_enabled s = true →
  group ∉ dom (_metrics s) →
  log d group check_keys (s, w) = (Raise (ValueError (InvalidGroup group)), (s, w)).
Proof.
  intros Hen Hg. unfold log. cbn. rewrite Hen. cbn.
  rewrite bool_decide_true by done. reflexivity.
Qed.

Lemma disabled_methods `{PyRuntime} (s : t) (w : World) :
  _is_enabled s = false →
  (∀ d group check_keys, log d group check_keys (s, w) = (Ok tt, (s, w))) ∧
  (∀ d group, log_binned d group (s, w) = (Ok tt, (s, w))) ∧
  (∀ file_path, log_file file_path (s, w) = (Ok tt, (s, w))) ∧
  log_summary (s, w) = (Ok tt, (s, w)) ∧
  finish (s, w) = (Ok tt, (s, w)).
Proof.
  intros Hen. repeat split; intros;
    unfold log, log_binned, log_file, log_summary, finish; cbn; rewrite Hen; reflexivity.
Qed.

(** ** Attributes that a method leaves alone *)

Section keeps_rules.
Context {X : Type} (π : t → X).

Lemma keeps_ret {A} (a : A) : keeps π (ret a).
Proof. intros st r st' [= <- <-]. done. Qed.

Lemma keeps_raise {A} e : keeps π (@raise _ A e).
Proof. intros st r st' [= <- <-]. done. Qed.

Lemma keeps_lift_result {A} (x : result A) : keeps π (lift_result x).
Proof. intros st r st' [= <- <-]. done. Qed.

Lemma keeps_get_self : keeps π get_self.
Proof. intros st r st' [= <- <-]. done. Qed.

Lemma keeps_io {A} (c : M World A) : keeps π (io c).
Proof. intros [s w] r st'. unfold io. simpl. destruct (c w). intros [= <- <-]. done. Qed.

Lemma keeps_set_self (f : t → t) :
  (∀ s, π (f s) = π s) → keeps π (set_self f).
Proof. intros Hf st r st' [= <- <-]. apply Hf. Qed.

Lemma keeps_bind {A B} (c : Method A) (k : A → Method B) :
  keeps π c → (∀ a, keeps π (k a)) → keeps π (bind c k).
Proof.
  intros Hc Hk st r st'. unfold bind.
  destruct (c st) as [[a|e] st1] eqn:E.
  - intros Hrun. rewrite (Hk _ _ _ _ Hrun). eapply Hc, E.
  - intros [= <- <-]. eapply Hc, E.
Qed.

Lemma keeps_when (b : bool) (c : Method unit) :
  keeps π c → keeps π (when b c).
Proof. destruct b; [done|]. intros _. apply keeps_ret. Qed.

Lemma keeps_for_each {A} (xs : list A) (body : A → Method unit) :
  (∀ x, keeps π (body x)) → keeps π (for_each xs body).
Proof.
  intros Hb. induction xs as [|x xs IH]; simpl.
  - apply keeps_ret.
  - apply keeps_bind; auto.
Qed.

End keeps_rules.

Create HintDb keeps discriminated.

#[export] Hint Resolve keeps_ret keeps_raise keeps_lift_result keeps_get_self keeps_io
  keeps_bind keeps_when keeps_for_each : keeps.

(** Walks a method body; an assignment is accepted when the setter does not
    touch the selected attributes. *)
Ltac keeps :=
  repeat first
    [ progress intros
    | apply keeps_set_self; intros; reflexivity
    | solve [auto with keeps]
    | apply keeps_bind
    | apply keeps_when
    | apply keeps_for_each
    | match goal with
      | |- keeps _ (match ?x with _ => _ end) => destruct x
      | |- keeps _ (if ?x then _ else _) => destruct x
      end ].

Section keeps.
Context `{PyRuntime}.

Lemma keeps_fixed_file_write group text : keeps fixed (file_write group text).
Proof. unfold file_write. keeps. Qed.

Lemma keeps_fixed_file_close group : keeps fixed (file_close group).
Proof. unfold file_close. keeps. Qed.

Hint Resolve keeps_fixed_file_write keeps_fixed_file_close : keeps.

Lemma keeps_fixed_setup_local reinit : keeps fixed (_setup_local reinit).
Proof. unfold _setup_local. keeps. Qed.

Lemma keeps_fixed_setup_wandb reinit : keeps fixed (_setup_wandb reinit).
Proof. unfold _setup_wandb. keeps. Qed.

Hint Resolve keeps_fixed_setup_local keeps_fixed_setup_wandb : keeps.

Lemma keeps_fixed_setup reinit : keeps fixed (_setup reinit).
Proof. unfold _setup. keeps. Qed.

Lemma keeps_fixed_to_row d group check_keys : keeps fixed (_to_row d group check_keys).
Proof. unfold _to_row. keeps. Qed.

Hint Resolve keeps_fixed_to_row : keeps.

Lemma keeps_fixed_log_local d group check_keys : keeps fixed (_log_local d group check_keys).
Proof. unfold _log_local. keeps. Qed.

Lemma keeps_fixed_log_wandb d commit : keeps fixed (_log_wandb d commit).
Proof. unfold _log_wandb. keeps. Qed.

Hint Resolve keeps_fixed_log_local keeps_fixed_log_wandb : keeps.

Lemma keeps_fixed_log d group check_keys : keeps fixed (log d group check_keys).
Proof. unfold log. keeps. Qed.

Hint Resolve keeps_fixed_log : keeps.

Lemma keeps_fixed_log_binned d group : keeps fixed (log_binned d group).
Proof. unfold log_binned. keeps. Qed.

Lemma keeps_fixed_log_file file_path : keeps fixed (log_file file_path).
Proof. unfold log_file, _log_file_local, _log_file_wandb. keeps. Qed.

Lemma keeps_fixed_log_summary : keeps fixed log_summary.
Proof. unfold log_summary. keeps. Qed.

Hint Resolve keeps_fixed_log_summary : keeps.

Lemma keeps_fixed_finish : keeps fixed finish.
Proof. unfold finish. keeps. Qed.

(** Setup assigns neither the summary nor, in its local part, the bin
    accumulators. *)
Lemma keeps_summary_setup reinit : keeps _summary (_setup reinit).
Proof. unfold _setup, _setup_local, _setup_wandb, file_write. keeps. Qed.

Lemma keeps_bins_setup_local reinit :
  keeps (λ s, (_metric_roll_avg s, _metric_n s)) (_setup_local reinit).
Proof. unfold _setup_local, file_write. keeps. Qed.

Lemma keeps_bins_setup_wandb reinit :
  keeps (λ s, (_metric_roll_avg s, _metric_n s)) (_setup_wandb reinit).
Proof. unfold _setup_wandb. keeps. Qed.

End keeps.

(** ** Construction *)

Section construction.
Context `{PyRuntime}.

Lemma init_unfold (a : Args.t) (w : World) :
  __init__ a w =
  match parse_log_mode (Args.log_mode a) with
  | Raise e => (Raise e, w)
  | Ok log_mode =>
      if Args.is_sub_logger a && bool_decide (is_Some (Args.sub_loggers a))
      then (Raise (ValueError SubLoggersOfSubLogger), warned w)
      else if bool_decide (Args.wandb_mode a ∉ valid_wandb_modes)
      then (Raise (ValueError (InvalidWandbMode (Args.wandb_mode a))), warned w)
      else
        match init_bin_size (Args.bin_size a) (Args.metrics a).*1 with
        | Raise e => (Raise e, warned w)
        | Ok bin_size =>
            let self := new_object a log_mode (Args.config a) bin_size in
            match when (_is_enabled self) (_setup None) (self, warned w) with
            | (Ok _, (self', w')) => (Ok self', w')
            | (Raise e, (_, w')) => (Raise e, w')
            end
        end
  end.
Proof.
  unfold __init__, bind, lift_result, conv_to_json_d.
  destruct (parse_log_mode _) as [log_mode|e]; [|done]. cbn.
  destruct (Args.is_sub_logger a && _); [done|]. cbn.
  destruct (bool_decide (Args.wandb_mode a ∉ _)); [done|]. cbn.
  destruct (init_bin_size _ _) as [bin_size|e]; done.
Qed.

Lemma parse_log_mode_disabled : parse_log_mode "disabled" = Ok DISABLED.
Proof. reflexivity. Qed.

Lemma parse_log_mode_local : parse_log_mode "local" = Ok LOCAL.
Proof. reflexivity. Qed.

Lemma parse_log_mode_invalid log_mode :
  log_mode ∉ ["disabled"; "wandb"; "local"] →
  parse_log_mode log_mode = Raise (ValueError (InvalidLogMode log_mode)).
Proof.
  intros Hn. unfold parse_log_mode.
  repeat (rewrite bool_decide_false; [|intros ->; apply Hn; set_solver]). done.
Qed.

(** Whatever setup does, it keeps the attributes that [__init__] assigned. *)
Lemma init_fixed (a : Args.t) (w : World) s w' :
  __init__ a w = (Ok s, w') →
  ∃ log_mode bin_size,
    parse_log_mode (Args.log_mode a) = Ok log_mode ∧
    init_bin_size (Args.bin_size a) (Args.metrics a).*1 = Ok bin_size ∧
    fixed s = fixed (new_object a log_mode (Args.config a) bin_size).
Proof.
  rewrite init_unfold.
  destruct (parse_log_mode _) as [log_mode|e]; [|done].
  destruct (Args.is_sub_logger a && _); [done|].
  destruct (bool_decide (Args.wandb_mode a ∉ _)); [done|].
  destruct (init_bin_size _ _) as [bin_size|e]; [|done]. cbv zeta.
  destruct (when _ _ _) as [[[]|e] [s1 w1]] eqn:E; [|done].
  intros [= <- <-]. exists log_mode, bin_size. repeat split.
  assert (keeps fixed (when (_is_enabled (new_object a log_mode (Args.config a) bin_size))
                            (_setup None))) as Hk
    by (apply keeps_when, keeps_fixed_setup).
  apply (Hk _ _ _ E).
Qed.

End construction.

(** ** Disabled mode *)

(** C8. A logger constructed with mode ["disabled"]: the construction makes no
    file-system or network call, and each of [log], [log_binned], [log_file],
    [log_summary] and [finish], on whatever arguments and however often,
    returns without an exception, leaves the world as it is and leaves the
    logger as it is. *)
Theorem disabled_logger_is_inert `{PyRuntime} (a : Args.t) (w : World) :
  Args.log_mode a = "disabled" →
  w_fs (__init__ a w).2 = w_fs w ∧
  w_io (__init__ a w).2 = w_io w ∧
  ∀ s, (__init__ a w).1 = Ok s →
    ∀ w1,
      (∀ d group check_keys, log d group check_keys (s, w1) = (Ok tt, (s, w1))) ∧
      (∀ d group, log_binned d group (s, w1) = (Ok tt, (s, w1))) ∧
      (∀ file_path, log_file file_path (s, w1) = (Ok tt, (s, w1))) ∧
      log_summary (s, w1) = (Ok tt, (s, w1)) ∧
      finish (s, w1) = (Ok tt, (s, w1)).
Proof.
  intros Hmode. rewrite init_unfold, Hmode, parse_log_mode_disabled.
  destruct (Args.is_sub_logger a && _); [done|].
  destruct (bool_decide (Args.wandb_mode a ∉ _)); [done|].
  destruct (init_bin_size _ _) as [bin_size|e]; [|done].
  cbn. split; [done|]. split; [done|].
  intros s [= <-] w1. by apply disabled_methods.
Qed.

Lemma lookup_list_to_map_keyed {V} (f : string → V) (ks : list string) (k : string) :
  (list_to_map ((λ k, (k, f k)) <$> ks) : gmap string V) !! k =
  if bool_decide (k ∈ ks) then Some (f k) else None.
Proof.
  induction ks as [|k' ks IH]; csimpl.
  - by rewrite lookup_empty.
  - destruct (decide (k' = k)) as [->|Hne].
    + rewrite lookup_insert_eq, bool_decide_true by (apply elem_of_cons; by left). done.
    + rewrite lookup_insert_ne, IH by done.
      rewrite (bool_decide_ext (k ∈ k' :: ks) (k ∈ ks)); [done|].
      rewrite elem_of_cons. naive_solver.
Qed.

Lemma parse_log_mode_Raise log_mode e :
  parse_log_mode log_mode = Raise e →
  e = ValueError (InvalidLogMode log_mode) ∧ log_mode ∉ ["disabled"; "wandb"; "local"].
Proof.
  unfold parse_log_mode. repeat case_bool_decide; try done.
  intros [= <-]. split; [done|].
  rewrite !elem_of_cons, elem_of_nil. naive_solver.
Qed.

(** An int [bin_size] is stored for every group, whatever setup then does. *)
Lemma init_int_bin_size `{PyRuntime} (a : Args.t) (w : World) n s w' :
  Args.bin_size a = BinInt n →
  __init__ a w = (Ok s, w') →
  ∃ sizes, _bin_size s = Some sizes ∧
    dom sizes = list_to_set (Args.metrics a).*1 ∧
    ∀ group, group ∈ (Args.metrics a).*1 → sizes !! group = Some n.
Proof.
  intros Hbin Hinit.
  apply init_fixed in Hinit as (log_mode & bin_size & _ & Hbs & Hfixed).
  rewrite Hbin in Hbs. simpl in Hbs. injection Hbs as <-.
  assert (_bin_size s = Some (list_to_map ((λ group, (group, n)) <$> (Args.metrics a).*1)))
    as -> by (unfold fixed in Hfixed; simpl in Hfixed; congruence).
  eexists. split; [done|]. split.
  - apply set_eq. intros g. rewrite elem_of_dom, elem_of_list_to_set.
    rewrite (lookup_list_to_map_keyed (λ _, n)). case_bool_decide; [|split; [by intros []|done]].
    split; [done|]. by eexists.
  - intros g Hg. rewrite (lookup_list_to_map_keyed (λ _, n)). by rewrite bool_decide_true.
Qed.

(** C9. [__init__] rejects a log mode outside the three legal values, a
    [bin_size] dict whose keys are not the group names and a [bin_size] that
    is neither an int nor a dict, each with one of the constructor's
    argument errors (and with exactly the bin-size error when the checks
    that come earlier in [__init__] pass); an int [bin_size] is stored for
    every group. *)
Theorem init_checks_configuration `{PyRuntime} (a : Args.t) (w : World) :
  (Args.log_mode a ∉ ["disabled"; "wandb"; "local"] →
     __init__ a w = (Raise (ValueError (InvalidLogMode (Args.log_mode a))), w)) ∧
  (∀ d, Args.bin_size a = BinDict d →
     dom d ≠ list_to_set (Args.metrics a).*1 →
     ∃ e w', __init__ a w = (Raise e, w') ∧ ConfigurationError e ∧
       (Args.log_mode a ∈ ["disabled"; "wandb"; "local"] →
        Args.is_sub_logger a && bool_decide (is_Some (Args.sub_loggers a)) = false →
        Args.wandb_mode a ∈ valid_wandb_modes →
        e = ValueError BinSizeKeys)) ∧
  (Args.bin_size a = BinOther →
     ∃ e w', __init__ a w = (Raise e, w') ∧ ConfigurationError e ∧
       (Args.log_mode a ∈ ["disabled"; "wandb"; "local"] →
        Args.is_sub_logger a && bool_decide (is_Some (Args.sub_loggers a)) = false →
        Args.wandb_mode a ∈ valid_wandb_modes →
        e = TypeError BinSizeType)) ∧
  (∀ n s w', Args.bin_size a = BinInt n →
     __init__ a w = (Ok s, w') →
     ∃ sizes, _bin_size s = Some sizes ∧
       dom sizes = list_to_set (Args.metrics a).*1 ∧
       ∀ group, group ∈ (Args.metrics a).*1 → sizes !! group = Some n).
Proof.
  split; [|split; [|split]].
  - intros Hmode. by rewrite init_unfold, parse_log_mode_invalid.
  - intros d Hbin Hdom. rewrite init_unfold.
    destruct (parse_log_mode _) as [log_mode|e] eqn:Hparse.
    + destruct (Args.is_sub_logger a && _) eqn:Hsub.
      { eexists _, _. split; [done|]. split; [done|]. by intros _ ?. }
      destruct (bool_decide (Args.wandb_mode a ∉ _)) eqn:Hwm.
      { eexists _, _. split; [done|]. split; [done|]. intros _ _ ?.
        by apply bool_decide_eq_true in Hwm. }
      rewrite Hbin. simpl. rewrite bool_decide_true by done.
      eexists _, _. by repeat split.
    + apply parse_log_mode_Raise in Hparse as [-> Hn].
      eexists _, _. by repeat split.
  - intros Hbin. rewrite init_unfold.
    destruct (parse_log_mode _) as [log_mode|e] eqn:Hparse.
    + destruct (Args.is_sub_logger a && _) eqn:Hsub.
      { eexists _, _. split; [done|]. split; [done|]. by intros _ ?. }
      destruct (bool_decide (Args.wandb_mode a ∉ _)) eqn:Hwm.
      { eexists _, _. split; [done|]. split; [done|]. intros _ _ ?.
        by apply bool_decide_eq_true in Hwm. }
      rewrite Hbin. simpl. eexists _, _. by repeat split.
    + apply parse_log_mode_Raise in Hparse as [-> Hn].
      eexists _, _. by repeat split.
  - intros n s w' Hbin Hinit. by eapply init_int_bin_size.
Qed.

(** ** Inverting a run that returned *)

Lemma when_inv_Ok {St} (b : bool) (c : M St unit) st u st' :
  when b c st = (Ok u, st') →
  (b = true ∧ c st = (Ok u, st')) ∨ (b = false ∧ st' = st).
Proof. destruct b; simpl; [by left|]. intros [= <-]. by right. Qed.

Lemma when_raise_inv_Ok {St} (b : bool) e (st st' : St) u :
  when b (raise e) st = (Ok u, st') → b = false ∧ st' = st.
Proof. intros [[_ ?]|?]%when_inv_Ok; done. Qed.

Lemma lift_result_inv_Ok {St A} (r : result A) (st st' : St) a :
  lift_result r st = (Ok a, st') → r = Ok a ∧ st' = st.
Proof. by intros [= -> <-]. Qed.

Lemma io_inv_Ok {A} (c : M World A) (st st' : t * World) a :
  io c st = (Ok a, st') → ∃ w', c st.2 = (Ok a, w') ∧ st' = (st.1, w').
Proof. unfold io. destruct (c st.2) as [r w']. intros [= -> <-]. eauto. Qed.

(** Solves a primitive step [Hc : c st = (Ok a, st')] for [a] and [st']. *)
Ltac mprim Hc :=
  lazymatch type of Hc with
  | when _ (raise _) _ = _ => apply when_raise_inv_Ok in Hc as [? ->]
  | io _ _ = _ => apply io_inv_Ok in Hc as (? & Hc & ->)
  | lift_result _ _ = _ => apply lift_result_inv_Ok in Hc as [Hc ->]
  | get_self _ = _ => injection Hc as <- <-
  | set_self _ _ = _ => injection Hc as <- <-
  | ret _ _ = _ => injection Hc as <- <-
  | _ => idtac
  end.

(** Splits [H : c st = (Ok _, _)] along the binds of [c]. *)
Ltac minv H :=
  repeat (
    lazymatch type of H with bind _ _ _ = _ => idtac end;
    let a := fresh "a" in
    let st := fresh "st" in
    let Hc := fresh "Hc" in
    apply bind_inv_Ok in H as (a & st & Hc & H);
    mprim Hc; cbn [fst snd] in *).

Section local_setup.
Context `{PyRuntime}.

Lemma file_write_Ok group text s w files f :
  _metrics_files s = Some files → files !! group = Some f → f_closed f = false →
  file_write group text (s, w) =
    (Ok tt, (set_metrics_files (Some (<[group := appended f text]> files)) s,
             OS.emit (FsWrite (f_path f) text) w)).
Proof.
  intros Hfiles Hf Hopen. unfold file_write, bind, get_self. cbn.
  rewrite Hfiles. unfold lift_result, getitem. rewrite Hf, Hopen. reflexivity.
Qed.

Lemma file_write_inv_Ok group text s w u st' :
  file_write group text (s, w) = (Ok u, st') →
  ∃ files f,
    _metrics_files s = Some files ∧ files !! group = Some f ∧ f_closed f = false ∧
    st' = (set_metrics_files (Some (<[group := appended f text]> files)) s,
           OS.emit (FsWrite (f_path f) text) w).
Proof.
  unfold file_write, bind, get_self. cbn.
  destruct (_metrics_files s) as [files|]; [|done].
  unfold lift_result, getitem. destruct (files !! group) as [f|] eqn:Hf; [|done].
  destruct (f_closed f) eqn:Hopen; [done|]. cbn.
  intros ?. simplify_eq. by eexists _, _.
Qed.

Lemma file_ready_insert_ne s0 files group g f :
  g ≠ group → file_ready s0 files group → file_ready s0 (<[g:=f]> files) group.
Proof.
  intros Hne (f' & sm & cols & Hf & ?). exists f', sm, cols.
  by rewrite lookup_insert_ne.
Qed.

Lemma metrics_loop_files s0 metrics_dir groups st u st' :
  for_each groups
    (λ metric_group,
       let* curr_path :=
         lift_result (utils.join_paths [Some metrics_dir; Some (metric_group +:+ ".csv")]) in
       io (modify (λ w, OS.emit (FsOpenW curr_path)
                          (OS.set_fs (<[curr_path:=File]> (w_fs w)) w))) ;;;
       let curr_file := {| f_path := curr_path; f_text := EmptyString; f_closed := false |} in
       set_self (λ s, set_metrics_file_paths
         (Some (<[metric_group:=curr_path]> (default ∅ (_metrics_file_paths s)))) s) ;;;
       set_self (λ s, set_metrics_files
         (Some (<[metric_group:=curr_file]> (default ∅ (_metrics_files s)))) s) ;;;
       let* group_metrics := lift_result (getitem (_metrics s0) metric_group) in
       when (bool_decide (length group_metrics = 0))
         (raise (ValueError (MetricsEmpty metric_group))) ;;;
       let* step_metric := lift_result (getitem (_step_metrics s0) metric_group) in
       let cols_str := step_metric +:+ "," +:+ str_join "," group_metrics in
       file_write metric_group cols_str) st = (Ok u, st') →
  is_Some (_metrics_files st.1) →
  ∃ files, _metrics_files st'.1 = Some files ∧
    ∀ group, group ∈ groups → file_ready s0 files group.
Proof.
  destruct u. intros Hrun [files0 Hfiles0].
  revert Hrun. apply for_each_inv_Ok
    with (P := λ pre st, ∃ files, _metrics_files st.1 = Some files ∧
                 ∀ group, group ∈ pre → file_ready s0 files group).
  - exists files0. split; [done|]. intros g Hg. by apply elem_of_nil in Hg.
  - intros pre g [s1 w1] st2 (files & Hfiles & Hpre) Hbody.
    minv Hbody.
    apply file_write_inv_Ok in Hbody as (files' & f & Hfiles' & Hf & Hopen & ->).
    cbn in Hfiles'. injection Hfiles' as <-.
    rewrite lookup_insert_eq in Hf. injection Hf as <-.
    cbn [fst]. eexists. split; [reflexivity|].
    intros g' Hg'. destruct (decide (g = g')) as [<-|Hne].
    + unfold getitem in *. repeat case_match; simplify_eq.
      eexists _, _, _. rewrite lookup_insert_eq.
      split_and!; try done.
      intros ->. by match goal with Hb : bool_decide _ = false |- _ =>
        apply bool_decide_eq_false in Hb end.
    + apply elem_of_app in Hg' as [Hg'| ->%list_elem_of_singleton]; [|done].
      do 2 (apply file_ready_insert_ne; [done|]). rewrite Hfiles. by apply Hpre.
Qed.

Lemma setup_local_files reinit s0 w0 s w :
  _setup_local reinit (s0, w0) = (Ok tt, (s, w)) →
  ∃ files, _metrics_files s = Some files ∧
    ∀ group, group ∈ _metric_groups s0 → file_ready s0 files group.
Proof.
  unfold _setup_local. intros Hrun. minv Hrun.
  apply io_inv_Ok in Hrun as (w' & _ & [= -> ->]).
  apply metrics_loop_files in Hc16; [done|]. by eexists.
Qed.
End local_setup.

(** ** Strings *)

Lemma append_cons c (s1 s2 : string) : String c s1 +:+ s2 = String c (s1 +:+ s2).
Proof. reflexivity. Qed.

Lemma append_empty_l (s : string) : EmptyString +:+ s = s.
Proof. reflexivity. Qed.

Lemma append_assoc (s1 s2 s3 : string) : (s1 +:+ s2) +:+ s3 = s1 +:+ s2 +:+ s3.
Proof. induction s1 as [|c s1 IH]; [done|]. by rewrite !append_cons, IH. Qed.

Lemma append_empty_r (s : string) : s +:+ EmptyString = s.
Proof. induction s as [|c s IH]; [done|]. by rewrite append_cons, IH. Qed.

Lemma str_join_cons sep x y ys :
  str_join sep (x :: y :: ys) = x +:+ sep +:+ str_join sep (y :: ys).
Proof. reflexivity. Qed.

(** Joining [x :: xs] is [x] followed by every other element behind a
    separator. *)
Lemma str_join_prefixed sep x xs :
  str_join sep (x :: xs) = x +:+ String.concat EmptyString ((λ y, sep +:+ y) <$> xs).
Proof.
  revert x. induction xs as [|y ys IH]; intros x.
  - change (x = x +:+ EmptyString). by rewrite append_empty_r.
  - rewrite str_join_cons, IH. rewrite fmap_cons.
    change (String.concat EmptyString ((sep +:+ y) :: ((λ y, sep +:+ y) <$> ys)))
      with (match (λ y, sep +:+ y) <$> ys with
            | [] => sep +:+ y
            | _ :: _ => (sep +:+ y) +:+ EmptyString +:+
                          String.concat EmptyString ((λ y, sep +:+ y) <$> ys)
            end).
    destruct ys as [|z zs]; csimpl.
    + by rewrite append_empty_r.
    + by rewrite (append_assoc sep y), append_empty_l.
Qed.

(** ** utils.copy_to_dict *)

Lemma copy_to_dict_union {V} (from_dict to_dict : gmap string V) :
  utils.copy_to_dict from_dict to_dict = from_dict ∪ to_dict.
Proof.
  unfold utils.copy_to_dict.
  apply (map_fold_weak_ind (λ r m, r = m ∪ to_dict)).
  - by rewrite (left_id_L ∅ (∪)).
  - intros i x m r _ ->. by rewrite insert_union_l.
Qed.

Lemma copy_to_dict_lookup {V} (from_dict to_dict : gmap string V) k v :
  from_dict !! k = Some v → utils.copy_to_dict from_dict to_dict !! k = Some v.
Proof. intros Hk. rewrite copy_to_dict_union. by apply lookup_union_Some_l. Qed.

(** ** The METRICS and SUMMARY blocks of [__init__] *)

Section init_blocks.
Context `{PyRuntime}.

Lemma init_summary_dom (metrics : gmap string (list string)) (steps : gmap string string) :
  dom (init_summary metrics steps) = dom metrics.
Proof.
  unfold init_summary.
  apply (map_fold_weak_ind (λ r _, dom r = dom metrics)).
  - by rewrite dom_fmap_L.
  - intros i x m r _ Hr. by rewrite dom_alter_L.
Qed.

Lemma init_step_metrics_lookup metrics group step_metric ms :
  NoDup metrics.*1 → (group, (step_metric, ms)) ∈ metrics →
  init_step_metrics metrics !! group = Some step_metric.
Proof.
  intros Hnd Hin. unfold init_step_metrics.
  apply elem_of_list_to_map_1.
  - by rewrite <- list_fmap_compose.
  - apply list_elem_of_fmap. by exists (group, (step_metric, ms)).
Qed.

Lemma init_metrics_lookup metrics group step_metric ms :
  NoDup metrics.*1 → (group, (step_metric, ms)) ∈ metrics →
  init_metrics metrics !! group = Some (clean_metrics step_metric ms).
Proof.
  intros Hnd Hin. unfold init_metrics.
  rewrite map_lookup_imap.
  rewrite (elem_of_list_to_map_1 _ group ms).
  - simpl. by rewrite (init_step_metrics_lookup _ _ _ _ Hnd Hin).
  - by rewrite <- list_fmap_compose.
  - apply list_elem_of_fmap. by exists (group, (step_metric, ms)).
Qed.

(** The cleaned list holds every metric name of the caller's list except the
    step metric, each once. *)
Lemma clean_metrics_spec step_metric ms :
  NoDup (clean_metrics step_metric ms) ∧
  ∀ x, x ∈ clean_metrics step_metric ms ↔ x ∈ ms ∧ x ≠ step_metric.
Proof.
  unfold clean_metrics. pose proof (list_set_difference_perm ms step_metric) as Hp.
  split.
  - rewrite Hp. apply NoDup_elements.
  - intros x. rewrite Hp, elem_of_elements, elem_of_difference, elem_of_list_to_set,
      elem_of_singleton. done.
Qed.

End init_blocks.

(** ** An active local logger *)

Section local_logging.
Context `{PyRuntime}.

Lemma new_object_local a config bin_size :
  _log_mode (new_object a LOCAL config bin_size) = LOCAL ∧
  _is_enabled (new_object a LOCAL config bin_size) = true ∧
  _summary (new_object a LOCAL config bin_size) =
    Some (init_summary (init_metrics (Args.metrics a)) (init_step_metrics (Args.metrics a))).
Proof. done. Qed.

(** The attributes of a logger constructed in local mode that setup leaves as
    [__init__] assigned them. *)
Lemma init_local_attributes (a : Args.t) (w : World) s w' :
  Args.log_mode a = "local" →
  __init__ a w = (Ok s, w') →
  _log_mode s = LOCAL ∧ _is_enabled s = true ∧
  _metric_groups s = (Args.metrics a).*1 ∧
  _step_metrics s = init_step_metrics (Args.metrics a) ∧
  _metrics s = init_metrics (Args.metrics a) ∧
  _summary s = Some (init_summary (init_metrics (Args.metrics a))
                                  (init_step_metrics (Args.metrics a))).
Proof.
  intros Hmode Hinit.
  pose proof (init_fixed _ _ _ _ Hinit) as (log_mode & bin_size & Hparse & _ & Hfixed).
  rewrite Hmode, parse_log_mode_local in Hparse. injection Hparse as <-.
  assert (_log_mode s = LOCAL ∧ _is_enabled s = true ∧
          _metric_groups s = (Args.metrics a).*1 ∧
          _step_metrics s = init_step_metrics (Args.metrics a) ∧
          _metrics s = init_metrics (Args.metrics a)) as (? & ? & ? & ? & ?)
    by (unfold fixed in Hfixed; by simplify_eq/=).
  repeat (split; [done|]).
  rewrite init_unfold, Hmode, parse_log_mode_local in Hinit.
  destruct (Args.is_sub_logger a && _); [done|].
  destruct (bool_decide (Args.wandb_mode a ∉ _)); [done|].
  destruct (init_bin_size _ _) as [bin_size'|e] eqn:Hbs; [|done]. cbv zeta in Hinit.
  destruct (when _ _ _) as [[[]|e] [s1 w1]] eqn:Hsetup; [|done].
  injection Hinit as -> ->.
  pose proof (keeps_when _summary _ _ (keeps_summary_setup None) _ _ _ Hsetup) as Hsum.
  cbn [fst] in Hsum. by rewrite Hsum.
Qed.

(** A successful construction in local mode has run [_setup_local] to its
    end, on an object with the attributes of [__init__]. *)
Lemma init_local_setup (a : Args.t) (w : World) s w' :
  Args.log_mode a = "local" →
  __init__ a w = (Ok s, w') →
  ∃ reinit s0 w0,
    _setup_local reinit (s0, w0) = (Ok tt, (s, w')) ∧
    _metric_groups s0 = (Args.metrics a).*1 ∧
    _step_metrics s0 = init_step_metrics (Args.metrics a) ∧
    _metrics s0 = init_metrics (Args.metrics a).
Proof.
  intros Hmode Hinit.
  rewrite init_unfold, Hmode, parse_log_mode_local in Hinit.
  destruct (Args.is_sub_logger a && _); [done|].
  destruct (bool_decide (Args.wandb_mode a ∉ _)); [done|].
  destruct (init_bin_size _ _) as [bin_size|e] eqn:Hbs; [|done]. cbv zeta in Hinit.
  destruct (when _ _ _) as [[[]|e] [s1 w1]] eqn:Hsetup; [|done].
  injection Hinit as -> ->.
  change (when true (_setup None) (new_object a LOCAL (Args.config a) bin_size, warned w)
          = (Ok tt, (s, w'))) in Hsetup.
  cbn [when] in Hsetup. unfold _setup in Hsetup. minv Hsetup.
  change (_is_enabled (new_object a LOCAL (Args.config a) bin_size)) with true in Hsetup.
  cbn [when] in Hsetup. minv Hsetup.
  change (_log_mode (new_object a LOCAL (Args.config a) bin_size)) with LOCAL in Hsetup.
  cbn match in Hsetup. destruct st as [s2 w2].
  assert (fixed s2 = fixed (new_object a LOCAL (Args.config a) bin_size)) as Hfix2.
  { match goal with Hb : when _ _ _ = (Ok _, (s2, w2)) |- _ =>
      eapply (keeps_when fixed) in Hb; [exact Hb|] end. keeps. }
  eexists _, s2, w2. split; [exact Hsetup|].
  unfold fixed in Hfix2. by simplify_eq/=.
Qed.

(** What a successful construction in local mode has set up for each group. *)
Lemma init_local_registered (a : Args.t) (w : World) s w' group :
  Args.log_mode a = "local" →
  __init__ a w = (Ok s, w') →
  group ∈ (Args.metrics a).*1 →
  ∃ step_metric cols,
    registered s group step_metric cols ∧
    init_step_metrics (Args.metrics a) !! group = Some step_metric ∧
    init_metrics (Args.metrics a) !! group = Some cols ∧
    csv_text s group = Some (header step_metric cols).
Proof.
  intros Hmode Hinit Hgroup.
  destruct (init_local_attributes _ _ _ _ Hmode Hinit) as (? & ? & _ & Es & Em & Hsum).
  destruct (init_local_setup _ _ _ _ Hmode Hinit)
    as (reinit & s0 & w0 & Hsetup & Eg0 & Es0 & Em0).
  apply setup_local_files in Hsetup as (files & Hfiles & Hready).
  destruct (Hready group) as (f & sm & cols & Hf & Hopen & Hsm & Hcols & Hne & Htext);
    [by rewrite Eg0|].
  rewrite Es0 in Hsm. rewrite Em0 in Hcols.
  exists sm, cols. split; [|split; [done|split; [done|]]].
  - split; try done.
    + by rewrite Es.
    + by rewrite Em.
    + rewrite Hsum. eexists. split; [reflexivity|].
      apply elem_of_dom. rewrite init_summary_dom. apply elem_of_dom. by eexists.
    + by exists files, f.
  - unfold csv_text. rewrite Hfiles. simpl. rewrite Hf. simpl. by rewrite Htext.
Qed.

End local_logging.

Section log_steps.
Context `{PyRuntime}.

Lemma to_row_csv_row (d : gmap string num) step_metric d_step cols :
  d !! step_metric = Some d_step → cols ≠ [] →
  str d_step +:+ "," +:+ str_join "," (cell d <$> cols) = csv_row d step_metric cols.
Proof.
  intros Hd Hne. unfold csv_row. destruct cols as [|c cols]; [done|].
  rewrite fmap_cons, str_join_cons.
  change (cell d step_metric)
    with (match d !! step_metric with Some v => str v | None => EmptyString end).
  by rewrite Hd.
Qed.

Lemma log_local_Ok s w group step_metric cols d check_keys summary sg files f :
  _log_mode s = LOCAL → _is_enabled s = true →
  _step_metrics s !! group = Some step_metric →
  _metrics s !! group = Some cols → cols ≠ [] →
  _summary s = Some summary → summary !! group = Some sg →
  _metrics_files s = Some files → files !! group = Some f → f_closed f = false →
  step_metric ∈ dom d →
  (check_keys = true → dom d ∖ {[step_metric]} ∖ list_to_set cols = (∅ : gset string)) →
  log d group check_keys (s, w) =
    (Ok tt, (logged s group d summary sg files f (csv_row d step_metric cols),
             OS.emit (FsWrite (f_path f) (newline +:+ csv_row d step_metric cols)) w)).
Proof.
  intros Hmode Hen Hsm Hcols Hne Hsum Hsg Hfiles Hf Hopen Hstep Hck.
  apply elem_of_dom in Hstep as [d_step Hd].
  assert (group ∈ dom (_metrics s)) as Hg by (apply elem_of_dom; by eexists).
  unfold log. rewrite (bind_Ok _ _ _ s (s, w)) by done.
  rewrite Hen. cbn [when].
  rewrite (bind_Ok _ _ _ tt (s, w)); [|by rewrite bool_decide_false by (by intros ?)].
  rewrite (bind_Ok _ _ _ tt (s, w)).
  2:{ destruct check_keys; [|done]. cbn [when].
      unfold getitem. rewrite Hsm, Hcols. unfold bind, lift_result. cbn.
      rewrite Hck by done. by rewrite bool_decide_false by (rewrite size_empty; lia). }
  rewrite Hmode. unfold _log_local.
  rewrite (bind_Ok _ _ _ s (s, w)) by done.
  rewrite (bind_Ok _ _ _ tt (s, w)); [|by rewrite bool_decide_false by (by intros ?)].
  rewrite Hsum. unfold getitem at 1. rewrite Hsg.
  erewrite bind_Ok; [|unfold bind, lift_result, set_self, modify; cbn; reflexivity].
  erewrite bind_Ok.
  2:{ unfold _to_row, bind, get_self, lift_result, getitem. cbn.
      rewrite Hcols, Hsm.
      rewrite bool_decide_false by (intros Hn; apply Hn, elem_of_dom; by eexists).
      cbn. rewrite Hd. unfold ret. reflexivity. }
  rewrite (to_row_csv_row _ _ _ _ Hd Hne).
  erewrite file_write_Ok; [reflexivity| |done|done]. done.
Qed.

Lemma log_step_missing s w group step_metric cols d summary sg :
  _log_mode s = LOCAL → _is_enabled s = true →
  _step_metrics s !! group = Some step_metric →
  _metrics s !! group = Some cols →
  _summary s = Some summary → summary !! group = Some sg →
  step_metric ∉ dom d →
  log d group false (s, w) =
    (Raise (ValueError (StepMetricMissing step_metric)),
     (set_summary (Some (<[group := utils.copy_to_dict (Some <$> d) sg]> summary)) s, w)).
Proof.
  intros Hmode Hen Hsm Hcols Hsum Hsg Hstep.
  assert (group ∈ dom (_metrics s)) as Hg by (apply elem_of_dom; by eexists).
  unfold log. rewrite (bind_Ok _ _ _ s (s, w)) by done.
  rewrite Hen. cbn [when].
  rewrite (bind_Ok _ _ _ tt (s, w)); [|by rewrite bool_decide_false by (by intros ?)].
  rewrite (bind_Ok _ _ _ tt (s, w)) by done.
  rewrite Hmode. unfold _log_local.
  rewrite (bind_Ok _ _ _ s (s, w)) by done.
  rewrite (bind_Ok _ _ _ tt (s, w)); [|by rewrite bool_decide_false by (by intros ?)].
  rewrite Hsum. unfold getitem at 1. rewrite Hsg.
  erewrite bind_Ok; [|unfold bind, lift_result, set_self, modify; cbn; reflexivity].
  erewrite bind_Raise; [reflexivity|].
  unfold _to_row, bind, get_self, lift_result, getitem. cbn.
  rewrite Hcols, Hsm. by rewrite bool_decide_true.
Qed.

Lemma log_invalid_keys s w group step_metric cols d :
  _is_enabled s = true →
  _step_metrics s !! group = Some step_metric →
  _metrics s !! group = Some cols →
  dom d ∖ {[step_metric]} ∖ list_to_set cols ≠ (∅ : gset string) →
  log d group true (s, w) =
    (Raise (ValueError (InvalidKeys (dom d ∖ {[step_metric]} ∖ list_to_set cols))), (s, w)).
Proof.
  intros Hen Hsm Hcols Hextra.
  assert (group ∈ dom (_metrics s)) as Hg by (apply elem_of_dom; by eexists).
  unfold log. rewrite (bind_Ok _ _ _ s (s, w)) by done.
  rewrite Hen. cbn [when].
  rewrite (bind_Ok _ _ _ tt (s, w)); [|by rewrite bool_decide_false by (by intros ?)].
  erewrite bind_Raise; [reflexivity|].
  unfold getitem. rewrite Hsm, Hcols. unfold bind, lift_result. cbn.
  rewrite bool_decide_true; [done|].
  intros Hsz. by apply size_empty_inv, leibniz_equiv in Hsz.
Qed.

End log_steps.

Section local_claims.
Context `{PyRuntime}.

Lemma header_join step_metric cols :
  cols ≠ [] → header step_metric cols = str_join "," (step_metric :: cols).
Proof. intros Hne. destruct cols as [|c cols]; [done|]. by rewrite str_join_cons. Qed.

Lemma registered_logged s group step_metric cols d summary sg files f row :
  registered s group step_metric cols →
  _summary s = Some summary → _metrics_files s = Some files →
  registered (logged s group d summary sg files f row) group step_metric cols ∧
  csv_text (logged s group d summary sg files f row) group =
    Some (f_text f +:+ newline +:+ row).
Proof.
  intros [] Hsum Hfiles. split.
  - split; try done.
    + eexists. split; [reflexivity|]. rewrite lookup_insert_eq. by eexists.
    + eexists _, _. split; [reflexivity|]. by rewrite lookup_insert_eq.
  - unfold csv_text, logged. cbn. by rewrite lookup_insert_eq.
Qed.

Lemma log_all_appends group step_metric cols calls s w text :
  registered s group step_metric cols →
  csv_text s group = Some text →
  Forall (accepted step_metric cols) calls →
  ∃ s' w',
    log_all group calls (s, w) = (Ok tt, (s', w')) ∧
    registered s' group step_metric cols ∧
    csv_text s' group =
      Some (text +:+ String.concat EmptyString
              ((λ call, newline +:+ csv_row call.1 step_metric cols) <$> calls)).
Proof.
  intros Hreg Htext Hcalls. revert s w text Hreg Htext.
  induction Hcalls as [|[d ck] calls [Hstep Hck] _ IH]; intros s w text Hreg Htext.
  - exists s, w. split; [done|]. split; [done|]. by rewrite Htext, append_empty_r.
  - pose proof Hreg as [Hmode Hen Hsm Hcols Hne (summary & Hsum & [sg Hsg])
                          (files & f & Hfiles & Hf & Hopen)].
    pose proof (log_local_Ok s w group step_metric cols d ck summary sg files f
                  Hmode Hen Hsm Hcols Hne Hsum Hsg Hfiles Hf Hopen Hstep Hck) as Hlog.
    destruct (registered_logged s group step_metric cols d summary sg files f
                (csv_row d step_metric cols) Hreg Hsum Hfiles) as [Hreg' Htext'].
    assert (text = f_text f) as ->.
    { unfold csv_text in Htext. rewrite Hfiles in Htext. simpl in Htext.
      rewrite Hf in Htext. by injection Htext. }
    destruct (IH _ (OS.emit (FsWrite (f_path f) (newline +:+ csv_row d step_metric cols)) w)
                _ Hreg' Htext') as (s' & w' & Hrun & Hreg'' & Htext'').
    exists s', w'. split; [|split; [done|]].
    + unfold log_all. cbn [for_each]. erewrite bind_Ok; [|exact Hlog]. exact Hrun.
    + rewrite Htext''. f_equal. rewrite fmap_cons.
      change (String.concat EmptyString (?x :: ?l))
        with (match l with [] => x | _ :: _ => x +:+ EmptyString +:+ String.concat EmptyString l end).
      cbn [fst]. destruct (_ <$> calls) eqn:E.
      * by rewrite !append_empty_r.
      * by rewrite append_empty_l, !append_assoc.
Qed.

Lemma init_metrics_group (metrics : list (string * (string * list string))) group cols :
  init_metrics metrics !! group = Some cols → group ∈ metrics.*1.
Proof.
  unfold init_metrics. rewrite map_lookup_imap.
  destruct (list_to_map _ !! group) as [ms|] eqn:E; [|done]. intros _.
  apply elem_of_list_to_map_2, list_elem_of_fmap in E as ([g [sm ms']] & [= -> ->] & Hin).
  apply list_elem_of_fmap. by exists (g, (sm, ms')).
Qed.

Lemma init_local_group (a : Args.t) (w : World) s w' group cols :
  Args.log_mode a = "local" → __init__ a w = (Ok s, w') →
  _metrics s !! group = Some cols →
  group ∈ (Args.metrics a).*1.
Proof.
  intros Hmode Hinit Hcols.
  apply init_fixed in Hinit as (log_mode & bin_size & _ & _ & Hfixed).
  assert (_metrics s = init_metrics (Args.metrics a)) as E
    by (unfold fixed in Hfixed; by simplify_eq/=).
  rewrite E in Hcols. by eapply init_metrics_group.
Qed.

End local_claims.

(** ** The lines of a text *)

Lemma has_line_break_app (a b : string) :
  has_line_break (a +:+ b) = has_line_break a || has_line_break b.
Proof.
  induction a as [|c a IH]; [done|].
  rewrite append_cons. cbn [has_line_break]. rewrite IH. by rewrite orb_assoc.
Qed.

Lemma has_line_break_join (sep : string) (parts : list string) :
  has_line_break sep = false →
  Forall (λ part, has_line_break part = false) parts →
  has_line_break (str_join sep parts) = false.
Proof.
  intros Hsep Hparts. unfold str_join.
  induction Hparts as [|x parts Hx Hparts IH]; [done|].
  destruct parts as [|y parts]; [done|].
  change (String.concat sep (x :: y :: parts))
    with (x +:+ sep +:+ String.concat sep (y :: parts)).
  by rewrite !has_line_break_app, Hx, Hsep, IH.
Qed.

Lemma lines_of_single (line : string) :
  has_line_break line = false → lines_of line = [line].
Proof.
  induction line as [|c line IH]; [done|].
  cbn [has_line_break lines_of]. intros [Hc Hrest]%orb_false_elim.
  by rewrite Hc, (IH Hrest).
Qed.

Lemma lines_of_app (line rest : string) :
  has_line_break line = false →
  lines_of (line +:+ String "010" rest) = line :: lines_of rest.
Proof.
  induction line as [|c line IH]; [done|].
  cbn [has_line_break]. intros [Hc Hrest]%orb_false_elim.
  rewrite append_cons. cbn [lines_of]. by rewrite Hc, (IH Hrest).
Qed.

(** Lines without a line break, joined by line breaks, are the lines of the
    joined text. *)
Lemma lines_of_concat (line : string) (lines : list string) :
  Forall (λ l, has_line_break l = false) (line :: lines) →
  lines_of (String.concat (String "010" EmptyString) (line :: lines)) = line :: lines.
Proof.
  revert line. induction lines as [|l lines IH]; intros line Hall.
  - apply lines_of_single. by apply Forall_inv in Hall.
  - change (String.concat (String "010" EmptyString) (line :: l :: lines))
      with (line +:+ String "010" EmptyString
                 +:+ String.concat (String "010" EmptyString) (l :: lines)).
    rewrite append_cons, append_empty_l.
    rewrite lines_of_app by (by apply Forall_inv in Hall).
    f_equal. apply IH. by apply Forall_inv_tail in Hall.
Qed.

Lemma csv_lines_free `{PyRuntime} step_metric cols calls :
  free_of_line_breaks step_metric cols calls →
  Forall (λ l, has_line_break l = false) (csv_lines step_metric cols calls).
Proof.
  intros (Hstep & Hcols & Hcalls). unfold csv_lines. constructor.
  - apply has_line_break_join; [done|]. by constructor.
  - apply Forall_fmap. eapply Forall_impl; [exact Hcalls|].
    intros [d ck] Hd. cbn [fst] in Hd |- *. unfold csv_row.
    assert (∀ c, has_line_break (cell d c) = false) as Hcell.
    { intros c. unfold cell. destruct (d !! c) as [v|] eqn:E; [exact (Hd c v E)|done]. }
    apply has_line_break_join; [done|].
    constructor; [apply Hcell|]. apply Forall_fmap, Forall_true. intros c. apply Hcell.
Qed.

(** ** Which exceptions a computation can raise *)

Section raises_rules.
Context {St : Type} (E : exn → Prop).

Lemma raises_only_ret {A} (a : A) : raises_only E (@ret St A a).
Proof. intros st e st'. discriminate. Qed.

Lemma raises_only_raise {A} e : E e → raises_only E (@raise St A e).
Proof. intros He st e' st' [= <- _]. exact He. Qed.

Lemma raises_only_lift_result {A} (r : result A) :
  (∀ e, r = Raise e → E e) → raises_only E (@lift_result St A r).
Proof. intros Hr st e st' [= -> _]. by apply Hr. Qed.

Lemma raises_only_modify (f : St → St) : raises_only E (modify f).
Proof. intros st e st'. discriminate. Qed.

Lemma raises_only_bind {A B} (c : M St A) (k : A → M St B) :
  raises_only E c → (∀ a, raises_only E (k a)) → raises_only E (bind c k).
Proof.
  intros Hc Hk st e st' [(e' & Hrun & [= ->])|(a & st1 & _ & Hrun)]%bind_inv.
  - by eapply Hc.
  - by eapply Hk.
Qed.

Lemma raises_only_when (b : bool) (c : M St unit) :
  raises_only E c → raises_only E (when b c).
Proof. destruct b; [done|]. intros _. apply raises_only_ret. Qed.

Lemma raises_only_for_each {A} (xs : list A) (body : A → M St unit) :
  (∀ x, raises_only E (body x)) → raises_only E (for_each xs body).
Proof.
  intros Hb. induction xs as [|x xs IH]; simpl.
  - apply raises_only_ret.
  - apply raises_only_bind; auto.
Qed.

End raises_rules.

Lemma raises_only_get_self (E : exn → Prop) : raises_only E get_self.
Proof. intros st e st'. discriminate. Qed.

Lemma raises_only_io (E : exn → Prop) {A} (c : M World A) :
  raises_only E c → raises_only E (io c).
Proof.
  intros Hc [s w] e st'. unfold io. cbn. destruct (c w) as [r w1] eqn:Hrun.
  intros [= -> _]. by eapply Hc.
Qed.

Lemma raises_only_impl {St A} (E E' : exn → Prop) (c : M St A) :
  (∀ e, E e → E' e) → raises_only E c → raises_only E' c.
Proof. intros HE Hc st e st' Hrun. by eapply HE, Hc. Qed.

(** *** The operations below the logger *)

Section leaves.
Context `{PyRuntime}.

Lemma join_paths_Raise paths e :
  utils.join_paths paths = Raise e → e = TypeError JoinNoneOrMissing.
Proof. unfold utils.join_paths. repeat case_match; congruence. Qed.

(** Two components, the second not empty, none missing: the join succeeds. *)
Lemma join_paths_pair_Ok (dir name : string) :
  name ≠ EmptyString → ∃ path, utils.join_paths [Some dir; Some name] = Ok path.
Proof.
  intros Hname. unfold utils.join_paths.
  rewrite filter_cons, (filter_cons _ (Some name)), filter_nil.
  rewrite (decide_True (P := Some name ≠ Some EmptyString)) by congruence.
  case_decide; by eexists.
Qed.

Lemma unpack_pair_Raise x e : unpack_pair x = Raise e → e = ValueError (UnpackString x).
Proof. destruct x as [|? [|? [|? ?]]]; cbn; congruence. Qed.

Lemma mkdir_raises path :
  raises_only (λ e, ∃ site, e = OSError site) (OS.mkdir path).
Proof.
  intros w e w'. unfold OS.mkdir. destruct (w_fs w !! path); [|done].
  intros [= <- _]. by eexists.
Qed.

Lemma create_or_clear_folder_raises path :
  raises_only (λ e, ∃ site, e = OSError site) (utils.create_or_clear_folder path).
Proof.
  unfold utils.create_or_clear_folder. apply raises_only_bind.
  - intros w e w'. discriminate.
  - intros ex. apply raises_only_bind; [|intros; apply mkdir_raises].
    apply raises_only_when. intros w e w'. unfold OS.rmtree.
    destruct (w_fs w !! path) as [[]|]; [done| |done]. intros [= <- _]. by eexists.
Qed.

Lemma os_error_not_emptiness e : (∃ site, e = OSError site) → not_emptiness_error e.
Proof. intros [site ->] g. discriminate. Qed.

Lemma os_error_before_metrics e : (∃ site, e = OSError site) → raised_before_metrics e.
Proof. by intros [site ->]. Qed.

(** The remote setup never makes the emptiness check. *)
Lemma setup_wandb_raises reinit : raises_only not_emptiness_error (_setup_wandb reinit).
Proof.
  unfold _setup_wandb.
  repeat first
    [ progress intros
    | apply raises_only_get_self
    | apply raises_only_ret
    | apply raises_only_modify
    | apply raises_only_bind
    | apply raises_only_for_each
    | apply raises_only_when
    | apply raises_only_lift_result; intros ? [->%join_paths_Raise | ->%unpack_pair_Raise];
        intros ?; discriminate
    | apply raises_only_lift_result; intros ? ->%join_paths_Raise; intros ?; discriminate
    | apply raises_only_lift_result; intros ? ->%unpack_pair_Raise; intros ?; discriminate
    | apply raises_only_io;
        first [ apply (raises_only_impl _ _ _ os_error_not_emptiness),
                  create_or_clear_folder_raises
              | apply raises_only_modify ]
    | match goal with
      | |- raises_only _ (match ?x with _ => _ end) => destruct x
      end ].
Qed.

Lemma setup_unfold (s : t) (w : World) :
  _is_enabled s = true →
  _setup None (s, w) =
    match _log_mode s with
    | LOCAL => _setup_local (_reinit s) (before_backend_setup s, w)
    | WANDB => _setup_wandb (_reinit s) (before_backend_setup s, w)
    | DISABLED => (Ok tt, (before_backend_setup s, w))
    end.
Proof.
  intros Hen. unfold _setup, before_backend_setup.
  rewrite (bind_Ok _ _ _ s (s, w)) by done. rewrite Hen. cbn [when].
  destruct (bool_decide (is_Some (_bin_size s))); cbn [when].
  - erewrite bind_Ok; [|reflexivity]. by destruct (_log_mode s).
  - erewrite bind_Ok; [|reflexivity]. by destruct (_log_mode s).
Qed.

Lemma before_backend_setup_attributes s :
  fixed (before_backend_setup s) = fixed s.
Proof. unfold before_backend_setup. by case_bool_decide. Qed.

Lemma parse_log_mode_Ok_LOCAL log_mode :
  parse_log_mode log_mode = Ok LOCAL → log_mode = "local".
Proof. unfold parse_log_mode. repeat case_bool_decide; congruence. Qed.

Lemma init_bin_size_Raise bin_size metric_groups e :
  init_bin_size bin_size metric_groups = Raise e →
  e = ValueError BinSizeKeys ∨ e = TypeError BinSizeType.
Proof.
  unfold init_bin_size. destruct bin_size; try case_bool_decide; intros [= <-]; auto.
Qed.

(** Outside local mode the construction never raises the error of the
    emptiness check. *)
Lemma init_nonlocal_raises (a : Args.t) (w : World) e w' :
  Args.log_mode a ≠ "local" →
  __init__ a w = (Raise e, w') →
  not_emptiness_error e.
Proof.
  intros Hmode. rewrite init_unfold.
  destruct (parse_log_mode (Args.log_mode a)) as [log_mode|e0] eqn:Hparse.
  2:{ apply parse_log_mode_Raise in Hparse as [-> _]. intros [= <- _] g. discriminate. }
  destruct (Args.is_sub_logger a && _); [intros [= <- _] g; discriminate|].
  destruct (bool_decide (Args.wandb_mode a ∉ _)); [intros [= <- _] g; discriminate|].
  destruct (init_bin_size _ _) as [bin_size|e1] eqn:Hbs.
  2:{ apply init_bin_size_Raise in Hbs as [-> | ->]; intros [= <- _] g; discriminate. }
  cbv zeta. destruct log_mode.
  - discriminate.
  - change (when _ _ _) with (_setup None (new_object a WANDB (Args.config a) bin_size, warned w)).
    rewrite setup_unfold by done.
    change (_log_mode (new_object a WANDB (Args.config a) bin_size)) with WANDB. cbv match.
    destruct (_setup_wandb _ _) as [[[]|e2] [s2 w2]] eqn:Hsetup; [discriminate|].
    intros [= <- _]. exact (setup_wandb_raises _ _ _ _ Hsetup).
  - by apply parse_log_mode_Ok_LOCAL in Hparse.
Qed.

(** *** The exceptions of a local construction *)

Lemma append_csv_nonempty (metric_group : string) : metric_group +:+ ".csv" ≠ EmptyString.
Proof. destruct metric_group; [discriminate|]. rewrite append_cons. discriminate. Qed.

(** The METRICS loop of [_setup_local] raises nothing but the error of the
    emptiness check. *)
Lemma metrics_loop_raise s0 metrics_dir groups st e st' :
  for_each groups
    (λ metric_group,
       let* curr_path :=
         lift_result (utils.join_paths [Some metrics_dir; Some (metric_group +:+ ".csv")]) in
       io (modify (λ w, OS.emit (FsOpenW curr_path)
                          (OS.set_fs (<[curr_path:=File]> (w_fs w)) w))) ;;;
       let curr_file := {| f_path := curr_path; f_text := EmptyString; f_closed := false |} in
       set_self (λ s, set_metrics_file_paths
         (Some (<[metric_group:=curr_path]> (default ∅ (_metrics_file_paths s)))) s) ;;;
       set_self (λ s, set_metrics_files
         (Some (<[metric_group:=curr_file]> (default ∅ (_metrics_files s)))) s) ;;;
       let* group_metrics := lift_result (getitem (_metrics s0) metric_group) in
       when (bool_decide (length group_metrics = 0))
         (raise (ValueError (MetricsEmpty metric_group))) ;;;
       let* step_metric := lift_result (getitem (_step_metrics s0) metric_group) in
       let cols_str := step_metric +:+ "," +:+ str_join "," group_metrics in
       file_write metric_group cols_str) st = (Raise e, st') →
  (∀ g, g ∈ groups → is_Some (_metrics s0 !! g) ∧ is_Some (_step_metrics s0 !! g)) →
  emptiness_error (_metrics s0) e.
Proof.
  revert st. induction groups as [|g groups IH]; intros st Hrun Hgroups; [discriminate|].
  cbn [for_each] in Hrun.
  apply bind_inv in Hrun as [(e' & Hbody & [= ->])|([] & st1 & _ & Hrest)].
  2:{ eapply IH; [exact Hrest|]. intros g' Hg'. apply Hgroups. by right. }
  clear IH. destruct (Hgroups g) as [[cols Hcols] [step_metric Hstep]]; [by left|].
  destruct (join_paths_pair_Ok metrics_dir (g +:+ ".csv") (append_csv_nonempty g))
    as [path Hpath].
  destruct st as [s w]. rewrite Hpath in Hbody.
  rewrite (bind_Ok _ _ _ path (s, w)) in Hbody by done.
  unfold getitem in Hbody. rewrite Hcols, Hstep in Hbody.
  unfold bind at 1 in Hbody. cbn [io modify set_self fst snd] in Hbody.
  unfold bind at 1 in Hbody. cbn [io modify set_self fst snd] in Hbody.
  unfold bind at 1 in Hbody. cbn [io modify set_self fst snd] in Hbody.
  unfold bind at 1 in Hbody. cbn [lift_result] in Hbody.
  destruct cols as [|c cols].
  - rewrite bool_decide_true in Hbody by done. cbn in Hbody. injection Hbody as <- _.
    by exists g.
  - rewrite bool_decide_false in Hbody by done.
    unfold bind at 1 in Hbody. cbn [when ret] in Hbody.
    unfold bind at 1 in Hbody. cbn [lift_result] in Hbody.
    erewrite file_write_Ok in Hbody;
      [discriminate|reflexivity|by rewrite lookup_insert_eq|reflexivity].
Qed.

Lemma setup_local_raises reinit s0 w0 e st' :
  _setup_local reinit (s0, w0) = (Raise e, st') →
  (∀ g, g ∈ _metric_groups s0 → is_Some (_metrics s0 !! g) ∧ is_Some (_step_metrics s0 !! g)) →
  emptiness_error (_metrics s0) e ∨ raised_before_metrics e.
Proof.
  intros Hrun Hgroups. unfold _setup_local in Hrun.
  repeat (
    lazymatch type of Hrun with
    | bind (for_each _ _) _ _ = _ => fail
    | bind _ _ _ = _ => idtac
    end;
    let Hc := fresh "Hc" in
    apply bind_inv in Hrun as [(? & Hc & [= ->])|(? & ? & Hc & Hrun)];
    [ right; revert Hc;
      lazymatch goal with
      | |- ?c ?st = (Raise ?e, ?st1) → _ =>
          refine ((_ : raises_only raised_before_metrics c) st e st1)
      end;
      first
        [ apply raises_only_get_self
        | apply raises_only_modify
        | apply raises_only_when, raises_only_raise; exact I
        | apply raises_only_when, raises_only_io, raises_only_modify
        | apply raises_only_lift_result; intros ? ->%join_paths_Raise; exact I
        | apply raises_only_io; intros ? ? ?; discriminate
        | apply raises_only_io, (raises_only_impl _ _ _ os_error_before_metrics),
            create_or_clear_folder_raises
        | apply raises_only_io, (raises_only_impl _ _ _ os_error_before_metrics),
            mkdir_raises ]
    | mprim Hc; cbn [fst snd] in * ]).
  apply bind_inv in Hrun as [(? & Hloop & [= ->])|(? & ? & _ & Hrun)].
  - left. by eapply metrics_loop_raise.
  - exfalso.
    apply bind_inv in Hrun as [(? & Hjoin & [= ->])|(? & ? & _ & Hrun)].
    + injection Hjoin as Hjoin _.
      match type of Hjoin with utils.join_paths [Some ?d; Some ?n] = _ =>
        destruct (join_paths_pair_Ok d n) as [? Hj]; [discriminate|congruence] end.
    + revert Hrun. unfold io, OS.write_file, modify. cbn. discriminate.
Qed.

Lemma init_schema_keys (metrics : list (string * (string * list string))) g :
  g ∈ metrics.*1 →
  is_Some (init_metrics metrics !! g) ∧ is_Some (init_step_metrics metrics !! g).
Proof.
  intros Hg.
  assert (is_Some (init_step_metrics metrics !! g)) as Hstep.
  { unfold init_step_metrics. apply elem_of_dom. rewrite dom_list_to_map_L.
    apply elem_of_list_to_set. by rewrite <- list_fmap_compose. }
  split; [|done]. unfold init_metrics. rewrite map_lookup_imap.
  assert (is_Some ((list_to_map ((λ it, (it.1, it.2.2)) <$> metrics)
                     : gmap string (list string)) !! g)) as [ms ->].
  { apply elem_of_dom. rewrite dom_list_to_map_L.
    apply elem_of_list_to_set. by rewrite <- list_fmap_compose. }
  cbn. destruct Hstep as [sm ->]. by eexists.
Qed.

(** A local construction that raises does so with the error of the emptiness
    check, for a group whose list is empty, or with the error of an earlier
    step. *)
Lemma init_local_raises (a : Args.t) (w : World) e w' :
  Args.log_mode a = "local" →
  __init__ a w = (Raise e, w') →
  emptiness_error (init_metrics (Args.metrics a)) e ∨ raised_before_metrics e.
Proof.
  intros Hmode. rewrite init_unfold, Hmode, parse_log_mode_local.
  destruct (Args.is_sub_logger a && _); [intros [= <- _]; by right|].
  destruct (bool_decide (Args.wandb_mode a ∉ _)); [intros [= <- _]; by right|].
  destruct (init_bin_size _ _) as [bin_size|e1] eqn:Hbs.
  2:{ apply init_bin_size_Raise in Hbs as [-> | ->]; intros [= <- _]; by right. }
  cbv zeta.
  change (when _ _ _) with (_setup None (new_object a LOCAL (Args.config a) bin_size, warned w)).
  rewrite setup_unfold by done.
  change (_log_mode (new_object a LOCAL (Args.config a) bin_size)) with LOCAL. cbv match.
  destruct (_setup_local _ _) as [[[]|e2] [s2 w2]] eqn:Hsetup; [discriminate|].
  intros [= <- _].
  pose proof (before_backend_setup_attributes (new_object a LOCAL (Args.config a) bin_size))
    as Hfixed.
  assert (_metric_groups (before_backend_setup (new_object a LOCAL (Args.config a) bin_size))
            = (Args.metrics a).*1 ∧
          _metrics (before_backend_setup (new_object a LOCAL (Args.config a) bin_size))
            = init_metrics (Args.metrics a) ∧
          _step_metrics (before_backend_setup (new_object a LOCAL (Args.config a) bin_size))
            = init_step_metrics (Args.metrics a)) as (Eg & Em & Es).
  { unfold before_backend_setup. by case_bool_decide. }
  apply setup_local_raises in Hsetup.
  - by rewrite Em in Hsetup.
  - intros g. rewrite Eg, Em, Es. apply init_schema_keys.
Qed.

End leaves.

(** C3. In local mode, after the construction and [N] accepted calls of
    [log] for a group, the text of the group's metrics file is the header
    and one row per call, in call order, joined by the line-break character
    (code 10), with none after the last row: each row is the step value
    followed by the value of every column in the group's column order, an
    omitted metric as an empty field. When no name and no written value
    holds a line break itself, cutting the text at its line breaks gives
    back exactly these lines, [N + 1] of them. *)
Theorem csv_holds_header_and_rows `{PyRuntime} (a : Args.t) (w : World) s w1
    (group step_metric : string) (cols : list string)
    (calls : list (gmap string num * bool)) :
  Args.log_mode a = "local" →
  __init__ a w = (Ok s, w1) →
  _step_metrics s !! group = Some step_metric →
  _metrics s !! group = Some cols →
  Forall (accepted step_metric cols) calls →
  ∃ s' w' text,
    log_all group calls (s, w1) = (Ok tt, (s', w')) ∧
    csv_text s' group = Some text ∧
    text = String.concat (String "010" EmptyString)
             (str_join "," (step_metric :: cols) ::
              ((λ call, csv_row call.1 step_metric cols) <$> calls)) ∧
    (free_of_line_breaks step_metric cols calls →
     lines_of text =
       str_join "," (step_metric :: cols) ::
       ((λ call, csv_row call.1 step_metric cols) <$> calls) ∧
     length (lines_of text) = S (length calls)).
Proof.
  intros Hmode Hinit Hsm Hcols Hcalls.
  pose proof (init_local_group _ _ _ _ _ _ Hmode Hinit Hcols) as Hgroup.
  destruct (init_local_registered _ _ _ _ _ Hmode Hinit Hgroup)
    as (sm & cols' & Hreg & _ & _ & Htext).
  pose proof Hreg as [_ _ Hsm' Hcols' Hne _ _].
  rewrite Hsm in Hsm'. rewrite Hcols in Hcols'.
  injection Hsm' as <-. injection Hcols' as <-.
  destruct (log_all_appends _ _ _ calls _ w1 _ Hreg Htext Hcalls)
    as (s' & w' & Hrun & _ & Htext').
  eexists s', w', _. split; [done|]. split; [exact Htext'|].
  assert (header step_metric cols +:+
            String.concat EmptyString
              ((λ call, newline +:+ csv_row call.1 step_metric cols) <$> calls)
          = String.concat (String "010" EmptyString) (csv_lines step_metric cols calls))
    as Hjoined.
  { unfold csv_lines. rewrite <- (header_join _ _ Hne).
    change (String.concat (String "010" EmptyString)) with (str_join newline).
    rewrite str_join_prefixed. by rewrite <- list_fmap_compose. }
  split; [exact Hjoined|].
  intros Hfree. rewrite Hjoined.
  pose proof (csv_lines_free _ _ _ Hfree) as Hlines. unfold csv_lines in Hlines |- *.
  rewrite (lines_of_concat _ _ Hlines).
  split; [reflexivity|]. cbn. by rewrite length_fmap.
Qed.

(** C4. For a registered group of an active local logger and a record with a
    key that is neither the step metric nor a column of the group: [log]
    with [check_keys=True] raises the [ValueError] that lists exactly the
    offending keys, and changes nothing; with [check_keys=False] the same
    record, holding the step metric as every record must, is logged, and the
    row appended is the one the record restricted to the group's keys would
    give. *)
Theorem log_checks_keys_on_request `{PyRuntime} (s : t) (w : World)
    (group step_metric : string) (cols : list string) (d : gmap string num) :
  registered s group step_metric cols →
  (∃ k, k ∈ dom d ∧ k ≠ step_metric ∧ k ∉ cols) →
  log d group true (s, w) =
    (Raise (ValueError (InvalidKeys (dom d ∖ {[step_metric]} ∖ list_to_set cols))), (s, w)) ∧
  (∀ k, k ∈ (dom d ∖ {[step_metric]} ∖ list_to_set cols : gset string) ↔
        k ∈ dom d ∧ k ≠ step_metric ∧ k ∉ cols) ∧
  (step_metric ∈ dom d →
   ∃ s' w' old,
     log d group false (s, w) = (Ok tt, (s', w')) ∧
     csv_text s group = Some old ∧
     csv_text s' group = Some (old +:+ newline +:+ csv_row d step_metric cols) ∧
     csv_row d step_metric cols =
       csv_row (filter (λ kv, kv.1 = step_metric ∨ kv.1 ∈ cols) d) step_metric cols).
Proof.
  intros Hreg (k & Hk & Hkstep & Hkcols).
  pose proof Hreg as [Hmode Hen Hsm Hcols Hne (summary & Hsum & [sg Hsg])
                        (files & f & Hfiles & Hf & Hopen)].
  assert (Hextra : ∀ k, k ∈ (dom d ∖ {[step_metric]} ∖ list_to_set cols : gset string) ↔
                         k ∈ dom d ∧ k ≠ step_metric ∧ k ∉ cols).
  { intros k'. rewrite !elem_of_difference, elem_of_singleton, elem_of_list_to_set.
    tauto. }
  split; [|split; [done|]].
  - apply log_invalid_keys; try done.
    intros Hempty. assert (k ∈ (∅ : gset string)) as Hin by (rewrite <- Hempty; by apply Hextra).
    by apply not_elem_of_empty in Hin.
  - intros Hstep.
    eexists _, _, (f_text f). split; [|split; [|split]].
    + by eapply log_local_Ok.
    + unfold csv_text. rewrite Hfiles. simpl. by rewrite Hf.
    + by eapply registered_logged.
    + unfold csv_row. f_equal.
      assert (Hcell : ∀ c, c = step_metric ∨ c ∈ cols →
                cell d c = cell (filter (λ kv, kv.1 = step_metric ∨ kv.1 ∈ cols) d) c).
      { intros c Hc. unfold cell. rewrite map_lookup_filter.
        destruct (d !! c) as [v|]; simpl; [|done].
        by rewrite option_guard_True. }
      f_equal; [apply Hcell; by left|].
      apply list_fmap_ext. intros i c Hi. apply Hcell. right.
      by eapply list_elem_of_lookup_2.
Qed.

(** C10. For a registered group of an active local logger and a record
    without the group's step metric, [log] raises the [ValueError] of the
    missing step metric and writes nothing to the file or the world, but the
    record has already been merged into the group's summary: afterwards the
    summary holds the record's value for every key of the record and, for
    every other key, exactly what it held before; the summaries of the other
    groups and every other attribute are as they were. The logger is
    therefore changed whenever the record brings a value the summary did not
    hold. *)
Theorem log_without_step_merges_first `{PyRuntime} (s : t) (w : World)
    (group step_metric : string) (cols : list string) (d : gmap string num) :
  registered s group step_metric cols →
  step_metric ∉ dom d →
  ∃ s',
    log d group false (s, w) =
      (Raise (ValueError (StepMetricMissing step_metric)), (s', w)) ∧
    _metrics_files s' = _metrics_files s ∧
    (∃ summary sg summary' sg',
       _summary s = Some summary ∧ summary !! group = Some sg ∧
       _summary s' = Some summary' ∧ summary' !! group = Some sg' ∧
       s' = set_summary (Some summary') s ∧
       (∀ k v, d !! k = Some v → sg' !! k = Some (Some v)) ∧
       (∀ k, d !! k = None → sg' !! k = sg !! k) ∧
       (∀ other, other ≠ group → summary' !! other = summary !! other)) ∧
    ((∃ k v summary sg,
        d !! k = Some v ∧ _summary s = Some summary ∧ summary !! group = Some sg ∧
        sg !! k ≠ Some (Some v)) →
     s' ≠ s).
Proof.
  intros [Hmode Hen Hsm Hcols Hne (summary & Hsum & [sg Hsg]) _] Hstep.
  eexists. split; [by eapply log_step_missing|]. split; [done|]. split.
  - exists summary, sg. eexists _, _.
    split; [exact Hsum|]. split; [exact Hsg|]. split; [reflexivity|].
    split; [by rewrite lookup_insert_eq|]. split; [reflexivity|].
    split; [|split].
    + intros k v Hk. apply copy_to_dict_lookup. by rewrite lookup_fmap, Hk.
    + intros k Hk. rewrite copy_to_dict_union, lookup_union, lookup_fmap, Hk. cbn.
      by destruct (sg !! k).
    + intros other Hother. by rewrite lookup_insert_ne.
  - intros (k & v & summary0 & sg0 & Hk & Hsum0 & Hsg0 & Hnew) Heq.
    rewrite Hsum in Hsum0. injection Hsum0 as <-.
    rewrite Hsg in Hsg0. injection Hsg0 as <-.
    apply (f_equal _summary) in Heq. cbn in Heq. rewrite Hsum in Heq.
    injection Heq as Heq. apply (f_equal (λ m, m !! group)) in Heq.
    rewrite lookup_insert_eq, Hsg in Heq. injection Heq as Heq.
    apply Hnew. rewrite <- Heq. apply copy_to_dict_lookup. by rewrite lookup_fmap, Hk.
Qed.

(** C7, as the code has it. In local mode the header of a group's metrics
    file is the step-metric name followed by the group's metric names,
    comma-separated: every name of the caller's list other than the step
    metric, each once, in the order of the list that the logger stores for
    the group, which is the order of the file's rows and is the order in
    which the interpreter enumerates the set of names. *)
Theorem csv_header_lists_stored_columns `{PyRuntime} (a : Args.t) (w : World) s w1
    (group step_metric : string) (ms : list string) :
  Args.log_mode a = "local" →
  __init__ a w = (Ok s, w1) →
  NoDup (Args.metrics a).*1 →
  (group, (step_metric, ms)) ∈ Args.metrics a →
  ∃ cols,
    _metrics s !! group = Some cols ∧
    csv_text s group = Some (str_join "," (step_metric :: cols)) ∧
    cols = list_set_difference ms step_metric ∧
    NoDup cols ∧
    ∀ x, x ∈ cols ↔ x ∈ ms ∧ x ≠ step_metric.
Proof.
  intros Hmode Hinit Hnd Hin.
  assert (group ∈ (Args.metrics a).*1) as Hgroup
    by (apply list_elem_of_fmap; by exists (group, (step_metric, ms))).
  destruct (init_local_registered _ _ _ _ _ Hmode Hinit Hgroup)
    as (sm & cols & Hreg & Hsm & Hcols & Htext).
  rewrite (init_step_metrics_lookup _ _ _ _ Hnd Hin) in Hsm.
  rewrite (init_metrics_lookup _ _ _ _ Hnd Hin) in Hcols.
  injection Hsm as <-. injection Hcols as <-.
  destruct Hreg as [_ _ _ Hcols' Hne _ _].
  exists (clean_metrics step_metric ms). split; [done|].
  split; [by rewrite Htext, header_join|]. split; [done|].
  apply clean_metrics_spec.
Qed.

(** C6, as the code has it. The emptiness check is made in local mode
    only. In local mode a construction with a group whose metric list is
    empty once the step metric has been removed never returns a logger: it
    raises, and the exception is the [ValueError] of the emptiness check,
    naming a group whose list is empty, unless an earlier step has raised
    its own: an argument check of [__init__], [reinit=False], a path that
    cannot be joined or a failing file-system call. In every other mode the
    construction never raises the error of the emptiness check. *)
Theorem init_local_rejects_empty_group `{PyRuntime} (a : Args.t) (w : World)
    (group step_metric : string) (ms : list string) :
  NoDup (Args.metrics a).*1 →
  (group, (step_metric, ms)) ∈ Args.metrics a →
  (∀ x, x ∈ ms → x = step_metric) →
  (Args.log_mode a = "local" →
   ∃ e w',
     __init__ a w = (Raise e, w') ∧
     (emptiness_error (init_metrics (Args.metrics a)) e ∨ raised_before_metrics e)) ∧
  (Args.log_mode a ≠ "local" →
   ∀ metric_group, (__init__ a w).1 ≠ Raise (ValueError (MetricsEmpty metric_group))).
Proof.
  intros Hnd Hin Hempty. split.
  - intros Hmode.
    destruct (__init__ a w) as [[s|e] w'] eqn:Hinit.
    2:{ exists e, w'. split; [reflexivity|]. by eapply init_local_raises. }
    exfalso.
    assert (group ∈ (Args.metrics a).*1) as Hgroup
      by (apply list_elem_of_fmap; by exists (group, (step_metric, ms))).
    destruct (init_local_registered _ _ _ _ _ Hmode Hinit Hgroup)
      as (sm & cols & [_ _ _ _ Hne _ _] & _ & Hcols & _).
    rewrite (init_metrics_lookup _ _ _ _ Hnd Hin) in Hcols. injection Hcols as <-.
    destruct (clean_metrics step_metric ms) as [|c cols] eqn:E; [done|].
    destruct (clean_metrics_spec step_metric ms) as [_ Hspec].
    destruct (Hspec c) as [[Hc1 Hc2] _]; [rewrite E; apply elem_of_cons; by left|].
    by apply Hc2, Hempty.
  - intros Hmode g Hraise.
    destruct (__init__ a w) as [r w'] eqn:Hinit. cbn in Hraise. subst r.
    exact (init_nonlocal_raises a w _ w' Hmode Hinit g eq_refl).
Qed.

Section binned_and_finish.
Context `{PyRuntime}.

(** *** The bin counters after construction *)

Lemma per_metric_lookup {V W} (wrap : gmap string V → W) (zero : V) (s : t) group :
  group ∈ _metric_groups s →
  per_metric wrap zero s !! group =
    Some (wrap (list_to_map ((λ metric, (metric, zero)) <$> (_metrics s !!! group)))).
Proof.
  intros Hg. unfold per_metric.
  rewrite (lookup_list_to_map_keyed
             (λ g, wrap (list_to_map ((λ metric, (metric, zero)) <$> (_metrics s !!! g))))).
  by rewrite bool_decide_true.
Qed.

Lemma per_metric_fixed {V W} (wrap : gmap string V → W) (zero : V) (s s' : t) :
  fixed s' = fixed s → per_metric wrap zero s' = per_metric wrap zero s.
Proof.
  intros Hf. unfold per_metric.
  assert (_metrics s' = _metrics s ∧ _metric_groups s' = _metric_groups s) as [-> ->]
    by (unfold fixed in Hf; by simplify_eq/=).
  done.
Qed.

(** Setup stores a dict of per-metric zeros as the counter of every group,
    and nothing in setup replaces it. *)
Lemma init_metric_n (a : Args.t) (w : World) s w' :
  __init__ a w = (Ok s, w') →
  _is_enabled s = true →
  is_Some (_bin_size s) →
  _metric_n s = Some (per_metric CDict 0%Z s).
Proof.
  intros Hinit Hen Hbin.
  pose proof (init_fixed _ _ _ _ Hinit) as (log_mode & bin_size & Hparse & Hbs & Hfixed).
  assert (_is_enabled (new_object a log_mode (Args.config a) bin_size) = true ∧
          _bin_size s = bin_size) as [Hen0 Hbin0].
  { unfold fixed in Hfixed. simplify_eq/=. split; congruence. }
  rewrite Hbin0 in Hbin.
  rewrite init_unfold, Hparse in Hinit.
  destruct (Args.is_sub_logger a && _); [done|].
  destruct (bool_decide (Args.wandb_mode a ∉ _)); [done|].
  rewrite Hbs in Hinit. cbv zeta in Hinit. rewrite Hen0 in Hinit.
  destruct (when _ _ _) as [[[]|e] [s1 w1]] eqn:Hsetup; [|done].
  injection Hinit as -> ->.
  cbn [when] in Hsetup. unfold _setup in Hsetup. minv Hsetup.
  rewrite Hen0 in Hsetup. cbn [when] in Hsetup.
  change (_bin_size (new_object a log_mode (Args.config a) bin_size)) with bin_size in Hsetup.
  rewrite bool_decide_true in Hsetup by done. cbn [when] in Hsetup.
  minv Hsetup.
  match goal with Hb : bind _ _ _ = (Ok _, st) |- _ =>
    minv Hb; injection Hb as _ <- end.
  assert (∀ s2 : t, (_metric_roll_avg s, _metric_n s) = (_metric_roll_avg s2, _metric_n s2) →
            _metric_n s2 = Some (per_metric CDict 0%Z
                                   (new_object a log_mode (Args.config a) bin_size)) →
            _metric_n s = Some (per_metric CDict 0%Z s)) as Hdone.
  { intros s2 Hpair Hs2. injection Hpair as _ Hn2.
    by rewrite Hn2, Hs2, (per_metric_fixed CDict 0%Z _ _ Hfixed). }
  change (_log_mode (new_object a log_mode (Args.config a) bin_size)) with log_mode in Hsetup.
  destruct log_mode.
  - done.
  - eapply Hdone; [exact (keeps_bins_setup_wandb _ _ _ _ Hsetup)|done].
  - eapply Hdone; [exact (keeps_bins_setup_local _ _ _ _ Hsetup)|done].
Qed.

(** On every enabled logger with a bin size, a well-formed [log_binned]
    call stops at [self._metric_n[group] + 1]: the counter is a dict. *)
Lemma log_binned_raises (a : Args.t) (w : World) s w' d group cols group_bin_size w1 :
  __init__ a w = (Ok s, w') →
  _is_enabled s = true →
  getitem_opt (_bin_size s) group = Ok group_bin_size →
  _metrics s !! group = Some cols →
  group ∈ _metric_groups s →
  dom d = list_to_set cols →
  log_binned d group (s, w1) = (Raise (TypeError DictPlusInt), (s, w1)).
Proof.
  intros Hinit Hen Hsize Hcols Hgroup Hdom.
  assert (is_Some (_bin_size s)) as Hbin by (destruct (_bin_size s); [by eexists|done]).
  pose proof (init_metric_n _ _ _ _ Hinit Hen Hbin) as Hn.
  assert (group ∈ dom (_metrics s)) as Hg by (apply elem_of_dom; by eexists).
  unfold log_binned. rewrite (bind_Ok _ _ _ s (s, w1)) by done.
  rewrite Hen. cbn [when].
  rewrite (bind_Ok _ _ _ tt (s, w1)).
  2:{ rewrite bool_decide_false; [done|]. by destruct Hbin as [? ->]. }
  rewrite (bind_Ok _ _ _ tt (s, w1)); [|by rewrite bool_decide_false by (by intros ?)].
  unfold getitem at 1. rewrite Hcols.
  rewrite (bind_Ok _ _ _ cols (s, w1)) by done.
  rewrite (bind_Ok _ _ _ tt (s, w1)); [|by rewrite bool_decide_false by (by intros ?)].
  rewrite Hsize. rewrite (bind_Ok _ _ _ group_bin_size (s, w1)) by done.
  rewrite Hn. unfold getitem_opt, getitem. rewrite (per_metric_lookup _ _ _ _ Hgroup).
  erewrite bind_Ok; [|reflexivity]. reflexivity.
Qed.

(** *** [finish] after [finish] *)

Lemma finish_keeps_is_finished s w r s' w' :
  finish (s, w) = (r, (s', w')) → _is_finished s' = _is_finished s.
Proof.
  intros Hrun. pose proof (keeps_fixed_finish _ _ _ Hrun) as Hf.
  unfold fixed in Hf. by simplify_eq/=.
Qed.

Lemma keeps_paths_finish :
  keeps (λ s, (_summary s, _summary_path s, _run_dir s, _wandb_run s)) finish.
Proof. unfold finish, log_summary, file_close. keeps. Qed.

Lemma close_all_Ok (groups : list string) s w :
  is_Some (_metrics_files s) →
  ∃ s' w', for_each groups file_close (s, w) = (Ok tt, (s', w')) ∧
           is_Some (_metrics_files s').
Proof.
  revert s w. induction groups as [|g groups IH]; intros s w [files Hfiles].
  - exists s, w. split; [done|]. by eexists.
  - assert (∃ s1 w1, file_close g (s, w) = (Ok tt, (s1, w1)) ∧ is_Some (_metrics_files s1))
      as (s1 & w1 & Hclose & Hsome).
    { unfold file_close. rewrite (bind_Ok _ _ _ s (s, w)) by done. rewrite Hfiles.
      destruct (files !! g) as [f|]; [destruct (f_closed f)|].
      - exists s, w. split; [done|]. by eexists.
      - eexists _, _. split; [reflexivity|]. cbn. by eexists.
      - exists s, w. split; [done|]. by eexists. }
    destruct (IH s1 w1 Hsome) as (s' & w' & Hrest & Hsome').
    exists s', w'. split; [|done]. cbn [for_each]. by erewrite bind_Ok.
Qed.

Lemma keeps_fixed_close_all (groups : list string) :
  keeps fixed (for_each groups file_close).
Proof. unfold file_close. keeps. Qed.

Lemma keeps_summary_close_all (groups : list string) :
  keeps (λ s, (_summary s, _summary_path s)) (for_each groups file_close).
Proof. unfold file_close. keeps. Qed.

Lemma keeps_files_log_summary : keeps _metrics_files log_summary.
Proof. unfold log_summary. keeps. Qed.

Lemma log_summary_local s w :
  _is_enabled s = true → _log_mode s = LOCAL →
  (∀ u st', log_summary (s, w) = (Ok u, st') →
     is_Some (_summary s) ∧ is_Some (_summary_path s)) ∧
  (is_Some (_summary s) → is_Some (_summary_path s) →
   ∃ w', log_summary (s, w) = (Ok tt, (s, w'))).
Proof.
  intros Hen Hmode. unfold log_summary.
  rewrite (bind_Ok _ _ _ s (s, w)) by done. rewrite Hen, Hmode. cbn [when andb LogMode_eqb].
  split.
  - intros u st'. destruct (_summary s); [|done]. destruct (_summary_path s); [|done].
    intros _. split; by eexists.
  - intros [summary ->] [summary_path ->]. by eexists.
Qed.

(** A [finish] that returned can be followed by another [finish] that
    returns as well: [_is_finished] is tested but never set. *)
Lemma finish_again s w s1 w1 :
  finish (s, w) = (Ok tt, (s1, w1)) →
  ∃ s2 w2, finish (s1, w1) = (Ok tt, (s2, w2)).
Proof.
  intros Hrun.
  pose proof (keeps_fixed_finish _ _ _ Hrun) as Hfix. cbn [fst] in Hfix.
  pose proof (keeps_paths_finish _ _ _ Hrun) as Hpaths. cbn [fst] in Hpaths.
  assert (_is_enabled s1 = _is_enabled s ∧ _is_finished s1 = _is_finished s ∧
          _log_mode s1 = _log_mode s ∧ _metric_groups s1 = _metric_groups s)
    as (Een & Efin & Emode & Egroups) by (unfold fixed in Hfix; by simplify_eq/=).
  injection Hpaths as Esum Epath Edir Erun.
  unfold finish in Hrun |- *.
  rewrite (bind_Ok _ _ _ s (s, w)) in Hrun by done.
  rewrite (bind_Ok _ _ _ s1 (s1, w1)) by done.
  rewrite Een. destruct (_is_enabled s) eqn:Hen; [|by eexists _, _].
  cbn [when] in Hrun |- *.
  rewrite Efin. destruct (_is_finished s) eqn:Hfin; [done|].
  rewrite (bind_Ok _ _ _ tt (s, w)) in Hrun by done.
  rewrite (bind_Ok _ _ _ tt (s1, w1)) by done.
  rewrite Emode. destruct (_log_mode s) eqn:Hmode.
  - by eexists _, _.
  - rewrite Erun. destruct (_wandb_run s); [|done]. by eexists _, _.
  - apply bind_inv_Ok in Hrun as ([] & [sa wa] & Hclose & Hrun).
    apply bind_inv_Ok in Hrun as ([] & [sb wb] & Hsummary & Hrun).
    apply bind_inv_Ok in Hrun as (status_path & ? & [Hjoin ->]%lift_result_inv_Ok & Hrun).
    apply io_inv_Ok in Hrun as (w2 & _ & [= <- <-]). cbn [fst snd] in *.
    destruct (_metrics_files s) as [files|] eqn:Hfiles; [|done].
    (* the first run *)
    destruct (close_all_Ok (_metric_groups s) s w) as (sa' & wa' & Hclose' & Hsome);
      [by eexists|].
    rewrite Hclose' in Hclose. injection Hclose as -> ->.
    pose proof (keeps_fixed_close_all _ _ _ _ Hclose') as Hfa.
    pose proof (keeps_summary_close_all _ _ _ _ Hclose') as [= Hsa Hpa].
    cbn [fst] in Hfa, Hsa, Hpa.
    assert (_is_enabled sa = true ∧ _log_mode sa = LOCAL) as [Hena Hmodea]
      by (unfold fixed in Hfa; simplify_eq/=; split; congruence).
    destruct (log_summary_local sa wa Hena Hmodea) as [Hinv _].
    destruct (Hinv _ _ Hsummary) as [Hsum Hpath]. rewrite Hsa in Hsum. rewrite Hpa in Hpath.
    pose proof (keeps_files_log_summary _ _ _ Hsummary) as Hfb. cbn [fst] in Hfb.
    (* the second run *)
    destruct Hsome as [files' Hfiles']. rewrite Hfb, Hfiles', Egroups.
    destruct (close_all_Ok (_metric_groups s) s1 w1) as (sc & wc & Hclose2 & _).
    { rewrite Hfb, Hfiles'. by eexists. }
    erewrite bind_Ok; [|exact Hclose2].
    pose proof (keeps_fixed_close_all _ _ _ _ Hclose2) as Hfc.
    pose proof (keeps_summary_close_all _ _ _ _ Hclose2) as [= Hsc Hpc].
    cbn [fst] in Hfc, Hsc, Hpc.
    assert (_is_enabled sc = true ∧ _log_mode sc = LOCAL) as [Henc Hmodec].
    { rewrite Hfix in Hfc. unfold fixed in Hfc. simplify_eq/=. split; congruence. }
    destruct (log_summary_local sc wc Henc Hmodec) as [_ Hgo].
    destruct Hgo as [wd Hsummary2]; [by rewrite Hsc, Esum|by rewrite Hpc, Epath|].
    erewrite bind_Ok; [|exact Hsummary2].
    rewrite Edir, Hjoin. erewrite bind_Ok; [|reflexivity].
    unfold io, OS.write_file, modify. cbn. by eexists _, _.
Qed.

(** *** [finish] after a local construction *)

Lemma setup_local_paths reinit s0 w0 s w :
  _setup_local reinit (s0, w0) = (Ok tt, (s, w)) → finishable s.
Proof.
  unfold _setup_local. intros Hrun. minv Hrun.
  apply io_inv_Ok in Hrun as (w' & _ & [= -> ->]).
  match goal with
  | Hloop : for_each ?xs ?body ?st = _ |- _ =>
      assert (keeps (λ s, (_run_dir s, _summary_path s)) (for_each xs body)) as Hk
        by (unfold file_write; keeps);
      pose proof (Hk _ _ _ Hloop) as [= Hdir Hpath]
  end.
  cbn in Hdir, Hpath. unfold finishable. rewrite Hdir, Hpath.
  match goal with
  | Hw : when ?b ?c (?s1, _) = (Ok _, ?st) |- _ =>
      assert (_run_dir st.1 = _run_dir s1 ∧ _summary_path st.1 = _summary_path s1)
        as [-> ->]
        by (assert (keeps (λ s, (_run_dir s, _summary_path s)) (when b c)) as Hk' by keeps;
            pose proof (Hk' _ _ _ Hw) as [= ? ?]; by split)
  end.
  cbn. by eexists _, _, _.
Qed.

Lemma init_local_finishable (a : Args.t) (w : World) s w' :
  Args.log_mode a = "local" →
  __init__ a w = (Ok s, w') →
  finishable s ∧ is_Some (_metrics_files s).
Proof.
  intros Hmode Hinit.
  destruct (init_local_setup _ _ _ _ Hmode Hinit) as (reinit & s0 & w0 & Hsetup & _).
  split; [by eapply setup_local_paths|].
  apply setup_local_files in Hsetup as (files & Hfiles & _). by eexists.
Qed.

(** On a local logger with its files, summary and paths in place, [finish]
    returns. *)
Lemma finish_local_Ok s w :
  _log_mode s = LOCAL → _is_enabled s = true → _is_finished s = false →
  is_Some (_metrics_files s) → is_Some (_summary s) → finishable s →
  ∃ s1 w1, finish (s, w) = (Ok tt, (s1, w1)).
Proof.
  intros Hmode Hen Hfin [files Hfiles] Hsum (run_dir & summary_path & status_path &
                                              Hdir & Hpath & Hjoin).
  unfold finish. rewrite (bind_Ok _ _ _ s (s, w)) by done.
  rewrite Hen, Hfin, Hmode. cbn [when].
  rewrite (bind_Ok _ _ _ tt (s, w)) by done.
  rewrite Hfiles.
  destruct (close_all_Ok (_metric_groups s) s w) as (sc & wc & Hclose & _); [by eexists|].
  erewrite bind_Ok; [|exact Hclose].
  pose proof (keeps_fixed_close_all _ _ _ _ Hclose) as Hfc.
  pose proof (keeps_summary_close_all _ _ _ _ Hclose) as [= Hsc Hpc].
  cbn [fst] in Hfc, Hsc, Hpc.
  assert (_is_enabled sc = true ∧ _log_mode sc = LOCAL) as [Henc Hmodec]
    by (unfold fixed in Hfc; simplify_eq/=; split; congruence).
  destruct (log_summary_local sc wc Henc Hmodec) as [_ Hgo].
  destruct Hgo as [wd Hsummary]; [by rewrite Hsc|by rewrite Hpc, Hpath; eexists|].
  erewrite bind_Ok; [|exact Hsummary].
  rewrite Hdir, Hjoin. erewrite bind_Ok; [|reflexivity].
  unfold io, OS.write_file, modify. cbn. by eexists _, _.
Qed.

(** After every successful construction in local mode, [finish] returns and
    a second [finish] returns too, the flag [_is_finished] still [False]. *)
Lemma finish_twice_after_local_init (a : Args.t) (w : World) s w' :
  Args.log_mode a = "local" →
  __init__ a w = (Ok s, w') →
  ∃ s1 w1 s2 w2,
    finish (s, w') = (Ok tt, (s1, w1)) ∧
    finish (s1, w1) = (Ok tt, (s2, w2)) ∧
    _is_finished s1 = false.
Proof.
  intros Hmode Hinit.
  destruct (init_local_attributes _ _ _ _ Hmode Hinit) as (Hm & Hen & _ & _ & _ & Hsum).
  destruct (init_local_finishable _ _ _ _ Hmode Hinit) as [Hpaths Hfiles].
  assert (_is_finished s = false) as Hfin.
  { apply init_fixed in Hinit as (log_mode & bin_size & _ & _ & Hfixed).
    unfold fixed in Hfixed. by simplify_eq/=. }
  destruct (finish_local_Ok s w' Hm Hen Hfin Hfiles) as (s1 & w1 & Hrun1);
    [by rewrite Hsum; eexists|done|].
  destruct (finish_again _ _ _ _ Hrun1) as (s2 & w2 & Hrun2).
  exists s1, w1, s2, w2. split; [done|]. split; [done|].
  by rewrite (finish_keeps_is_finished _ _ _ _ _ Hrun1).
Qed.

End binned_and_finish.

(** * Further properties of the code *)

(** ** rlbench/utils.py *)

(** X1. [copy_to_dict] merges key by key: a key of [from_dict] takes its value
    from there, every other key keeps the value of [to_dict]. *)
Theorem copy_to_dict_overwrites_by_key {V} (from_dict to_dict : gmap string V) (k : string) :
  utils.copy_to_dict from_dict to_dict !! k =
    match from_dict !! k with
    | Some v => Some v
    | None => to_dict !! k
    end.
Proof.
  rewrite copy_to_dict_union, lookup_union.
  destruct (from_dict !! k), (to_dict !! k); reflexivity.
Qed.

(** X2. [join_paths] drops the empty strings among its arguments; it raises
    [TypeError] when an argument is [None] or when nothing is left to join,
    and otherwise joins and normalises what is left. *)
Theorem join_paths_drops_empty_strings `{PyRuntime} (paths : list (option string)) :
  (∀ before after,
     paths = before ++ Some EmptyString :: after →
     utils.join_paths paths = utils.join_paths (before ++ after)) ∧
  (None ∈ paths → utils.join_paths paths = Raise (TypeError JoinNoneOrMissing)) ∧
  (Forall (λ x, x = Some EmptyString) paths →
     utils.join_paths paths = Raise (TypeError JoinNoneOrMissing)) ∧
  (∀ parts, paths = Some <$> parts → parts ≠ [] → Forall (λ x, x ≠ EmptyString) parts →
     utils.join_paths paths = Ok (os_path_normpath (os_path_join parts))).
Proof.
  unfold utils.join_paths. split; [|split; [|split]].
  - intros before after ->. rewrite !filter_app, filter_cons.
    by rewrite decide_False by (by intros ?).
  - intros Hin.
    assert (None ∈ filter (λ x : option string, x ≠ Some EmptyString) paths) as Hin'
      by (apply list_elem_of_filter; by split).
    destruct (filter _ paths) as [|p ps] eqn:E; [done|].
    rewrite (mapM_None_2 id (p :: ps)); [done|].
    apply Exists_exists. by exists None.
  - intros Hall.
    assert (filter (λ x : option string, x ≠ Some EmptyString) paths = []) as ->; [|done].
    induction Hall as [|x l -> _ IH]; [done|].
    rewrite filter_cons, decide_False by (by intros ?). exact IH.
  - intros parts -> Hne Hall.
    assert (filter (λ x : option string, x ≠ Some EmptyString) (Some <$> parts)
            = Some <$> parts) as ->.
    { clear Hne. induction Hall as [|x l Hx _ IH]; [done|].
      rewrite fmap_cons, filter_cons, decide_True by congruence. by rewrite IH. }
    assert (mapM id (Some <$> parts) = Some parts) as Hm.
    { clear. induction parts as [|x l IH]; [done|].
      rewrite fmap_cons. cbn. rewrite IH. done. }
    destruct parts as [|p parts]; [done|].
    rewrite fmap_cons in Hm |- *. by rewrite Hm.
Qed.

(** ** Construction: what is checked before anything is touched *)

(** X3. With a legal log mode, [__init__] rejects a sub-logger that is given
    sub-loggers and rejects an unknown [wandb_mode], in this order, whatever
    the log mode, before any file-system or network call: the world has only
    gained the printed warning. *)
Theorem init_rejects_before_setup `{PyRuntime} (a : Args.t) (w : World) :
  Args.log_mode a ∈ ["disabled"; "wandb"; "local"] →
  (Args.is_sub_logger a = true → is_Some (Args.sub_loggers a) →
     __init__ a w = (Raise (ValueError SubLoggersOfSubLogger), warned w)) ∧
  (Args.is_sub_logger a && bool_decide (is_Some (Args.sub_loggers a)) = false →
   Args.wandb_mode a ∉ valid_wandb_modes →
     __init__ a w = (Raise (ValueError (InvalidWandbMode (Args.wandb_mode a))), warned w)).
Proof.
  intros Hmode. rewrite init_unfold.
  destruct (parse_log_mode (Args.log_mode a)) as [log_mode|e] eqn:Hparse.
  2:{ apply parse_log_mode_Raise in Hparse as [_ Hn]. done. }
  split.
  - intros -> Hsub. by rewrite bool_decide_true.
  - intros -> Hw. by rewrite bool_decide_true.
Qed.

Section local_construction_errors.
Context `{PyRuntime}.

Lemma init_enters_setup (a : Args.t) (w : World) log_mode bin_size :
  passes_init_checks a log_mode bin_size →
  log_mode ≠ DISABLED →
  __init__ a w =
    match _setup None (new_object a log_mode (Args.config a) bin_size, warned w) with
    | (Ok _, (self', w')) => (Ok self', w')
    | (Raise e, (_, w')) => (Raise e, w')
    end.
Proof.
  intros (Hparse & Hsub & Hwm & Hbs) Hmode.
  rewrite init_unfold, Hparse, Hsub, bool_decide_false, Hbs by (by intros ?).
  cbv zeta. by destruct log_mode.
Qed.

End local_construction_errors.

(** X4. The local backend does not implement [reinit=False]: with arguments that
    pass the checks of [__init__], the construction raises
    [NotImplementedError] before it touches the file system. *)
Theorem init_local_needs_reinit `{PyRuntime} (a : Args.t) (w : World) bin_size :
  passes_init_checks a LOCAL bin_size →
  Args.reinit a = false →
  __init__ a w = (Raise (NotImplementedError ReinitFalse), warned w).
Proof.
  intros Hchecks Hreinit.
  rewrite (init_enters_setup a w LOCAL bin_size Hchecks) by done.
  rewrite setup_unfold by done.
  change (_log_mode (new_object a LOCAL (Args.config a) bin_size)) with LOCAL.
  change (_reinit (new_object a LOCAL (Args.config a) bin_size)) with (Args.reinit a).
  rewrite Hreinit. unfold _setup_local. cbn [negb when].
  by rewrite (bind_Raise _ _ _ (NotImplementedError ReinitFalse)
                (before_backend_setup (new_object a LOCAL (Args.config a) bin_size), warned w)).
Qed.

(** X5. The local backend needs a base directory: with [local_base_dir] left at
    its default [None], [join_paths] raises [TypeError] on the first path,
    before the file system is touched. *)
Theorem init_local_needs_base_dir `{PyRuntime} (a : Args.t) (w : World) bin_size :
  passes_init_checks a LOCAL bin_size →
  Args.reinit a = true →
  Args.local_base_dir a = None →
  __init__ a w = (Raise (TypeError JoinNoneOrMissing), warned w).
Proof.
  intros Hchecks Hreinit Hdir.
  rewrite (init_enters_setup a w LOCAL bin_size Hchecks) by done.
  rewrite setup_unfold by done.
  change (_log_mode (new_object a LOCAL (Args.config a) bin_size)) with LOCAL.
  change (_reinit (new_object a LOCAL (Args.config a) bin_size)) with (Args.reinit a).
  rewrite Hreinit. unfold _setup_local. cbn [negb when].
  set (s0 := before_backend_setup (new_object a LOCAL (Args.config a) bin_size)).
  rewrite (bind_Ok _ _ _ tt (s0, warned w)) by reflexivity.
  rewrite (bind_Ok _ _ _ s0 (s0, warned w)) by reflexivity.
  subst s0.
  assert (utils.join_paths
            [_local_base_dir (before_backend_setup (new_object a LOCAL (Args.config a) bin_size));
             Some (_name (before_backend_setup (new_object a LOCAL (Args.config a) bin_size)))]
          = Raise (TypeError JoinNoneOrMissing)) as Hjoin.
  { assert (_local_base_dir
              (before_backend_setup (new_object a LOCAL (Args.config a) bin_size)) = None)
      as -> by (unfold before_backend_setup; case_bool_decide; exact Hdir).
    unfold utils.join_paths. rewrite filter_cons, decide_True by done.
    destruct (filter _ _); reflexivity. }
  rewrite Hjoin.
  by rewrite (bind_Raise _ _ _ (TypeError JoinNoneOrMissing)
                (before_backend_setup (new_object a LOCAL (Args.config a) bin_size), warned w)).
Qed.

(** ** Logging in local mode: the summary and the trace *)

Section log_extras.
Context `{PyRuntime}.

Lemma init_summary_lookup (metrics : gmap string (list string)) (steps : gmap string string)
    group :
  init_summary metrics steps !! group =
    match steps !! group with
    | Some step_metric =>
        (λ cols, <[step_metric:=None]>
                   (list_to_map ((λ metric, (metric, None)) <$> cols) : summary_group))
          <$> metrics !! group
    | None =>
        (λ cols, list_to_map ((λ metric, (metric, None)) <$> cols) : summary_group)
          <$> metrics !! group
    end.
Proof.
  unfold init_summary.
  apply (map_fold_weak_ind (λ r (m : gmap string string),
    r !! group =
      match m !! group with
      | Some step_metric =>
          (λ cols, <[step_metric:=None]>
                     (list_to_map ((λ metric, (metric, None)) <$> cols) : summary_group))
            <$> metrics !! group
      | None =>
          (λ cols, list_to_map ((λ metric, (metric, None)) <$> cols) : summary_group)
            <$> metrics !! group
      end)).
  - by rewrite lookup_empty, lookup_fmap.
  - intros i x m r Hi Hr. destruct (decide (i = group)) as [->|Hne].
    + rewrite lookup_alter_eq, lookup_insert_eq, Hr, Hi.
      by destruct (metrics !! group).
    + by rewrite lookup_alter_ne, lookup_insert_ne.
Qed.

Lemma init_metrics_clean (metrics : list (string * (string * list string))) group cols
    step_metric :
  init_metrics metrics !! group = Some cols →
  init_step_metrics metrics !! group = Some step_metric →
  ∃ ms, cols = clean_metrics step_metric ms.
Proof.
  unfold init_metrics. rewrite map_lookup_imap.
  destruct (list_to_map _ !! group) as [ms|]; [|done]. cbn.
  intros Hc Hs. rewrite Hs in Hc. injection Hc as <-. by exists ms.
Qed.

(** The summary of a group right after a local construction. *)
Lemma init_local_summary_value (a : Args.t) (w : World) s w' group step_metric cols key :
  Args.log_mode a = "local" →
  __init__ a w = (Ok s, w') →
  _step_metrics s !! group = Some step_metric →
  _metrics s !! group = Some cols →
  summary_value s group key =
    if bool_decide (key = step_metric ∨ key ∈ cols) then Some None else None.
Proof.
  intros Hmode Hinit Hsm Hcols.
  destruct (init_local_attributes _ _ _ _ Hmode Hinit) as (_ & _ & _ & Es & Em & Hsum).
  unfold summary_value. rewrite Hsum. cbn.
  rewrite init_summary_lookup, <- Es, <- Em, Hsm, Hcols. cbn.
  destruct (decide (key = step_metric)) as [->|Hne].
  - rewrite lookup_insert_eq. by rewrite bool_decide_true by (by left).
  - rewrite lookup_insert_ne by done.
    destruct (decide (key ∈ cols)) as [Hin|Hnin].
    + rewrite bool_decide_true by (by right).
      apply elem_of_list_to_map_1'.
      * intros y [x [[= -> ->] _]]%list_elem_of_fmap. done.
      * apply list_elem_of_fmap. by exists key.
    + rewrite bool_decide_false by (by intros [?|?]).
      apply not_elem_of_list_to_map_1. rewrite <- list_fmap_compose.
      by rewrite list_fmap_id.
Qed.

Lemma summary_value_lookup s group key summary sg :
  _summary s = Some summary → summary !! group = Some sg →
  summary_value s group key = sg !! key.
Proof. intros Hsum Hsg. unfold summary_value. rewrite Hsum. cbn. by rewrite Hsg. Qed.

Lemma summary_value_logged s group d summary sg files f row key :
  _summary s = Some summary → summary !! group = Some sg →
  summary_value (logged s group d summary sg files f row) group key =
    match d !! key with
    | Some v => Some (Some v)
    | None => summary_value s group key
    end.
Proof.
  intros Hsum Hsg. unfold summary_value, logged. cbn.
  rewrite lookup_insert_eq. cbn.
  rewrite copy_to_dict_union, lookup_union, lookup_fmap, Hsum. cbn. rewrite Hsg. cbn.
  destruct (d !! key), (sg !! key); reflexivity.
Qed.

Lemma log_all_summary group step_metric cols calls s w :
  registered s group step_metric cols →
  Forall (accepted step_metric cols) calls →
  ∃ s' w',
    log_all group calls (s, w) = (Ok tt, (s', w')) ∧
    ∀ key, summary_value s' group key =
             match latest calls.*1 key with
             | Some v => Some (Some v)
             | None => summary_value s group key
             end.
Proof.
  intros Hreg Hcalls. revert s w Hreg.
  induction Hcalls as [|[d ck] calls [Hstep Hck] _ IH]; intros s w Hreg.
  - exists s, w. split; [done|]. intros key. reflexivity.
  - pose proof Hreg as [Hmode Hen Hsm Hcols Hne (summary & Hsum & [sg Hsg])
                          (files & f & Hfiles & Hf & Hopen)].
    pose proof (log_local_Ok s w group step_metric cols d ck summary sg files f
                  Hmode Hen Hsm Hcols Hne Hsum Hsg Hfiles Hf Hopen Hstep Hck) as Hlog.
    destruct (registered_logged s group step_metric cols d summary sg files f
                (csv_row d step_metric cols) Hreg Hsum Hfiles) as [Hreg' _].
    destruct (IH _ (OS.emit (FsWrite (f_path f) (newline +:+ csv_row d step_metric cols)) w)
                Hreg') as (s' & w' & Hrun & Hsum').
    exists s', w'. split.
    + unfold log_all. cbn [for_each]. erewrite bind_Ok; [|exact Hlog]. exact Hrun.
    + intros key. rewrite Hsum', (summary_value_logged _ _ _ _ _ _ _ _ _ Hsum Hsg).
      rewrite fmap_cons. cbn. destruct (latest calls.*1 key); reflexivity.
Qed.

Lemma file_write_others group text other st r st' :
  other ≠ group →
  file_write group text st = (r, st') → others_of other st'.1 = others_of other st.1.
Proof.
  intros Hne. destruct st as [s w]. unfold file_write, bind, get_self. cbn.
  destruct (_metrics_files s) as [files|] eqn:Hfiles; [|by intros [= <- <-]].
  unfold lift_result, getitem. destruct (files !! group) as [f|]; [|by intros [= <- <-]].
  destruct (f_closed f); [by intros [= <- <-]|]. cbn. intros [= <- <-].
  unfold others_of. cbn. by rewrite Hfiles, lookup_insert_ne.
Qed.

Lemma log_local_others d group check_keys other st r st' :
  other ≠ group →
  _log_local d group check_keys st = (r, st') →
  others_of other st'.1 = others_of other st.1.
Proof.
  intros Hne. destruct st as [s w]. unfold _log_local. cbn [fst].
  rewrite (bind_Ok _ _ _ s (s, w)) by done.
  intros [(e & Hc & _)|([] & st1 & Hc & Hrun)]%bind_inv.
  { assert (keeps (others_of other)
              (when (bool_decide (group ∉ dom (_metrics s)))
                 (raise (ValueError (InvalidGroup group))))) as Hk by keeps.
    exact (Hk _ _ _ Hc). }
  apply when_raise_inv_Ok in Hc as [_ ->].
  assert (∀ r1 st1, match _summary s with
            | None => raise (TypeError NoneNotSubscriptable)
            | Some summary =>
                let* summary_group := lift_result (getitem summary group) in
                set_self (set_summary
                  (Some (<[group := utils.copy_to_dict (Some <$> d) summary_group]> summary)))
            end (s, w) = (r1, st1) → others_of other st1.1 = others_of other s) as Hmerge.
  { intros r1 st2. destruct (_summary s) as [summary|] eqn:Hsum; [|by intros [= <- <-]].
    unfold bind, lift_result, getitem.
    destruct (summary !! group); [|by intros [= <- <-]].
    intros [= <- <-]. unfold others_of. cbn. by rewrite Hsum, lookup_insert_ne. }
  apply bind_inv in Hrun as [(e & Hc & _)|([] & st1 & Hc & Hrun)].
  { exact (Hmerge _ _ Hc). }
  rewrite <- (Hmerge _ _ Hc).
  apply bind_inv in Hrun as [(e & Hc' & _)|(row & st2 & Hc' & Hrun)].
  { assert (keeps (others_of other) (_to_row d group check_keys)) as Hk
      by (unfold _to_row; keeps).
    exact (Hk _ _ _ Hc'). }
  assert (keeps (others_of other) (_to_row d group check_keys)) as Hk
    by (unfold _to_row; keeps).
  rewrite <- (Hk _ _ _ Hc').
  by eapply file_write_others.
Qed.

End log_extras.

(** X6. One accepted [log] call on an active local group returns; afterwards the
    group's summary holds, for every key of the record (registered or not),
    the record's value, and for every other key what it held before; the
    call makes one write, of a line break (code 10) and the row, through the
    group's file object to the path of that file, and no other file-system
    or network call, and prints nothing. *)
Theorem log_local_updates_summary_and_writes_once `{PyRuntime} (s : t) (w : World)
    (group step_metric : string) (cols : list string) (d : gmap string num)
    (check_keys : bool) (files : gmap string TextIO) (f : TextIO) :
  registered s group step_metric cols →
  _metrics_files s = Some files →
  files !! group = Some f →
  accepted step_metric cols (d, check_keys) →
  ∃ s' w',
    log d group check_keys (s, w) = (Ok tt, (s', w')) ∧
    (∀ key, summary_value s' group key =
              match d !! key with
              | Some v => Some (Some v)
              | None => summary_value s group key
              end) ∧
    w_io w' = w_io w ++ [FsWrite (f_path f) (String "010" (csv_row d step_metric cols))] ∧
    w_fs w' = w_fs w ∧ w_stdout w' = w_stdout w.
Proof.
  intros [Hmode Hen Hsm Hcols Hne (summary & Hsum & [sg Hsg])
           (files' & f' & Hfiles' & Hf' & Hopen)] Hfiles Hf [Hstep Hck].
  rewrite Hfiles in Hfiles'. injection Hfiles' as <-.
  rewrite Hf in Hf'. injection Hf' as <-.
  eexists _, _. split.
  - exact (log_local_Ok s w group step_metric cols d check_keys summary sg files f
             Hmode Hen Hsm Hcols Hne Hsum Hsg Hfiles Hf Hopen Hstep Hck).
  - split; [|done]. intros key. by apply summary_value_logged.
Qed.

(** X7. After a construction in local mode and any number of accepted [log]
    calls for a group, the group's summary maps every key to the value of the
    last record that had it; a registered name (the step metric or a column)
    that no record had maps to [None], and any other key is absent. *)
Theorem summary_holds_latest_values `{PyRuntime} (a : Args.t) (w : World) s w1
    (group step_metric : string) (cols : list string)
    (calls : list (gmap string num * bool)) :
  Args.log_mode a = "local" →
  __init__ a w = (Ok s, w1) →
  _step_metrics s !! group = Some step_metric →
  _metrics s !! group = Some cols →
  Forall (accepted step_metric cols) calls →
  ∃ s' w',
    log_all group calls (s, w1) = (Ok tt, (s', w')) ∧
    ∀ key, summary_value s' group key =
             match latest calls.*1 key with
             | Some v => Some (Some v)
             | None => if bool_decide (key = step_metric ∨ key ∈ cols)
                       then Some None else None
             end.
Proof.
  intros Hmode Hinit Hsm Hcols Hcalls.
  pose proof (init_local_group _ _ _ _ _ _ Hmode Hinit Hcols) as Hgroup.
  destruct (init_local_registered _ _ _ _ _ Hmode Hinit Hgroup)
    as (sm' & cols' & Hreg & _).
  assert (sm' = step_metric ∧ cols' = cols) as [-> ->].
  { destruct Hreg as [_ _ Hsm' Hcols' _ _ _]. split; congruence. }
  destruct (log_all_summary group step_metric cols calls s w1 Hreg Hcalls)
    as (s' & w' & Hrun & Hsum').
  exists s', w'. split; [exact Hrun|].
  intros key. rewrite Hsum'.
  by rewrite (init_local_summary_value a w s w1 group step_metric cols key Hmode Hinit Hsm Hcols).
Qed.

(** X8. Whatever a [log] call does and however it ends, it leaves the other
    groups alone: their summaries and their files (text, path and open or
    closed) are as before. *)
Theorem log_leaves_other_groups `{PyRuntime} (s : t) (w : World) (d : gmap string num)
    (group : string) (check_keys : bool) r s' w' (other : string) :
  log d group check_keys (s, w) = (r, (s', w')) →
  other ≠ group →
  (_summary s' ≫= (.!! other)) = (_summary s ≫= (.!! other)) ∧
  (_metrics_files s' ≫= (.!! other)) = (_metrics_files s ≫= (.!! other)).
Proof.
  intros Hrun Hne.
  enough (others_of other s' = others_of other s) as [= Hs Hf] by (by split).
  unfold log in Hrun. rewrite (bind_Ok _ _ _ s (s, w)) in Hrun by done.
  destruct (_is_enabled s); [|by injection Hrun as _ <- _]. cbn [when] in Hrun.
  apply bind_inv in Hrun as [(e & Hc & _)|([] & st1 & Hc & Hrun)].
  { assert (keeps (others_of other)
              (when (bool_decide (group ∉ dom (_metrics s)))
                 (raise (ValueError (InvalidGroup group))))) as Hk by keeps.
    exact (Hk _ _ _ Hc). }
  apply when_raise_inv_Ok in Hc as [_ ->].
  match type of Hrun with bind ?c _ _ = _ =>
    assert (keeps (others_of other) c) as Hk by keeps end.
  apply bind_inv in Hrun as [(e & Hc & _)|([] & [s1 w1] & Hc & Hrun)].
  { exact (Hk _ _ _ Hc). }
  pose proof (Hk _ _ _ Hc) as E. cbn [fst] in E. rewrite <- E.
  destruct (_log_mode s).
  - by injection Hrun as _ <- _.
  - assert (keeps (others_of other) (_log_wandb d true)) as Hk'
      by (unfold _log_wandb; keeps).
    exact (Hk' _ _ _ Hrun).
  - exact (log_local_others d group false other _ _ _ Hne Hrun).
Qed.

(** ** Finishing a local run *)

Section finish_extras.
Context `{PyRuntime}.

Lemma set_metrics_files_same s files :
  _metrics_files s = Some files → set_metrics_files (Some files) s = s.
Proof. destruct s. cbn. by intros ->. Qed.

Lemma closed_closed f : f_closed f = true → closed f = f.
Proof. destruct f. cbn. by intros ->. Qed.

(** The loop of [finish] over the groups' files. *)
Lemma close_all_spec (groups : list string) s w files :
  _metrics_files s = Some files →
  ∃ files' closes,
    for_each groups file_close (s, w) =
      (Ok tt, (set_metrics_files (Some files') s,
               {| w_fs := w_fs w; w_io := w_io w ++ closes; w_stdout := w_stdout w |})) ∧
    (∀ g, files' !! g =
            (λ f, if bool_decide (g ∈ groups) then closed f else f) <$> files !! g) ∧
    Forall is_close closes.
Proof.
  revert s w files. induction groups as [|g0 groups IH]; intros s w files Hfiles.
  - exists files, []. split; [|split; [|done]].
    + cbn. unfold ret. rewrite (set_metrics_files_same _ _ Hfiles), app_nil_r.
      by destruct w.
    + intros g. rewrite bool_decide_false by (by intros ?%elem_of_nil).
      by destruct (files !! g).
  - cbn [for_each].
    destruct (files !! g0) as [f|] eqn:Hf; [destruct (f_closed f) eqn:Hcl|].
    + (* already closed *)
      destruct (IH s w files Hfiles) as (files' & closes & Hrun & Hlook & Hcloses).
      exists files', closes. split; [|split; [|done]].
      * rewrite (bind_Ok _ _ _ tt (s, w)); [exact Hrun|].
        unfold file_close. rewrite (bind_Ok _ _ _ s (s, w)) by done.
        by rewrite Hfiles, Hf, Hcl.
      * intros g. rewrite Hlook. destruct (decide (g = g0)) as [->|Hne].
        -- rewrite Hf. cbn. rewrite (bool_decide_true (g0 ∈ g0 :: groups)) by left.
           rewrite (closed_closed _ Hcl). by case_bool_decide.
        -- by rewrite (bool_decide_ext (g ∈ g0 :: groups) (g ∈ groups))
             by (rewrite elem_of_cons; naive_solver).
    + (* open: closed now *)
      destruct (IH (set_metrics_files (Some (<[g0 := closed f]> files)) s)
                  (OS.emit (FsClose (f_path f)) w) (<[g0 := closed f]> files) eq_refl)
        as (files' & closes & Hrun & Hlook & Hcloses).
      exists files', (FsClose (f_path f) :: closes). split; [|split].
      * rewrite (bind_Ok _ _ _ tt
                   (set_metrics_files (Some (<[g0 := closed f]> files)) s,
                    OS.emit (FsClose (f_path f)) w)).
        -- rewrite Hrun. cbn. by rewrite <- app_assoc.
        -- unfold file_close. rewrite (bind_Ok _ _ _ s (s, w)) by done.
           by rewrite Hfiles, Hf, Hcl.
      * intros g. rewrite Hlook. destruct (decide (g = g0)) as [->|Hne].
        -- rewrite lookup_insert_eq, Hf. cbn.
           rewrite (bool_decide_true (g0 ∈ g0 :: groups)) by left.
           by case_bool_decide.
        -- rewrite lookup_insert_ne by done.
           by rewrite (bool_decide_ext (g ∈ g0 :: groups) (g ∈ groups))
             by (rewrite elem_of_cons; naive_solver).
      * by constructor.
    + (* no file of that name *)
      destruct (IH s w files Hfiles) as (files' & closes & Hrun & Hlook & Hcloses).
      exists files', closes. split; [|split; [|done]].
      * rewrite (bind_Ok _ _ _ tt (s, w)); [exact Hrun|].
        unfold file_close. rewrite (bind_Ok _ _ _ s (s, w)) by done.
        by rewrite Hfiles, Hf.
      * intros g. rewrite Hlook. destruct (decide (g = g0)) as [->|Hne].
        -- by rewrite Hf.
        -- by rewrite (bool_decide_ext (g ∈ g0 :: groups) (g ∈ groups))
             by (rewrite elem_of_cons; naive_solver).
Qed.

(** [finish] on a local logger that has its files, summary and paths. *)
Lemma finish_local_run s w files summary summary_path run_dir status_path :
  _log_mode s = LOCAL → _is_enabled s = true → _is_finished s = false →
  _metrics_files s = Some files → _summary s = Some summary →
  _summary_path s = Some summary_path → _run_dir s = Some run_dir →
  utils.join_paths [Some run_dir; Some "status.txt"] = Ok status_path →
  ∃ files' closes,
    finish (s, w) =
      (Ok tt, (set_metrics_files (Some files') s,
               {| w_fs := <[status_path:=File]> (<[summary_path:=File]> (w_fs w));
                  w_io := w_io w ++ closes ++ finish_trace summary summary_path status_path;
                  w_stdout := w_stdout w |})) ∧
    (∀ g, files' !! g =
            (λ f, if bool_decide (g ∈ _metric_groups s) then closed f else f)
              <$> files !! g) ∧
    Forall is_close closes.
Proof.
  intros Hmode Hen Hfin Hfiles Hsum Hpath Hdir Hjoin.
  destruct (close_all_spec (_metric_groups s) s w files Hfiles)
    as (files' & closes & Hclose & Hlook & Hcloses).
  exists files', closes. split; [|by split].
  unfold finish. rewrite (bind_Ok _ _ _ s (s, w)) by done.
  rewrite Hen, Hfin, Hmode. cbn [when].
  rewrite (bind_Ok _ _ _ tt (s, w)) by done.
  rewrite Hfiles. erewrite bind_Ok; [|exact Hclose].
  unfold log_summary.
  erewrite bind_Ok.
  2:{ erewrite bind_Ok; [|reflexivity]. cbn. rewrite Hen, Hmode, Hsum, Hpath. cbn.
      reflexivity. }
  rewrite Hdir, Hjoin. erewrite bind_Ok; [|reflexivity].
  unfold io, OS.write_file, modify, finish_trace, OS.emit, OS.set_fs. cbn.
  by rewrite <- !app_assoc.
Qed.

(** What a [finish] that returned found on a local logger. *)
Lemma finish_local_inv_Ok s w s1 w1 :
  finish (s, w) = (Ok tt, (s1, w1)) →
  _log_mode s = LOCAL → _is_enabled s = true →
  ∃ files summary summary_path run_dir status_path,
    _is_finished s = false ∧
    _metrics_files s = Some files ∧ _summary s = Some summary ∧
    _summary_path s = Some summary_path ∧ _run_dir s = Some run_dir ∧
    utils.join_paths [Some run_dir; Some "status.txt"] = Ok status_path.
Proof.
  intros Hrun Hmode Hen. unfold finish in Hrun.
  rewrite (bind_Ok _ _ _ s (s, w)) in Hrun by done.
  rewrite Hen, Hmode in Hrun. cbn [when] in Hrun.
  destruct (_is_finished s); [done|].
  rewrite (bind_Ok _ _ _ tt (s, w)) in Hrun by done.
  destruct (_metrics_files s) as [files|] eqn:Hfiles; [|done].
  apply bind_inv_Ok in Hrun as ([] & [sa wa] & Hclose & Hrun).
  apply bind_inv_Ok in Hrun as ([] & [sb wb] & Hsummary & Hrun).
  apply bind_inv_Ok in Hrun as (status_path & ? & [Hjoin ->]%lift_result_inv_Ok & Hrun).
  pose proof (keeps_fixed_close_all _ _ _ _ Hclose) as Hfa.
  pose proof (keeps_summary_close_all _ _ _ _ Hclose) as [= Hsa Hpa].
  cbn [fst] in Hfa, Hsa, Hpa.
  assert (_is_enabled sa = true ∧ _log_mode sa = LOCAL) as [Hena Hmodea]
    by (unfold fixed in Hfa; simplify_eq/=; split; congruence).
  destruct (log_summary_local sa wa Hena Hmodea) as [Hinv _].
  destruct (Hinv _ _ Hsummary) as [[summary Hsum] [summary_path Hpath]].
  rewrite Hsa in Hsum. rewrite Hpa in Hpath.
  destruct (_run_dir s) as [run_dir|] eqn:Hdir.
  - by exists files, summary, summary_path, run_dir, status_path.
  - unfold utils.join_paths in Hjoin. rewrite filter_cons, decide_True in Hjoin by done.
    by destruct (filter _ _).
Qed.

End finish_extras.

(** X9. In local mode, on a logger whose files are those of its groups,
    [finish] closes every file without touching its text, dumps the summary
    as it stands to the summary path and writes ["finished"] to the status
    file, in this order; it makes no other call, prints nothing and changes
    nothing else of the logger. *)
Theorem finish_closes_dumps_and_marks `{PyRuntime} (s : t) (w : World)
    files summary summary_path run_dir status_path :
  _log_mode s = LOCAL → _is_enabled s = true → _is_finished s = false →
  _metrics_files s = Some files → _summary s = Some summary →
  _summary_path s = Some summary_path → _run_dir s = Some run_dir →
  utils.join_paths [Some run_dir; Some "status.txt"] = Ok status_path →
  (∀ g, is_Some (files !! g) → g ∈ _metric_groups s) →
  ∃ closes w',
    finish (s, w) = (Ok tt, (set_metrics_files (Some (closed <$> files)) s, w')) ∧
    Forall is_close closes ∧
    w_io w' = w_io w ++ closes ++ finish_trace summary summary_path status_path ∧
    w_fs w' = <[status_path:=File]> (<[summary_path:=File]> (w_fs w)) ∧
    w_stdout w' = w_stdout w.
Proof.
  intros Hmode Hen Hfin Hfiles Hsum Hpath Hdir Hjoin Hdom.
  destruct (finish_local_run s w files summary summary_path run_dir status_path
              Hmode Hen Hfin Hfiles Hsum Hpath Hdir Hjoin)
    as (files' & closes & Hrun & Hlook & Hcloses).
  assert (files' = closed <$> files) as ->.
  { apply map_eq. intros g. rewrite Hlook, lookup_fmap.
    destruct (files !! g) as [f|] eqn:Hf; [|done]. cbn.
    by rewrite bool_decide_true by (apply Hdom; by eexists). }
  eexists closes, _. split; [exact Hrun|]. split; [exact Hcloses|].
  split; [reflexivity|]. split; reflexivity.
Qed.

(** X10. After [finish], an otherwise acceptable [log] call for a group of the
    local logger fails with the [ValueError] of a write to a closed file: no
    row is written and no call is made, but the record has already been
    merged into the summary in memory. *)
Theorem log_after_finish_raises `{PyRuntime} (s : t) (w : World) s1 w1
    (group step_metric : string) (cols : list string) (d : gmap string num)
    (check_keys : bool) :
  registered s group step_metric cols →
  group ∈ _metric_groups s →
  accepted step_metric cols (d, check_keys) →
  finish (s, w) = (Ok tt, (s1, w1)) →
  ∃ path s2,
    log d group check_keys (s1, w1) = (Raise (ValueError (ClosedFile path)), (s2, w1)) ∧
    csv_text s2 group = csv_text s group ∧
    ∀ key, summary_value s2 group key =
             match d !! key with
             | Some v => Some (Some v)
             | None => summary_value s group key
             end.
Proof.
  intros [Hmode Hen Hsm Hcols Hne (summary & Hsum & [sg Hsg])
           (files & f & Hfiles & Hf & Hopen)] Hgroup [Hstep Hck] Hrun.
  destruct (finish_local_inv_Ok _ _ _ _ Hrun Hmode Hen)
    as (files0 & summary0 & summary_path & run_dir & status_path &
        Hfin & Hfiles0 & Hsum0 & Hpath & Hdir & Hjoin).
  destruct (finish_local_run s w files0 summary0 summary_path run_dir status_path
              Hmode Hen Hfin Hfiles0 Hsum0 Hpath Hdir Hjoin)
    as (files' & closes & Hrun' & Hlook & _).
  rewrite Hrun in Hrun'. injection Hrun' as -> _.
  rewrite Hfiles in Hfiles0. injection Hfiles0 as <-.
  assert (files' !! group = Some (closed f)) as Hf'.
  { rewrite Hlook, Hf. cbn. by rewrite bool_decide_true. }
  cbn in Hstep, Hck.
  apply elem_of_dom in Hstep as [d_step Hd].
  assert (group ∈ dom (_metrics s)) as Hg by (apply elem_of_dom; by eexists).
  set (s1 := set_metrics_files (Some files') s).
  exists (f_path f),
    (set_summary (Some (<[group := utils.copy_to_dict (Some <$> d) sg]> summary)) s1).
  split; [|split].
  - unfold log. rewrite (bind_Ok _ _ _ s1 (s1, w1)) by done.
    change (_is_enabled s1) with (_is_enabled s). rewrite Hen. cbn [when].
    change (_metrics s1) with (_metrics s). change (_step_metrics s1) with (_step_metrics s).
    change (_log_mode s1) with (_log_mode s).
    rewrite (bind_Ok _ _ _ tt (s1, w1)); [|by rewrite bool_decide_false by (by intros ?)].
    rewrite (bind_Ok _ _ _ tt (s1, w1)).
    2:{ destruct check_keys; [|done]. cbn [when].
        unfold getitem. rewrite Hsm, Hcols. unfold bind, lift_result. cbn.
        rewrite Hck by done. by rewrite bool_decide_false by (rewrite size_empty; lia). }
    rewrite Hmode. unfold _log_local.
    rewrite (bind_Ok _ _ _ s1 (s1, w1)) by done.
    change (_metrics s1) with (_metrics s). change (_summary s1) with (_summary s).
    rewrite (bind_Ok _ _ _ tt (s1, w1)); [|by rewrite bool_decide_false by (by intros ?)].
    rewrite Hsum. unfold getitem at 1. rewrite Hsg.
    erewrite bind_Ok; [|unfold bind, lift_result, set_self, modify; cbn; reflexivity].
    erewrite bind_Ok.
    2:{ unfold _to_row, bind, get_self, lift_result, getitem. cbn.
        rewrite Hcols, Hsm.
        rewrite bool_decide_false by (intros Hn; apply Hn, elem_of_dom; by eexists).
        cbn. rewrite Hd. unfold ret. reflexivity. }
    unfold file_write, bind, get_self, lift_result, getitem. cbn. by rewrite Hf'.
  - unfold csv_text. cbn. rewrite Hf', Hfiles. cbn. by rewrite Hf.
  - intros key. unfold summary_value. cbn. rewrite lookup_insert_eq. cbn.
    rewrite copy_to_dict_union, lookup_union, lookup_fmap, Hsum. cbn. rewrite Hsg. cbn.
    destruct (d !! key), (sg !! key); reflexivity.
Qed.

(** ** The public methods as a whole *)

Section method_extras.
Context `{PyRuntime}.

Lemma bind_ext {St A B} (c : M St A) (k1 k2 : A → M St B) st :
  (∀ a st1, c st = (Ok a, st1) → k1 a st1 = k2 a st1) →
  bind c k1 st = bind c k2 st.
Proof. intros Hk. unfold bind. destruct (c st) as [[a|e] st1]; [by apply Hk|done]. Qed.

Lemma per_metric_values {V W} (wrap : gmap string V → W) (zero : V) (s : t) group c :
  per_metric wrap zero s !! group = Some c → ∃ m, c = wrap m.
Proof.
  unfold per_metric. intros Hc.
  apply elem_of_list_to_map_2, list_elem_of_fmap in Hc as (g & [= _ ->] & _). by eexists.
Qed.

Lemma fixed_schema s1 s :
  fixed s1 = fixed s →
  _is_enabled s1 = _is_enabled s ∧ _log_mode s1 = _log_mode s ∧
  _metric_groups s1 = _metric_groups s ∧ _step_metrics s1 = _step_metrics s ∧
  _metrics s1 = _metrics s ∧ _bin_size s1 = _bin_size s.
Proof. intros Hf. unfold fixed in Hf. by simplify_eq/=. Qed.

(** The step metric of a group is never among its columns. *)
Lemma init_step_not_in_cols (a : Args.t) (w : World) s w' group step_metric cols :
  __init__ a w = (Ok s, w') →
  _step_metrics s !! group = Some step_metric →
  _metrics s !! group = Some cols →
  step_metric ∉ cols.
Proof.
  intros Hinit Hsm Hcols.
  apply init_fixed in Hinit as (log_mode & bin_size & _ & _ & Hfixed).
  destruct (fixed_schema _ _ Hfixed) as (_ & _ & _ & Es & Em & _).
  rewrite Es in Hsm. rewrite Em in Hcols.
  change (_step_metrics (new_object a log_mode (Args.config a) bin_size))
    with (init_step_metrics (Args.metrics a)) in Hsm.
  change (_metrics (new_object a log_mode (Args.config a) bin_size))
    with (init_metrics (Args.metrics a)) in Hcols.
  destruct (init_metrics_clean _ _ _ _ Hcols Hsm) as [ms ->].
  intros Hin. apply clean_metrics_spec in Hin as [_ Hne]. done.
Qed.

Lemma to_row_check_void d group st step_metric :
  (∀ cols, _step_metrics st.1 !! group = Some step_metric →
           _metrics st.1 !! group = Some cols → step_metric ∉ cols) →
  _step_metrics st.1 !! group = Some step_metric ∨ _step_metrics st.1 !! group = None →
  _to_row d group true st = _to_row d group false st.
Proof.
  intros Hnot Hstep. destruct st as [s w]. cbn [fst] in *.
  unfold _to_row, bind, get_self, lift_result, getitem, when. cbn.
  destruct (_metrics s !! group) as [cols|] eqn:Hcols; [|done].
  destruct Hstep as [Hsm|Hsm]; rewrite Hsm; [|done].
  destruct (bool_decide (step_metric ∉ dom d)) eqn:Hin; [done|].
  apply bool_decide_eq_false in Hin. apply dec_stable in Hin. cbn.
  rewrite bool_decide_false; [done|].
  intros Hsz%size_empty_inv. apply (not_elem_of_empty (C:=gset string) step_metric).
  apply Hsz. apply elem_of_difference. split; [done|].
  rewrite elem_of_list_to_set. by apply Hnot.
Qed.

Lemma log_file_local_target s w file_path u s1 w1 :
  _is_enabled s = true → _log_mode s = LOCAL →
  log_file file_path (s, w) = (Ok u, (s1, w1)) →
  s1 = s ∧
  ∃ new_path,
    utils.join_paths [_files_dir s; Some (os_path_basename file_path)] = Ok new_path ∧
    is_Some (w_fs w1 !! new_path).
Proof.
  intros Hen Hmode Hrun. unfold log_file in Hrun.
  rewrite (bind_Ok _ _ _ s (s, w)) in Hrun by done.
  rewrite Hen, Hmode in Hrun. cbn [when] in Hrun. unfold _log_file_local in Hrun.
  rewrite (bind_Ok _ _ _ s (s, w)) in Hrun by done.
  apply bind_inv_Ok in Hrun as (new_path & ? & [Hjoin ->]%lift_result_inv_Ok & Hrun).
  unfold bind, io, OS.path_exists in Hrun. cbn in Hrun.
  case_bool_decide as Hex.
  - unfold OS.print, modify in Hrun. cbn in Hrun. injection Hrun as _ <- <-.
    split; [done|]. by exists new_path.
  - destruct (_files_dir s) as [files_dir|]; [|done].
    unfold OS.copy, modify in Hrun. cbn in Hrun. injection Hrun as _ <- <-.
    split; [done|]. exists new_path. split; [done|]. cbn. rewrite lookup_insert_eq. by eexists.
Qed.

End method_extras.

(** X11. On an enabled logger with the schema and the bin counters that its
    construction left, [log_binned] never returns and never logs: whatever
    the record and the group, it raises and leaves logger and world as they
    were. *)
Theorem log_binned_never_returns `{PyRuntime} (a : Args.t) (w : World) s w' s1 w1
    (d : gmap string num) (group : string) :
  __init__ a w = (Ok s, w') →
  _is_enabled s = true →
  fixed s1 = fixed s → _metric_n s1 = _metric_n s →
  ∃ e, log_binned d group (s1, w1) = (Raise e, (s1, w1)).
Proof.
  intros Hinit Hen Hfixed Hn.
  destruct (fixed_schema _ _ Hfixed) as (Een & _ & Eg & _ & Em & Eb).
  unfold log_binned. rewrite (bind_Ok _ _ _ s1 (s1, w1)) by done.
  rewrite Een, Hen. cbn [when].
  destruct (_bin_size s1) as [sizes|] eqn:Hsizes.
  2:{ eexists. by rewrite (bind_Raise _ _ _ (ValueError BinSizeIsNone) (s1, w1)). }
  rewrite (bind_Ok _ _ _ tt (s1, w1)) by done.
  destruct (decide (group ∈ dom (_metrics s1))) as [Hg|Hg].
  2:{ eexists. rewrite (bind_Raise _ _ _ (ValueError (InvalidGroup group)) (s1, w1));
        [done|]. by rewrite bool_decide_true. }
  rewrite (bind_Ok _ _ _ tt (s1, w1)); [|by rewrite bool_decide_false by (by intros ?)].
  apply elem_of_dom in Hg as [cols Hcols]. unfold getitem at 1. rewrite Hcols.
  rewrite (bind_Ok _ _ _ cols (s1, w1)) by done.
  destruct (decide (dom d = list_to_set cols)) as [Hd|Hd].
  2:{ eexists. rewrite (bind_Raise _ _ _ (ValueError BinnedKeys) (s1, w1)); [done|].
      by rewrite bool_decide_true. }
  rewrite (bind_Ok _ _ _ tt (s1, w1)); [|by rewrite bool_decide_false by (by intros ?)].
  cbn [getitem_opt]. unfold getitem at 1.
  destruct (sizes !! group) as [group_bin_size|].
  2:{ eexists. by rewrite (bind_Raise _ _ _ (KeyError group) (s1, w1)). }
  rewrite (bind_Ok _ _ _ group_bin_size (s1, w1)) by done.
  assert (is_Some (_bin_size s)) as Hbin by (rewrite <- Eb; by eexists).
  rewrite Hn, (init_metric_n _ _ _ _ Hinit Hen Hbin). cbn [getitem_opt]. unfold getitem.
  destruct (per_metric CDict 0%Z s !! group) as [c|] eqn:Hc.
  2:{ eexists. by rewrite (bind_Raise _ _ _ (KeyError group) (s1, w1)). }
  apply per_metric_values in Hc as [m ->].
  rewrite (bind_Ok _ _ _ (CDict m) (s1, w1)) by done.
  eexists. by rewrite (bind_Raise _ _ _ (TypeError DictPlusInt) (s1, w1)).
Qed.

(** X12. The key check of [_to_row] can never reject a record: on every logger
    with the schema of a construction, [_log_local] with [check_keys=True]
    does exactly what it does with [check_keys=False]. The check raises when
    the record has no key outside the columns, and a record that got this far
    holds the step metric, which is never a column. *)
Theorem log_local_key_check_is_void `{PyRuntime} (a : Args.t) (w : World) s w' s1 w1
    (d : gmap string num) (group : string) :
  __init__ a w = (Ok s, w') →
  fixed s1 = fixed s →
  _log_local d group true (s1, w1) = _log_local d group false (s1, w1).
Proof.
  intros Hinit Hfixed.
  destruct (fixed_schema _ _ Hfixed) as (_ & _ & _ & Es & Em & _).
  assert (∀ st : t * World, _step_metrics st.1 = _step_metrics s1 →
            _metrics st.1 = _metrics s1 →
            _to_row d group true st = _to_row d group false st) as Hrow.
  { intros st Hs Hm. destruct (_step_metrics s !! group) as [step_metric|] eqn:Hsm.
    - apply (to_row_check_void d group st step_metric).
      + rewrite Hs, Hm, Es, Em. intros cols _ Hcols.
        by eapply init_step_not_in_cols.
      + left. by rewrite Hs, Es.
    - apply (to_row_check_void d group st EmptyString).
      + rewrite Hs, Es, Hsm. done.
      + right. by rewrite Hs, Es. }
  unfold _log_local. rewrite !(bind_Ok _ _ _ s1 (s1, w1)) by done.
  apply bind_ext. intros [] st1 [_ ->]%when_raise_inv_Ok.
  apply bind_ext. intros [] [s2 w2] Hc2.
  assert (_step_metrics s2 = _step_metrics s1 ∧ _metrics s2 = _metrics s1) as [Hs2 Hm2].
  { destruct (_summary s1); [|done]. unfold bind, lift_result in Hc2.
    destruct (getitem _ _); [|done]. by injection Hc2 as <- _. }
  unfold bind. by rewrite (Hrow (s2, w2) Hs2 Hm2).
Qed.

(** X13. In local mode [log_file] never replaces a file: once a call has
    returned, a later call for a path with the same base name (the same file
    again, changed or not, or another file of that name) only prints a
    warning; it copies nothing and changes neither logger nor file system. *)
Theorem log_file_skips_known_name `{PyRuntime} (s : t) (w : World) s1 w1
    (first_path second_path : string) :
  _is_enabled s = true → _log_mode s = LOCAL →
  log_file first_path (s, w) = (Ok tt, (s1, w1)) →
  os_path_basename second_path = os_path_basename first_path →
  log_file second_path (s1, w1) =
    (Ok tt, (s1, printed ("WARNING: " +:+ os_path_basename second_path +:+
                          " already in files dir so skipped.") w1)).
Proof.
  intros Hen Hmode Hrun Hbase.
  destruct (log_file_local_target _ _ _ _ _ _ Hen Hmode Hrun)
    as (-> & new_path & Hjoin & Hex).
  unfold log_file. rewrite (bind_Ok _ _ _ s (s, w1)) by done.
  rewrite Hen, Hmode. cbn [when]. unfold _log_file_local.
  rewrite (bind_Ok _ _ _ s (s, w1)) by done.
  rewrite Hbase, Hjoin. rewrite (bind_Ok _ _ _ new_path (s, w1)) by done.
  rewrite (bind_Ok _ _ _ true (s, w1)); [done|].
  unfold io, OS.path_exists. cbn. by rewrite bool_decide_true.
Qed.

(** X14. No sequence of calls of [log], [log_binned], [log_file], [log_summary]
    and [finish], however it ends, changes what the construction fixed: the
    mode, the groups with their step metrics and columns, the bin sizes, the
    run's description, and the flag [_is_finished], which stays [False]. *)
Theorem calls_keep_the_schema `{PyRuntime} (calls : list method_call) (s : t) (w : World)
    r s' w' :
  run_calls calls (s, w) = (r, (s', w')) →
  fixed s' = fixed s.
Proof.
  intros Hrun.
  assert (keeps fixed (run_calls calls)) as Hk.
  { apply keeps_for_each. intros [d group ck|d group|file_path| |]; cbn [run_call].
    - apply keeps_fixed_log.
    - apply keeps_fixed_log_binned.
    - apply keeps_fixed_log_file.
    - apply keeps_fixed_log_summary.
    - apply keeps_fixed_finish. }
  exact (Hk _ _ _ Hrun).
Qed.

(** ** The remote backend *)

Section wandb_extras.
Context `{PyRuntime}.

Lemma parse_log_mode_wandb : parse_log_mode "wandb" = Ok WANDB.
Proof. reflexivity. Qed.

(** A successful construction in remote mode has run [_setup_wandb] to its
    end, on an object with the attributes of [__init__]. *)
Lemma init_wandb_setup (a : Args.t) (w : World) s w' :
  Args.log_mode a = "wandb" →
  __init__ a w = (Ok s, w') →
  ∃ bin_size w0,
    _setup_wandb (Args.reinit a)
      (before_backend_setup (new_object a WANDB (Args.config a) bin_size), w0) =
      (Ok tt, (s, w')).
Proof.
  intros Hmode Hinit.
  rewrite init_unfold, Hmode, parse_log_mode_wandb in Hinit.
  destruct (Args.is_sub_logger a && _); [done|].
  destruct (bool_decide (Args.wandb_mode a ∉ _)); [done|].
  destruct (init_bin_size _ _) as [bin_size|e] eqn:Hbs; [|done]. cbv zeta in Hinit.
  destruct (when _ _ _) as [[[]|e] [s1 w1]] eqn:Hsetup; [|done].
  injection Hinit as -> ->.
  change (_setup None (new_object a WANDB (Args.config a) bin_size, warned w)
          = (Ok tt, (s, w'))) in Hsetup.
  rewrite setup_unfold in Hsetup by done.
  by exists bin_size, (warned w).
Qed.

Lemma unpack_pair_length x p : unpack_pair x = Ok p → String.length x = 2.
Proof. destruct x as [|? [|? [|? ?]]]; done. Qed.

Lemma before_backend_setup_schema s :
  _metric_groups (before_backend_setup s) = _metric_groups s ∧
  _metrics (before_backend_setup s) = _metrics s.
Proof. unfold before_backend_setup. by case_bool_decide. Qed.

Lemma setup_wandb_names reinit s0 w0 s w group cols x :
  _setup_wandb reinit (s0, w0) = (Ok tt, (s, w)) →
  group ∈ _metric_groups s0 → _metrics s0 !! group = Some cols → x ∈ cols →
  String.length x = 2.
Proof.
  intros Hrun Hgroup Hcols Hx. unfold _setup_wandb in Hrun. minv Hrun.
  destruct (for_each_body_Ok _ _ _ _ _ Hrun Hgroup) as (st1 & st2 & Hbody).
  rewrite Hcols in Hbody.
  destruct (for_each_body_Ok _ _ _ _ _ Hbody Hx) as (st3 & st4 & Hinner).
  apply bind_inv_Ok in Hinner as (p & ? & [Hp _]%lift_result_inv_Ok & _).
  by eapply unpack_pair_length.
Qed.

Lemma setup_wandb_run reinit s0 w0 s w :
  _setup_wandb reinit (s0, w0) = (Ok tt, (s, w)) →
  _wandb_run s = Some WandbRun.
Proof.
  intros Hrun. unfold _setup_wandb in Hrun.
  apply bind_inv_Ok in Hrun as (s0' & ? & [= <- <-] & Hrun).
  apply bind_inv_Ok in Hrun as ([] & [s1 w1] & _ & Hrun).
  apply bind_inv_Ok in Hrun as ([] & [s2 w2] & [= <- _] & Hrun).
  match type of Hrun with ?c _ = _ =>
    assert (keeps _wandb_run c) as Hk by keeps end.
  exact (Hk _ _ _ Hrun).
Qed.

End wandb_extras.

(** X15. In remote mode the construction succeeds only if every metric name has
    exactly two characters: [_setup_wandb] unpacks each name of a group's
    list into a pair, so any other name makes the construction raise and
    return no logger. *)
Theorem init_wandb_needs_two_character_names `{PyRuntime} (a : Args.t) (w : World)
    (group : string) (cols : list string) (x : string) :
  Args.log_mode a = "wandb" →
  init_metrics (Args.metrics a) !! group = Some cols →
  x ∈ cols →
  String.length x ≠ 2 →
  ∃ e w', __init__ a w = (Raise e, w').
Proof.
  intros Hmode Hcols Hx Hlen.
  destruct (__init__ a w) as [[s|e] w'] eqn:Hinit; [exfalso|by eexists _, _].
  destruct (init_wandb_setup _ _ _ _ Hmode Hinit) as (bin_size & w0 & Hsetup).
  destruct (before_backend_setup_schema (new_object a WANDB (Args.config a) bin_size))
    as [Eg Em].
  apply Hlen.
  apply (setup_wandb_names _ _ _ _ _ group cols x Hsetup).
  - rewrite Eg. by eapply init_metrics_group.
  - by rewrite Em.
  - done.
Qed.

(** X16. In remote mode [log] hands the record as it is to the tracking service,
    with [commit=True], and does nothing else: if the keys pass the check
    that [check_keys] asks for, nothing is required of the record, not even
    the step metric that the local backend insists on, and the logger keeps
    no summary of it. *)
Theorem log_wandb_forwards_record `{PyRuntime} (a : Args.t) (w : World) s w1 w2
    (d : gmap string num) (group step_metric : string) (cols : list string)
    (check_keys : bool) :
  Args.log_mode a = "wandb" →
  __init__ a w = (Ok s, w1) →
  _step_metrics s !! group = Some step_metric →
  _metrics s !! group = Some cols →
  (check_keys = true → dom d ∖ {[step_metric]} ∖ list_to_set cols = (∅ : gset string)) →
  log d group check_keys (s, w2) = (Ok tt, (s, OS.emit (WandbLog d true) w2)).
Proof.
  intros Hmode Hinit Hsm Hcols Hck.
  destruct (init_wandb_setup _ _ _ _ Hmode Hinit) as (bin_size & w0 & Hsetup).
  pose proof (setup_wandb_run _ _ _ _ _ Hsetup) as Hrun.
  pose proof (init_fixed _ _ _ _ Hinit) as (log_mode & bin_size' & Hparse & _ & Hfixed).
  rewrite Hmode, parse_log_mode_wandb in Hparse. injection Hparse as <-.
  destruct (fixed_schema _ _ Hfixed) as (Hen & Hm & _).
  change (_is_enabled s = true) in Hen. change (_log_mode s = WANDB) in Hm.
  assert (group ∈ dom (_metrics s)) as Hg by (apply elem_of_dom; by eexists).
  unfold log. rewrite (bind_Ok _ _ _ s (s, w2)) by done.
  rewrite Hen. cbn [when].
  rewrite (bind_Ok _ _ _ tt (s, w2)); [|by rewrite bool_decide_false by (by intros ?)].
  rewrite (bind_Ok _ _ _ tt (s, w2)).
  2:{ destruct check_keys; [|done]. cbn [when].
      unfold getitem. rewrite Hsm, Hcols. unfold bind, lift_result. cbn.
      rewrite Hck by done. by rewrite bool_decide_false by (rewrite size_empty; lia). }
  rewrite Hm. unfold _log_wandb. rewrite (bind_Ok _ _ _ s (s, w2)) by done.
  by rewrite Hrun.
Qed.

(** ** The run directory that a local construction lays out *)

Section layout.
Context `{PyRuntime}.

Lemma grows_refl w : grows w w [] [].
Proof. unfold grows. by rewrite !app_nil_r. Qed.

Lemma grows_trans w1 w2 w3 evs1 evs2 lines1 lines2 :
  grows w1 w2 evs1 lines1 → grows w2 w3 evs2 lines2 →
  grows w1 w3 (evs1 ++ evs2) (lines1 ++ lines2).
Proof. unfold grows. intros [-> ->] [-> ->]. by rewrite !app_assoc. Qed.

Lemma mkdir_grows path w u w' :
  OS.mkdir path w = (Ok u, w') → grows w w' [FsMkdir path] [].
Proof.
  unfold OS.mkdir. destruct (w_fs w !! path); [done|]. intros [= _ <-].
  unfold grows. cbn. by rewrite app_nil_r.
Qed.

Lemma dump_json_grows path doc w u w' :
  OS.dump_json path doc w = (Ok u, w') →
  grows w w' [FsOpenW path; FsDumpJson path doc; FsClose path] [].
Proof.
  intros [= _ <-]. unfold grows. cbn. by rewrite <- !app_assoc, app_nil_r.
Qed.

Lemma write_file_grows path text w u w' :
  OS.write_file path text w = (Ok u, w') →
  grows w w' [FsOpenW path; FsWrite path text; FsClose path] [].
Proof.
  intros [= _ <-]. unfold grows. cbn. by rewrite <- !app_assoc, app_nil_r.
Qed.

Lemma create_or_clear_folder_grows path w u w' :
  utils.create_or_clear_folder path w = (Ok u, w') →
  grows w w' ((if w_fs w !! path is Some Dir then [FsRmtree path] else [])
              ++ [FsMkdir path]) [].
Proof.
  unfold utils.create_or_clear_folder, bind, OS.path_exists, when.
  destruct (w_fs w !! path) as [[]|] eqn:Hp.
  - rewrite bool_decide_true by (by eexists). unfold OS.rmtree. rewrite Hp.
    intros Hmk. apply mkdir_grows in Hmk.
    eapply (grows_trans _ _ _ [FsRmtree path] _ [] []); [|exact Hmk].
    unfold grows. cbn. by rewrite app_nil_r.
  - rewrite bool_decide_true by (by eexists). unfold OS.rmtree. by rewrite Hp.
  - rewrite bool_decide_false by (by intros [? ?]). unfold ret.
    intros Hmk. by apply mkdir_grows in Hmk.
Qed.

(** The METRICS loop of [_setup_local]. *)
Lemma metrics_loop_trace s0 metrics_dir groups st u st' :
  for_each groups
    (λ metric_group,
       let* curr_path :=
         lift_result (utils.join_paths [Some metrics_dir; Some (metric_group +:+ ".csv")]) in
       io (modify (λ w, OS.emit (FsOpenW curr_path)
                          (OS.set_fs (<[curr_path:=File]> (w_fs w)) w))) ;;;
       let curr_file := {| f_path := curr_path; f_text := EmptyString; f_closed := false |} in
       set_self (λ s, set_metrics_file_paths
         (Some (<[metric_group:=curr_path]> (default ∅ (_metrics_file_paths s)))) s) ;;;
       set_self (λ s, set_metrics_files
         (Some (<[metric_group:=curr_file]> (default ∅ (_metrics_files s)))) s) ;;;
       let* group_metrics := lift_result (getitem (_metrics s0) metric_group) in
       when (bool_decide (length group_metrics = 0))
         (raise (ValueError (MetricsEmpty metric_group))) ;;;
       let* step_metric := lift_result (getitem (_step_metrics s0) metric_group) in
       let cols_str := step_metric +:+ "," +:+ str_join "," group_metrics in
       file_write metric_group cols_str) st = (Ok u, st') →
  grows st.2 st'.2 (flat_map (group_setup_trace s0 metrics_dir) groups) [].
Proof.
  destruct u. apply for_each_inv_Ok
    with (P := λ pre st1, grows st.2 st1.2 (flat_map (group_setup_trace s0 metrics_dir) pre) []).
  - apply grows_refl.
  - intros pre g [s1 w1] st2 Hpre Hbody.
    rewrite flat_map_app. cbn [flat_map]. rewrite app_nil_r.
    eapply (grows_trans _ _ _ _ _ [] []); [exact Hpre|].
    minv Hbody.
    apply file_write_inv_Ok in Hbody as (files' & f & Hfiles' & Hf & Hopen & ->).
    cbn in Hfiles'. injection Hfiles' as <-.
    rewrite lookup_insert_eq in Hf. injection Hf as <-.
    unfold group_setup_trace. unfold getitem in *.
    repeat case_match; simplify_eq.
    match goal with Hm : modify _ _ = (Ok _, _) |- _ => injection Hm as _ <- end.
    unfold grows, header. cbn. by rewrite <- !app_assoc, app_nil_r.
Qed.

(** A successful construction in local mode has run [_setup_local] to its
    end from the object of [__init__], after the printed warning. *)
Lemma init_local_setup_from (a : Args.t) (w : World) s w' :
  Args.log_mode a = "local" →
  __init__ a w = (Ok s, w') →
  ∃ bin_size,
    _setup_local (Args.reinit a)
      (before_backend_setup (new_object a LOCAL (Args.config a) bin_size), warned w) =
      (Ok tt, (s, w')).
Proof.
  intros Hmode Hinit.
  rewrite init_unfold, Hmode, parse_log_mode_local in Hinit.
  destruct (Args.is_sub_logger a && _); [done|].
  destruct (bool_decide (Args.wandb_mode a ∉ _)); [done|].
  destruct (init_bin_size _ _) as [bin_size|e] eqn:Hbs; [|done]. cbv zeta in Hinit.
  destruct (when _ _ _) as [[[]|e] [s1 w1]] eqn:Hsetup; [|done].
  injection Hinit as -> ->.
  change (_setup None (new_object a LOCAL (Args.config a) bin_size, warned w)
          = (Ok tt, (s, w'))) in Hsetup.
  rewrite setup_unfold in Hsetup by done.
  by exists bin_size.
Qed.

Lemma setup_local_trace reinit s0 w0 s w :
  _setup_local reinit (s0, w0) = (Ok tt, (s, w)) →
  ∃ run_dir temp_dir files_dir artifacts_dir metrics_dir config_path metadata_path
    status_path,
    utils.join_paths [_local_base_dir s0; Some (_name s0)] = Ok run_dir ∧
    utils.join_paths [Some run_dir; Some "temp"] = Ok temp_dir ∧
    utils.join_paths [Some run_dir; Some "files"] = Ok files_dir ∧
    utils.join_paths [Some run_dir; Some "artifacts"] = Ok artifacts_dir ∧
    utils.join_paths [Some run_dir; Some "metrics"] = Ok metrics_dir ∧
    utils.join_paths [Some run_dir; Some "config.json"] = Ok config_path ∧
    utils.join_paths [Some run_dir; Some "metadata.json"] = Ok metadata_path ∧
    utils.join_paths [Some run_dir; Some "status.txt"] = Ok status_path ∧
    grows w0 w
      ((if w_fs w0 !! run_dir is Some Dir then [FsRmtree run_dir] else []) ++
       [FsMkdir run_dir; FsMkdir temp_dir; FsMkdir files_dir; FsMkdir artifacts_dir;
        FsMkdir metrics_dir;
        FsOpenW config_path; FsDumpJson config_path (JConfig (_config s0));
        FsClose config_path;
        FsOpenW metadata_path;
        FsDumpJson metadata_path
          (JMetadata (_name s0) (_job_type s0) (_project s0) (_group s0) (_entity s0)
                     (_tags s0) (_notes s0));
        FsClose metadata_path] ++
       flat_map (group_setup_trace s0 metrics_dir) (_metric_groups s0) ++
       [FsOpenW status_path; FsWrite status_path "started"; FsClose status_path])
      (if w_fs w0 !! run_dir is Some Dir
       then ["WARNING: run_dir=" +:+ run_dir +:+ " existed and was cleared"] else []).
Proof.
  intros Hrun. unfold _setup_local in Hrun. minv Hrun.
  apply io_inv_Ok in Hrun as (w' & Hstatus & [= -> ->]). cbn [fst snd] in *.
  eexists _, _, _, _, _, _, _, _. repeat (split; [eassumption|]).
  apply metrics_loop_trace in Hc16. cbn [fst snd] in Hc16.
  apply write_file_grows in Hstatus.
  apply dump_json_grows in Hc15. apply dump_json_grows in Hc13.
  apply mkdir_grows in Hc11. apply mkdir_grows in Hc10.
  apply mkdir_grows in Hc9. apply mkdir_grows in Hc8.
  apply create_or_clear_folder_grows in Hc7.
  assert (grows w0 st.2 []
            (if w_fs w0 !! a0 is Some Dir
             then ["WARNING: run_dir=" +:+ a0 +:+ " existed and was cleared"] else [])
          ∧ w_fs st.2 = w_fs w0) as [Hwarn Hfs].
  { unfold OS.path_isdir in Hc5. injection Hc5 as <- <-.
    destruct (w_fs w0 !! a0) as [[]|]; cbn in Hc6.
    - unfold io, OS.print, modify in Hc6. cbn in Hc6. injection Hc6 as _ <-. cbn.
      split; [|done]. unfold grows. cbn. by rewrite app_nil_r.
    - injection Hc6 as _ <-. split; [apply grows_refl|done].
    - injection Hc6 as _ <-. split; [apply grows_refl|done]. }
  rewrite Hfs in Hc7.
  pose proof (grows_trans _ _ _ _ _ _ _ Hwarn
             (grows_trans _ _ _ _ _ _ _ Hc7
             (grows_trans _ _ _ _ _ _ _ Hc8
             (grows_trans _ _ _ _ _ _ _ Hc9
             (grows_trans _ _ _ _ _ _ _ Hc10
             (grows_trans _ _ _ _ _ _ _ Hc11
             (grows_trans _ _ _ _ _ _ _ Hc13
             (grows_trans _ _ _ _ _ _ _ Hc15
             (grows_trans _ _ _ _ _ _ _ Hc16 Hstatus))))))))) as Hall.
  unfold grows in Hall |- *. destruct Hall as [Hio Hout]. split.
  - rewrite Hio. f_equal. cbn. by rewrite <- !app_assoc.
  - rewrite Hout. f_equal. by rewrite !app_nil_r.
Qed.

End layout.

(** X17. A construction in local mode that returns has made exactly these calls,
    in this order: the run directory, removed first if it was there (with a
    printed warning), is created with its [temp], [files], [artifacts] and
    [metrics] directories; [config.json] and [metadata.json] are dumped;
    for each group in turn its csv file is opened and the header written;
    and [status.txt] is written with ["started"]. *)
Theorem init_local_lays_out_run_directory `{PyRuntime} (a : Args.t) (w : World) s w1 :
  Args.log_mode a = "local" →
  __init__ a w = (Ok s, w1) →
  ∃ run_dir temp_dir files_dir artifacts_dir metrics_dir config_path metadata_path
    status_path,
    utils.join_paths [Args.local_base_dir a; Some (Args.name a)] = Ok run_dir ∧
    utils.join_paths [Some run_dir; Some "temp"] = Ok temp_dir ∧
    utils.join_paths [Some run_dir; Some "files"] = Ok files_dir ∧
    utils.join_paths [Some run_dir; Some "artifacts"] = Ok artifacts_dir ∧
    utils.join_paths [Some run_dir; Some "metrics"] = Ok metrics_dir ∧
    utils.join_paths [Some run_dir; Some "config.json"] = Ok config_path ∧
    utils.join_paths [Some run_dir; Some "metadata.json"] = Ok metadata_path ∧
    utils.join_paths [Some run_dir; Some "status.txt"] = Ok status_path ∧
    w_io w1 = w_io w ++
      (if w_fs w !! run_dir is Some Dir then [FsRmtree run_dir] else []) ++
      [FsMkdir run_dir; FsMkdir temp_dir; FsMkdir files_dir; FsMkdir artifacts_dir;
       FsMkdir metrics_dir;
       FsOpenW config_path; FsDumpJson config_path (JConfig (Args.config a));
       FsClose config_path;
       FsOpenW metadata_path;
       FsDumpJson metadata_path
         (JMetadata (Args.name a) (Args.job_type a) (Args.project a) (Args.group a)
                    (Args.entity a) (Args.tags a) (Args.notes a));
       FsClose metadata_path] ++
      flat_map (group_setup_trace s metrics_dir) (Args.metrics a).*1 ++
      [FsOpenW status_path; FsWrite status_path "started"; FsClose status_path] ∧
    w_stdout w1 = w_stdout w ++
      ["WARNING: conv_to_json_d not properly implemented"] ++
      (if w_fs w !! run_dir is Some Dir
       then ["WARNING: run_dir=" +:+ run_dir +:+ " existed and was cleared"] else []).
Proof.
  intros Hmode Hinit.
  destruct (init_local_setup_from _ _ _ _ Hmode Hinit) as (bin_size & Hsetup).
  pose proof (keeps_fixed_setup_local _ _ _ _ Hsetup) as Hfixed. cbn [fst] in Hfixed.
  rewrite before_backend_setup_attributes in Hfixed.
  destruct (setup_local_trace _ _ _ _ _ Hsetup)
    as (run_dir & temp_dir & files_dir & artifacts_dir & metrics_dir & config_path &
        metadata_path & status_path & Hj1 & Hj2 & Hj3 & Hj4 & Hj5 & Hj6 & Hj7 & Hj8 &
        Hio & Hout).
  set (s0 := before_backend_setup (new_object a LOCAL (Args.config a) bin_size)) in *.
  assert (fixed s0 = fixed (new_object a LOCAL (Args.config a) bin_size)) as Hs0
    by apply before_backend_setup_attributes.
  assert (_local_base_dir s0 = Args.local_base_dir a ∧ _name s0 = Args.name a ∧
          _config s0 = Args.config a ∧ _job_type s0 = Args.job_type a ∧
          _project s0 = Args.project a ∧ _group s0 = Args.group a ∧
          _entity s0 = Args.entity a ∧ _tags s0 = Args.tags a ∧ _notes s0 = Args.notes a ∧
          _metric_groups s0 = (Args.metrics a).*1 ∧
          _step_metrics s0 = _step_metrics s ∧ _metrics s0 = _metrics s)
    as (E1 & E2 & E3 & E4 & E5 & E6 & E7 & E8 & E9 & E10 & E11 & E12).
  { clearbody s0. unfold fixed in Hs0, Hfixed. cbn in Hs0, Hfixed.
    injection Hs0 as ? ? ? ? ? ? ? ? ? ? ? ? ? ? ? ? ? ? ? ? ?.
    injection Hfixed as ? ? ? ? ? ? ? ? ? ? ? ? ? ? ? ? ? ? ? ? ?.
    repeat split; congruence. }
  rewrite E1, E2 in Hj1.
  exists run_dir, temp_dir, files_dir, artifacts_dir, metrics_dir, config_path,
    metadata_path, status_path.
  repeat (split; [assumption|]).
  assert (∀ g, group_setup_trace s0 metrics_dir g = group_setup_trace s metrics_dir g)
    as Hgt by (intros g; unfold group_setup_trace; by rewrite E11, E12).
  rewrite (flat_map_ext _ _ Hgt), E2, E3, E4, E5, E6, E7, E8, E9, E10 in Hio.
  split.
  - rewrite Hio. reflexivity.
  - rewrite Hout. cbn. by rewrite <- app_assoc.
Qed.

(** ** What a local construction leaves for the later calls *)

Section after_local_construction.
Context `{PyRuntime}.

(** The schema of a constructed logger, in every mode. *)
Lemma init_schema (a : Args.t) (w : World) s w' :
  __init__ a w = (Ok s, w') →
  _metric_groups s = (Args.metrics a).*1 ∧
  _step_metrics s = init_step_metrics (Args.metrics a) ∧
  _metrics s = init_metrics (Args.metrics a) ∧
  _is_finished s = false.
Proof.
  intros Hinit.
  apply init_fixed in Hinit as (log_mode & bin_size & _ & _ & Hfixed).
  unfold fixed in Hfixed. by simplify_eq/=.
Qed.

(** The files of a local logger are those of its groups. *)
Lemma setup_local_files_dom reinit s0 w0 s w :
  _setup_local reinit (s0, w0) = (Ok tt, (s, w)) →
  ∀ g, is_Some (default ∅ (_metrics_files s) !! g) → g ∈ _metric_groups s0.
Proof.
  unfold _setup_local. intros Hrun. minv Hrun.
  apply io_inv_Ok in Hrun as (w' & _ & [= -> ->]).
  destruct a17.
  refine (for_each_inv_Ok
            (λ pre (st1 : t * World),
               ∀ g, is_Some (default ∅ (_metrics_files st1.1) !! g) → g ∈ pre)
            _ _ _ _ _ _ Hc16).
  - intros g. cbn. rewrite lookup_empty. by intros [? ?].
  - intros pre g [s1 w1] st2 Hpre Hbody g' Hg'.
    minv Hbody.
    apply file_write_inv_Ok in Hbody as (files' & f & Hfiles' & Hf & Hopen & ->).
    cbn in Hfiles'. injection Hfiles' as <-. cbn in Hg'.
    apply elem_of_app. destruct (decide (g' = g)) as [->|Hne].
    + right. by apply list_elem_of_singleton.
    + left. apply Hpre. by rewrite !lookup_insert_ne in Hg' by done.
Qed.

Lemma setup_local_files_dir reinit s0 w0 s w :
  _setup_local reinit (s0, w0) = (Ok tt, (s, w)) →
  ∃ run_dir summary_path files_dir,
    utils.join_paths [_local_base_dir s0; Some (_name s0)] = Ok run_dir ∧
    utils.join_paths [Some run_dir; Some "summary.json"] = Ok summary_path ∧
    utils.join_paths [Some run_dir; Some "files"] = Ok files_dir ∧
    _run_dir s = Some run_dir ∧ _summary_path s = Some summary_path ∧
    _files_dir s = Some files_dir.
Proof.
  unfold _setup_local. intros Hrun. minv Hrun.
  apply io_inv_Ok in Hrun as (w' & _ & [= -> ->]).
  match goal with
  | Hloop : for_each ?xs ?body ?st = _ |- _ =>
      assert (keeps (λ s, (_files_dir s, _run_dir s, _summary_path s)) (for_each xs body))
        as Hk by (unfold file_write; keeps);
      pose proof (Hk _ _ _ Hloop) as [= Hfd Hrd Hsp]
  end.
  match goal with
  | Hw : when ?b ?c (?s1, _) = (Ok _, ?st) |- _ =>
      assert (keeps (λ s, (_files_dir s, _run_dir s, _summary_path s)) (when b c))
        as Hk' by keeps;
      pose proof (Hk' _ _ _ Hw) as [= Hfd' Hrd' Hsp']
  end.
  cbn in Hfd, Hrd, Hsp, Hfd', Hrd', Hsp'.
  eexists _, _, _. split; [eassumption|]. split; [eassumption|]. split; [eassumption|].
  rewrite Hfd, Hrd, Hsp, Hfd', Hrd', Hsp'. cbn. by repeat split.
Qed.

(** The paths of a logger constructed in local mode. *)
Lemma init_local_paths (a : Args.t) (w : World) s w' :
  Args.log_mode a = "local" →
  __init__ a w = (Ok s, w') →
  ∃ run_dir summary_path files_dir,
    utils.join_paths [Args.local_base_dir a; Some (Args.name a)] = Ok run_dir ∧
    utils.join_paths [Some run_dir; Some "summary.json"] = Ok summary_path ∧
    utils.join_paths [Some run_dir; Some "files"] = Ok files_dir ∧
    _run_dir s = Some run_dir ∧ _summary_path s = Some summary_path ∧
    _files_dir s = Some files_dir.
Proof.
  intros Hmode Hinit.
  destruct (init_local_setup_from _ _ _ _ Hmode Hinit) as (bin_size & Hsetup).
  destruct (setup_local_files_dir _ _ _ _ _ Hsetup)
    as (run_dir & summary_path & files_dir & Hj & ?).
  exists run_dir, summary_path, files_dir. split; [|done].
  rewrite <- Hj. unfold before_backend_setup. by case_bool_decide.
Qed.

(** The file that the METRICS loop opens for a group is the csv file of the
    group in the metrics directory. *)
Lemma setup_local_file_paths reinit s0 w0 s w group :
  _setup_local reinit (s0, w0) = (Ok tt, (s, w)) →
  group ∈ _metric_groups s0 →
  ∃ f run_dir metrics_dir,
    default ∅ (_metrics_files s) !! group = Some f ∧
    utils.join_paths [_local_base_dir s0; Some (_name s0)] = Ok run_dir ∧
    utils.join_paths [Some run_dir; Some "metrics"] = Ok metrics_dir ∧
    utils.join_paths [Some metrics_dir; Some (group +:+ ".csv")] = Ok (f_path f).
Proof.
  unfold _setup_local. intros Hrun Hgroup. minv Hrun.
  apply io_inv_Ok in Hrun as (w' & _ & [= -> ->]).
  destruct a17.
  enough (∃ f, default ∅ (_metrics_files st0.1) !! group = Some f ∧
               utils.join_paths [Some a5; Some (group +:+ ".csv")] = Ok (f_path f))
    as (f & Hf & Hpath) by (exists f, a0, a5; done).
  revert group Hgroup.
  refine (for_each_inv_Ok
            (λ pre (st1 : t * World),
               ∀ g, g ∈ pre →
                 ∃ f, default ∅ (_metrics_files st1.1) !! g = Some f ∧
                      utils.join_paths [Some a5; Some (g +:+ ".csv")] = Ok (f_path f))
            _ _ _ _ _ _ Hc16).
  - intros g Hg. by apply elem_of_nil in Hg.
  - intros pre g [s1 w1] st2 Hpre Hbody g' Hg'.
    minv Hbody.
    apply file_write_inv_Ok in Hbody as (files' & f & Hfiles' & Hf & Hopen & ->).
    cbn in Hfiles'. injection Hfiles' as <-.
    rewrite lookup_insert_eq in Hf. injection Hf as <-. cbn.
    destruct (decide (g' = g)) as [->|Hne].
    + eexists. rewrite lookup_insert_eq. split; [reflexivity|]. cbn. eassumption.
    + apply elem_of_app in Hg' as [Hg'|Hg']; [|by apply list_elem_of_singleton in Hg'].
      rewrite !lookup_insert_ne by done. by apply Hpre.
Qed.

Lemma init_local_file_path (a : Args.t) (w : World) s w' group :
  Args.log_mode a = "local" →
  __init__ a w = (Ok s, w') →
  group ∈ (Args.metrics a).*1 →
  ∃ files f run_dir metrics_dir,
    _metrics_files s = Some files ∧ files !! group = Some f ∧
    utils.join_paths [Args.local_base_dir a; Some (Args.name a)] = Ok run_dir ∧
    utils.join_paths [Some run_dir; Some "metrics"] = Ok metrics_dir ∧
    utils.join_paths [Some metrics_dir; Some (group +:+ ".csv")] = Ok (f_path f).
Proof.
  intros Hmode Hinit Hgroup.
  destruct (init_local_setup_from _ _ _ _ Hmode Hinit) as (bin_size & Hsetup).
  destruct (setup_local_files _ _ _ _ _ Hsetup) as (files & Hfiles & _).
  destruct (setup_local_file_paths _ _ _ _ _ group Hsetup)
    as (f & run_dir & metrics_dir & Hf & Hj1 & Hj2 & Hj3).
  { unfold before_backend_setup. by case_bool_decide. }
  rewrite Hfiles in Hf. cbn in Hf.
  exists files, f, run_dir, metrics_dir. repeat (split; [done|]).
  split; [|done]. rewrite <- Hj1. unfold before_backend_setup. by case_bool_decide.
Qed.

(** A logger constructed in local mode has all that [finish] needs. *)
Lemma init_local_ready (a : Args.t) (w : World) s w' :
  Args.log_mode a = "local" →
  __init__ a w = (Ok s, w') →
  ∃ files summary summary_path run_dir status_path,
    _log_mode s = LOCAL ∧ _is_enabled s = true ∧ _is_finished s = false ∧
    _metrics_files s = Some files ∧ _summary s = Some summary ∧
    _summary_path s = Some summary_path ∧ _run_dir s = Some run_dir ∧
    utils.join_paths [Some run_dir; Some "status.txt"] = Ok status_path ∧
    (∀ g, is_Some (files !! g) → g ∈ _metric_groups s).
Proof.
  intros Hmode Hinit.
  destruct (init_local_attributes _ _ _ _ Hmode Hinit) as (Hm & Hen & Hg & _ & _ & Hsum).
  destruct (init_local_finishable _ _ _ _ Hmode Hinit)
    as [(run_dir & summary_path & status_path & Hdir & Hpath & Hjoin) [files Hfiles]].
  destruct (init_schema _ _ _ _ Hinit) as (_ & _ & _ & Hfin).
  destruct (init_local_setup _ _ _ _ Hmode Hinit) as (reinit & s0 & w0 & Hsetup & Eg0 & _).
  pose proof (setup_local_files_dom _ _ _ _ _ Hsetup) as Hdom.
  rewrite Hfiles in Hdom. cbn in Hdom. rewrite Eg0, <- Hg in Hdom.
  eexists files, _, summary_path, run_dir, status_path. by repeat split.
Qed.

Lemma log_file_local_returns s w file_path files_dir new_path :
  _is_enabled s = true → _log_mode s = LOCAL →
  _files_dir s = Some files_dir →
  utils.join_paths [Some files_dir; Some (os_path_basename file_path)] = Ok new_path →
  ∃ w1, log_file file_path (s, w) = (Ok tt, (s, w1)).
Proof.
  intros Hen Hmode Hdir Hjoin.
  unfold log_file. rewrite (bind_Ok _ _ _ s (s, w)) by done.
  rewrite Hen, Hmode. cbn [when]. unfold _log_file_local.
  rewrite (bind_Ok _ _ _ s (s, w)) by done.
  rewrite Hdir, Hjoin. rewrite (bind_Ok _ _ _ new_path (s, w)) by done.
  unfold bind, io, OS.path_exists. cbn.
  case_bool_decide; by eexists.
Qed.

End after_local_construction.

(** * Examples *)

#[local] Existing Instance example_runtime.

(** Decides a closed proposition by evaluation. *)
Ltac by_evaluation :=
  lazymatch goal with |- ?G => apply (bool_decide_unpack G) end; vm_compute; exact I.

(** The construction of the source's [test()] succeeds, with or without a
    bin size, and registers its group. *)
Lemma example_constructed (bin_size : bin_size_arg) :
  bin_size = BinNone ∨ bin_size = BinInt 3 →
  ∃ s w,
    __init__ (example_args "local" ["metric1"; "metric2"] bin_size) empty_world = (Ok s, w).
Proof. intros [-> | ->]; eexists _, _; vm_compute; reflexivity. Qed.

Lemma example_registered (bin_size : bin_size_arg) s w :
  __init__ (example_args "local" ["metric1"; "metric2"] bin_size) empty_world = (Ok s, w) →
  registered s "train" "step" ["metric1"; "metric2"] ∧
  csv_text s "train" = Some "step,metric1,metric2" ∧
  _metrics s = init_metrics [("train", ("step", ["metric1"; "metric2"]))] ∧
  _summary s = Some (init_summary
                       (init_metrics [("train", ("step", ["metric1"; "metric2"]))])
                       (init_step_metrics [("train", ("step", ["metric1"; "metric2"]))])).
Proof.
  intros Hinit.
  destruct (init_local_registered
              (example_args "local" ["metric1"; "metric2"] bin_size) empty_world s w "train")
    as (sm & cols & Hreg & Hsm & Hcols & Htext); [reflexivity|exact Hinit| |].
  { apply list_elem_of_singleton. reflexivity. }
  vm_compute in Hsm. injection Hsm as <-.
  vm_compute in Hcols. injection Hcols as <-.
  split; [exact Hreg|]. split; [rewrite Htext; reflexivity|].
  destruct (init_local_attributes
              (example_args "local" ["metric1"; "metric2"] bin_size) empty_world s w
              eq_refl Hinit) as (_ & _ & _ & _ & Hm & Hs).
  split; [exact Hm|exact Hs].
Qed.

(** C1, at a failing input. A local logger with bin size 3 for its group
    ["train"] is given the first of three records that map every metric to
    the constant 5: [log_binned] raises [TypeError], because the counter that
    setup stored for the group is a dict, and the logger is left as it was:
    no record is ever logged. *)
Theorem log_binned_first_call_raises :
  ∃ s w,
    __init__ (example_args "local" ["metric1"; "metric2"] (BinInt 3)) empty_world
      = (Ok s, w) ∧
    log_binned {[ "metric1" := PInt 5; "metric2" := PInt 5 ]} "train" (s, w)
      = (Raise (TypeError DictPlusInt), (s, w)).
Proof.
  destruct (example_constructed (BinInt 3)) as (s & w & Hinit); [by right|].
  exists s, w. split; [exact Hinit|].
  destruct (example_registered _ _ _ Hinit) as ([_ Hen _ Hcols _ _ _] & _).
  destruct (init_int_bin_size
              (example_args "local" ["metric1"; "metric2"] (BinInt 3)) empty_world 3%Z s w
              eq_refl Hinit) as (sizes & Hsizes & _ & Hall).
  destruct (init_local_attributes
              (example_args "local" ["metric1"; "metric2"] (BinInt 3)) empty_world s w
              eq_refl Hinit) as (_ & _ & Hgroups & _).
  eapply log_binned_raises; [exact Hinit|exact Hen| |exact Hcols| |].
  - rewrite Hsizes. unfold getitem_opt, getitem. rewrite Hall; [reflexivity|].
    apply list_elem_of_singleton. reflexivity.
  - rewrite Hgroups. apply list_elem_of_singleton. reflexivity.
  - by_evaluation.
Qed.

(** C2, at a failing input. On the logger of the source's [test()], [finish]
    returns, and a second [finish] returns as well instead of raising
    [RuntimeError]: the flag [_is_finished] is still [False]. *)
Theorem finish_twice_returns :
  ∃ s w s1 w1 s2 w2,
    __init__ (example_args "local" ["metric1"; "metric2"] BinNone) empty_world
      = (Ok s, w) ∧
    finish (s, w) = (Ok tt, (s1, w1)) ∧
    finish (s1, w1) = (Ok tt, (s2, w2)) ∧
    _is_finished s1 = false.
Proof.
  destruct (example_constructed BinNone) as (s & w & Hinit); [by left|].
  destruct (finish_twice_after_local_init
              (example_args "local" ["metric1"; "metric2"] BinNone) empty_world s w
              eq_refl Hinit) as (s1 & w1 & s2 & w2 & Hrun1 & Hrun2 & Hfin).
  exists s, w, s1, w1, s2, w2.
  split; [exact Hinit|]. split; [exact Hrun1|]. split; [exact Hrun2|exact Hfin].
Qed.

Lemma csv_holds_header_and_rows_witness :
  ∃ s w,
    __init__ (example_args "local" ["metric1"; "metric2"] BinNone) empty_world
      = (Ok s, w) ∧
    ∃ s' w' text,
      log_all "train"
        [(example_record, true); ({[ "step" := PInt 2; "metric2" := PInt 7 ]}, false)]
        (s, w) = (Ok tt, (s', w')) ∧
      csv_text s' "train" = Some text ∧
      text = String.concat (String "010" EmptyString)
               ["step,metric1,metric2"; "1,10,"; "2,,7"] ∧
      lines_of text = ["step,metric1,metric2"; "1,10,"; "2,,7"] ∧
      length (lines_of text) = 3.
Proof.
  destruct (example_constructed BinNone) as (s & w & Hinit); [by left|].
  exists s, w. split; [exact Hinit|].
  destruct (example_registered _ _ _ Hinit) as ([_ _ Hsm Hcols _ _ _] & _).
  destruct (csv_holds_header_and_rows
              (example_args "local" ["metric1"; "metric2"] BinNone) empty_world s w
              "train" "step" ["metric1"; "metric2"]
              [(example_record, true); ({[ "step" := PInt 2; "metric2" := PInt 7 ]}, false)]
              eq_refl Hinit Hsm Hcols)
    as (s' & w' & text & Hrun & Htext & Hjoined & Hlines).
  - repeat constructor; try by_evaluation; intros _; by_evaluation.
  - exists s', w', text. split; [exact Hrun|]. split; [exact Htext|].
    destruct Hlines as [Hlines Hcount].
    { split; [reflexivity|]. split; by_evaluation. }
    split; [|split].
    + rewrite Hjoined. vm_compute. reflexivity.
    + rewrite Hlines. vm_compute. reflexivity.
    + exact Hcount.
Defined.

Lemma log_checks_keys_on_request_witness :
  ∃ s w,
    __init__ (example_args "local" ["metric1"; "metric2"] BinNone) empty_world
      = (Ok s, w) ∧
    log {[ "step" := PInt 1; "metric1" := PInt 10; "bogus" := PInt 3 ]} "train" true (s, w)
      = (Raise (ValueError (InvalidKeys {[ "bogus" ]})), (s, w)) ∧
    ∃ s' w',
      log {[ "step" := PInt 1; "metric1" := PInt 10; "bogus" := PInt 3 ]} "train" false (s, w)
        = (Ok tt, (s', w')) ∧
      csv_text s' "train" = Some (str_join newline ["step,metric1,metric2"; "1,10,"]).
Proof.
  destruct (example_constructed BinNone) as (s & w & Hinit); [by left|].
  exists s, w. split; [exact Hinit|].
  destruct (example_registered _ _ _ Hinit) as (Hreg & Htext0 & _).
  destruct (log_checks_keys_on_request s w "train" "step" ["metric1"; "metric2"]
              {[ "step" := PInt 1; "metric1" := PInt 10; "bogus" := PInt 3 ]} Hreg)
    as (Hraise & _ & Hlog).
  { exists "bogus". repeat split; by_evaluation. }
  split.
  - assert ((dom ({[ "step" := PInt 1; "metric1" := PInt 10; "bogus" := PInt 3 ]}
                     : gmap string num) ∖ {[ "step" ]} ∖ list_to_set ["metric1"; "metric2"]
              : gset string) = {[ "bogus" ]}) as Hkeys by by_evaluation.
    rewrite Hkeys in Hraise. exact Hraise.
  - destruct Hlog as (s' & w' & old & Hrun & Hold & Hnew & _); [by_evaluation|].
    exists s', w'. split; [exact Hrun|].
    rewrite Hnew. rewrite Htext0 in Hold. injection Hold as <-. vm_compute. reflexivity.
Defined.

Lemma log_unknown_group_witness :
  ∃ s w,
    __init__ (example_args "local" ["metric1"; "metric2"] BinNone) empty_world
      = (Ok s, w) ∧
    log example_record "eval" false (s, w)
      = (Raise (ValueError (InvalidGroup "eval")), (s, w)).
Proof.
  destruct (example_constructed BinNone) as (s & w & Hinit); [by left|].
  exists s, w. split; [exact Hinit|].
  destruct (example_registered _ _ _ Hinit) as ([_ Hen _ _ _ _ _] & _ & Hmetrics & _).
  apply log_unknown_group; [exact Hen|]. rewrite Hmetrics. by_evaluation.
Defined.

Lemma log_without_step_merges_first_witness :
  ∃ s w,
    __init__ (example_args "local" ["metric1"; "metric2"] BinNone) empty_world
      = (Ok s, w) ∧
    ∃ s' summary' sg',
      log {[ "metric1" := PInt 10 ]} "train" false (s, w)
        = (Raise (ValueError (StepMetricMissing "step")), (s', w)) ∧
      csv_text s' "train" = Some "step,metric1,metric2" ∧
      _summary s' = Some summary' ∧ summary' !! "train" = Some sg' ∧
      sg' !! "metric1" = Some (Some (PInt 10)) ∧
      sg' !! "metric2" = Some None ∧
      sg' !! "step" = Some None ∧
      sg' !! "metric3" = None ∧
      s' ≠ s.
Proof.
  destruct (example_constructed BinNone) as (s & w & Hinit); [by left|].
  exists s, w. split; [exact Hinit|].
  destruct (example_registered _ _ _ Hinit) as (Hreg & Htext0 & _ & _).
  pose proof Hreg as [_ _ Hsm Hcols _ _ _].
  destruct (log_without_step_merges_first s w "train" "step"
              ["metric1"; "metric2"] {[ "metric1" := PInt 10 ]} Hreg)
    as (s' & Hrun & Hfiles & Hmerged & Hchanged); [by_evaluation|].
  destruct Hmerged as (summary & sg & summary' & sg' & Hsum & Hsg & Hsum' & Hsg' & _ &
                       Hnew & Hold & _).
  assert (∀ key, sg !! key =
            if bool_decide (key = "step" ∨ key ∈ ["metric1"; "metric2"])
            then Some None else None) as Hbefore.
  { intros key. rewrite <- (summary_value_lookup s "train" key summary sg Hsum Hsg).
    exact (init_local_summary_value
             (example_args "local" ["metric1"; "metric2"] BinNone) empty_world s w
             "train" "step" ["metric1"; "metric2"] key eq_refl Hinit Hsm Hcols). }
  exists s', summary', sg'. split; [exact Hrun|]. split.
  { unfold csv_text. rewrite Hfiles. exact Htext0. }
  split; [exact Hsum'|]. split; [exact Hsg'|].
  split; [apply Hnew; vm_compute; reflexivity|].
  split; [rewrite (Hold "metric2") by (vm_compute; reflexivity); rewrite Hbefore;
          vm_compute; reflexivity|].
  split; [rewrite (Hold "step") by (vm_compute; reflexivity); rewrite Hbefore;
          vm_compute; reflexivity|].
  split; [rewrite (Hold "metric3") by (vm_compute; reflexivity); rewrite Hbefore;
          vm_compute; reflexivity|].
  apply Hchanged. exists "metric1", (PInt 10), summary, sg.
  split; [vm_compute; reflexivity|]. split; [exact Hsum|]. split; [exact Hsg|].
  rewrite Hbefore. vm_compute. discriminate.
Defined.

(** C6, refuted as stated. In disabled mode a group whose metric list holds
    nothing but the step metric is accepted: the construction returns a
    logger, whose list for the group is empty. *)
Lemma init_disabled_accepts_empty_group :
  ∃ s w,
    __init__ (example_args "disabled" ["step"; "step"] BinNone) empty_world = (Ok s, w) ∧
    _metrics s !! "train" = Some [].
Proof. eexists _, _. split; vm_compute; reflexivity. Qed.

(** In local mode the same arguments are rejected by the emptiness check of
    [_setup_local]. *)
Lemma init_local_empty_group_error :
  (__init__ (example_args "local" ["step"; "step"] BinNone) empty_world).1
    = Raise (ValueError (MetricsEmpty "train")).
Proof. vm_compute. reflexivity. Qed.

(** In remote mode they are accepted as well. *)
Lemma init_wandb_accepts_empty_group :
  ∃ s w, __init__ (example_args "wandb" ["step"; "step"] BinNone) empty_world = (Ok s, w).
Proof. eexists _, _. vm_compute. reflexivity. Qed.

Lemma init_local_rejects_empty_group_witness :
  (∃ w, __init__ (example_args "local" ["step"; "step"] BinNone) empty_world
          = (Raise (ValueError (MetricsEmpty "train")), w)) ∧
  (∀ metric_group,
     (__init__ (example_args "wandb" ["step"; "step"] BinNone) empty_world).1
       ≠ Raise (ValueError (MetricsEmpty metric_group))).
Proof.
  split.
  - destruct (init_local_rejects_empty_group
                (example_args "local" ["step"; "step"] BinNone) empty_world
                "train" "step" ["step"; "step"]) as [Hlocal _].
    + apply NoDup_singleton.
    + apply list_elem_of_singleton. reflexivity.
    + intros x Hx. apply elem_of_cons in Hx as [->|Hx]; [reflexivity|].
      apply list_elem_of_singleton in Hx. exact Hx.
    + destruct (Hlocal eq_refl) as (e & w & Hrun & _).
      exists w. rewrite Hrun. f_equal.
      pose proof init_local_empty_group_error as Herr. rewrite Hrun in Herr. exact Herr.
  - destruct (init_local_rejects_empty_group
                (example_args "wandb" ["step"; "step"] BinNone) empty_world
                "train" "step" ["step"; "step"]) as [_ Hother].
    + apply NoDup_singleton.
    + apply list_elem_of_singleton. reflexivity.
    + intros x Hx. apply elem_of_cons in Hx as [->|Hx]; [reflexivity|].
      apply list_elem_of_singleton in Hx. exact Hx.
    + apply Hother. discriminate.
Defined.

(** C7, refuted as stated. The caller lists the metrics as ["b"] then ["a"];
    on an interpreter that enumerates the set as ["a"], ["b"] the header is
    ["step,a,b"], not the ["step,b,a"] of the insertion order. *)
Lemma header_order_is_not_insertion_order :
  ∃ s w,
    __init__ (example_args "local" ["b"; "a"] BinNone) empty_world = (Ok s, w) ∧
    csv_text s "train" = Some "step,a,b" ∧
    csv_text s "train" ≠ Some (str_join "," ("step" :: insertion_order "step" ["b"; "a"])).
Proof.
  eexists _, _. split; [vm_compute; reflexivity|].
  split; [vm_compute; reflexivity|]. vm_compute. discriminate.
Qed.

Lemma csv_header_lists_stored_columns_witness :
  ∃ s w,
    __init__ (example_args "local" ["metric2"; "step"; "metric1"; "metric2"] BinNone)
      empty_world = (Ok s, w) ∧
    ∃ cols,
      _metrics s !! "train" = Some cols ∧
      csv_text s "train" = Some (str_join "," ("step" :: cols)) ∧
      ∀ x, x ∈ cols ↔ x ∈ ["metric2"; "step"; "metric1"; "metric2"] ∧ x ≠ "step".
Proof.
  assert (∃ s w,
            __init__ (example_args "local" ["metric2"; "step"; "metric1"; "metric2"] BinNone)
              empty_world = (Ok s, w)) as (s & w & Hinit)
    by (eexists _, _; vm_compute; reflexivity).
  exists s, w. split; [exact Hinit|].
  destruct (csv_header_lists_stored_columns
              (example_args "local" ["metric2"; "step"; "metric1"; "metric2"] BinNone)
              empty_world s w "train" "step" ["metric2"; "step"; "metric1"; "metric2"]
              eq_refl Hinit)
    as (cols & Hcols & Htext & _ & _ & Hspec).
  - apply NoDup_singleton.
  - apply list_elem_of_singleton. reflexivity.
  - exists cols. split; [exact Hcols|]. split; [exact Htext|exact Hspec].
Defined.

Lemma disabled_logger_is_inert_witness :
  ∃ s w,
    __init__ (example_args "disabled" ["metric1"; "metric2"] BinNone) empty_world
      = (Ok s, w) ∧
    w_io w = [] ∧
    log example_record "eval" true (s, w) = (Ok tt, (s, w)) ∧
    log_binned example_record "train" (s, w) = (Ok tt, (s, w)) ∧
    finish (s, w) = (Ok tt, (s, w)).
Proof.
  assert (∃ s w,
            __init__ (example_args "disabled" ["metric1"; "metric2"] BinNone) empty_world
              = (Ok s, w)) as (s & w & Hinit)
    by (eexists _, _; vm_compute; reflexivity).
  exists s, w. split; [exact Hinit|].
  destruct (disabled_logger_is_inert
              (example_args "disabled" ["metric1"; "metric2"] BinNone) empty_world eq_refl)
    as (_ & Hio & Hops).
  rewrite Hinit in Hio, Hops. cbn [fst snd] in Hio, Hops.
  split; [exact Hio|].
  destruct (Hops s eq_refl w) as (Hlog & Hbinned & _ & _ & Hfinish).
  split; [apply Hlog|]. split; [apply Hbinned|apply Hfinish].
Defined.

Lemma init_checks_configuration_witness :
  __init__ (example_args "remote" ["metric1"; "metric2"] BinNone) empty_world
    = (Raise (ValueError (InvalidLogMode "remote")), empty_world) ∧
  (∃ w, __init__ (example_args "local" ["metric1"; "metric2"]
                    (BinDict {[ "eval" := 3%Z ]})) empty_world
          = (Raise (ValueError BinSizeKeys), w)) ∧
  (∃ w, __init__ (example_args "local" ["metric1"; "metric2"] BinOther) empty_world
          = (Raise (TypeError BinSizeType), w)) ∧
  ∃ s w sizes,
    __init__ (example_args "local" ["metric1"; "metric2"] (BinInt 3)) empty_world
      = (Ok s, w) ∧
    _bin_size s = Some sizes ∧ sizes !! "train" = Some 3%Z.
Proof.
  split; [|split; [|split]].
  - apply (init_checks_configuration
             (example_args "remote" ["metric1"; "metric2"] BinNone) empty_world).
    by_evaluation.
  - destruct (init_checks_configuration
                (example_args "local" ["metric1"; "metric2"] (BinDict {[ "eval" := 3%Z ]}))
                empty_world) as (_ & Hdict & _).
    destruct (Hdict {[ "eval" := 3%Z ]} eq_refl) as (e & w & Hrun & _ & He); [by_evaluation|].
    exists w. rewrite Hrun. f_equal. f_equal.
    apply He; [by_evaluation|reflexivity|by_evaluation].
  - destruct (init_checks_configuration
                (example_args "local" ["metric1"; "metric2"] BinOther)
                empty_world) as (_ & _ & Hother & _).
    destruct (Hother eq_refl) as (e & w & Hrun & _ & He).
    exists w. rewrite Hrun. f_equal. f_equal.
    apply He; [by_evaluation|reflexivity|by_evaluation].
  - destruct (example_constructed (BinInt 3)) as (s & w & Hinit); [by right|].
    destruct (init_checks_configuration
                (example_args "local" ["metric1"; "metric2"] (BinInt 3))
                empty_world) as (_ & _ & _ & Hint).
    destruct (Hint 3%Z s w eq_refl Hinit) as (sizes & Hsizes & _ & Hall).
    exists s, w, sizes. split; [exact Hinit|]. split; [exact Hsizes|].
    apply Hall. apply list_elem_of_singleton. reflexivity.
Defined.

(** ** Examples of the further properties *)

Lemma copy_to_dict_overwrites_by_key_witness :
  utils.copy_to_dict ({[ "a" := 1%Z ]} : gmap string Z) {[ "a" := 0%Z; "b" := 2%Z ]} !! "a"
    = Some 1%Z ∧
  utils.copy_to_dict ({[ "a" := 1%Z ]} : gmap string Z) {[ "a" := 0%Z; "b" := 2%Z ]} !! "b"
    = Some 2%Z.
Proof.
  split.
  - rewrite (copy_to_dict_overwrites_by_key {[ "a" := 1%Z ]} {[ "a" := 0%Z; "b" := 2%Z ]} "a").
    vm_compute. reflexivity.
  - rewrite (copy_to_dict_overwrites_by_key {[ "a" := 1%Z ]} {[ "a" := 0%Z; "b" := 2%Z ]} "b").
    vm_compute. reflexivity.
Defined.

Lemma join_paths_drops_empty_strings_witness :
  utils.join_paths [Some "debug_data"; Some EmptyString; Some "debug"]
    = utils.join_paths [Some "debug_data"; Some "debug"] ∧
  utils.join_paths [None; Some "debug"] = Raise (TypeError JoinNoneOrMissing) ∧
  utils.join_paths [Some EmptyString; Some EmptyString] = Raise (TypeError JoinNoneOrMissing) ∧
  utils.join_paths [Some "debug_data"; Some "debug"] = Ok "debug_data/debug".
Proof.
  split; [|split; [|split]].
  - destruct (join_paths_drops_empty_strings
                [Some "debug_data"; Some EmptyString; Some "debug"]) as (Hdrop & _).
    exact (Hdrop [Some "debug_data"] [Some "debug"] eq_refl).
  - destruct (join_paths_drops_empty_strings [None; Some "debug"]) as (_ & Hnone & _).
    apply Hnone. left.
  - destruct (join_paths_drops_empty_strings [Some EmptyString; Some EmptyString])
      as (_ & _ & Hempty & _).
    apply Hempty. repeat constructor.
  - destruct (join_paths_drops_empty_strings [Some "debug_data"; Some "debug"])
      as (_ & _ & _ & Hjoin).
    apply (Hjoin ["debug_data"; "debug"] eq_refl).
    + discriminate.
    + repeat constructor; discriminate.
Defined.

Lemma init_rejects_before_setup_witness :
  __init__ (example_args_with true "online" (Some "debug_data") true (Some [SubLogger]))
      empty_world
    = (Raise (ValueError SubLoggersOfSubLogger), warned empty_world) ∧
  __init__ (example_args_with true "offline" (Some "debug_data") false None) empty_world
    = (Raise (ValueError (InvalidWandbMode "offline")), warned empty_world).
Proof.
  split.
  - destruct (init_rejects_before_setup
                (example_args_with true "online" (Some "debug_data") true (Some [SubLogger]))
                empty_world) as [Hsub _].
    + by_evaluation.
    + apply Hsub; [reflexivity|]. exists [SubLogger]. reflexivity.
  - destruct (init_rejects_before_setup
                (example_args_with true "offline" (Some "debug_data") false None)
                empty_world) as [_ Hmode].
    + by_evaluation.
    + apply Hmode; [reflexivity|]. by_evaluation.
Defined.

Lemma example_passes_init_checks reinit local_base_dir :
  passes_init_checks (example_args_with reinit "online" local_base_dir false None) LOCAL None.
Proof.
  split; [reflexivity|]. split; [reflexivity|]. split; [|reflexivity]. by_evaluation.
Qed.

Lemma init_local_needs_reinit_witness :
  __init__ (example_args_with false "online" (Some "debug_data") false None) empty_world
    = (Raise (NotImplementedError ReinitFalse), warned empty_world).
Proof.
  apply (init_local_needs_reinit
           (example_args_with false "online" (Some "debug_data") false None) empty_world None).
  - apply example_passes_init_checks.
  - reflexivity.
Defined.

Lemma init_local_needs_base_dir_witness :
  __init__ (example_args_with true "online" None false None) empty_world
    = (Raise (TypeError JoinNoneOrMissing), warned empty_world).
Proof.
  apply (init_local_needs_base_dir
           (example_args_with true "online" None false None) empty_world None).
  - apply example_passes_init_checks.
  - reflexivity.
  - reflexivity.
Defined.

Lemma log_local_updates_summary_and_writes_once_witness :
  ∃ s w s' w',
    __init__ (example_args "local" ["metric1"; "metric2"] BinNone) empty_world
      = (Ok s, w) ∧
    log example_record "train" false (s, w) = (Ok tt, (s', w')) ∧
    summary_value s' "train" "metric1" = Some (Some (PInt 10)) ∧
    summary_value s' "train" "metric2" = summary_value s "train" "metric2" ∧
    w_io w' = w_io w ++ [FsWrite "debug_data/debug/metrics/train.csv"
                           (String "010" "1,10,")].
Proof.
  destruct (example_constructed BinNone) as (s & w & Hinit); [by left|].
  destruct (example_registered _ _ _ Hinit) as (Hreg & _).
  destruct (init_local_file_path
              (example_args "local" ["metric1"; "metric2"] BinNone) empty_world s w
              "train" eq_refl Hinit)
    as (files & f & run_dir & metrics_dir & Hfiles & Hf & Hj1 & Hj2 & Hj3).
  { left. }
  vm_compute in Hj1. injection Hj1 as <-.
  vm_compute in Hj2. injection Hj2 as <-.
  assert (utils.join_paths [Some "debug_data/debug/metrics"; Some ("train" +:+ ".csv")]
          = Ok "debug_data/debug/metrics/train.csv") as Hj by (vm_compute; reflexivity).
  rewrite Hj in Hj3. injection Hj3 as Hpath.
  destruct (log_local_updates_summary_and_writes_once s w "train" "step"
              ["metric1"; "metric2"] example_record false files f Hreg Hfiles Hf)
    as (s' & w' & Hrun & Hsum & Hio & _).
  { split; [by_evaluation|discriminate]. }
  exists s, w, s', w'.
  split; [exact Hinit|]. split; [exact Hrun|]. split; [|split].
  - rewrite (Hsum "metric1"). reflexivity.
  - rewrite (Hsum "metric2"). reflexivity.
  - rewrite Hio, <- Hpath. reflexivity.
Defined.

Lemma summary_holds_latest_values_witness :
  ∃ s w s' w',
    __init__ (example_args "local" ["metric1"; "metric2"] BinNone) empty_world
      = (Ok s, w) ∧
    log_all "train" [(example_record, false); (second_record, true)] (s, w)
      = (Ok tt, (s', w')) ∧
    summary_value s' "train" "step" = Some (Some (PInt 2)) ∧
    summary_value s' "train" "metric1" = Some (Some (PInt 20)) ∧
    summary_value s' "train" "metric2" = Some None ∧
    summary_value s' "train" "metric3" = None.
Proof.
  destruct (example_constructed BinNone) as (s & w & Hinit); [by left|].
  destruct (example_registered _ _ _ Hinit) as ([_ _ Hsm Hcols _ _ _] & _).
  destruct (summary_holds_latest_values
              (example_args "local" ["metric1"; "metric2"] BinNone) empty_world s w
              "train" "step" ["metric1"; "metric2"]
              [(example_record, false); (second_record, true)] eq_refl Hinit Hsm Hcols)
    as (s' & w' & Hrun & Hsum).
  { repeat constructor; try by_evaluation; discriminate. }
  exists s, w, s', w'.
  split; [exact Hinit|]. split; [exact Hrun|].
  rewrite !Hsum. repeat split; vm_compute; reflexivity.
Defined.

Lemma two_groups_constructed :
  ∃ s w, __init__ two_group_args empty_world = (Ok s, w).
Proof. eexists _, _. vm_compute. reflexivity. Qed.

Lemma log_leaves_other_groups_witness :
  ∃ s w s' w',
    __init__ two_group_args empty_world = (Ok s, w) ∧
    log example_record "train" false (s, w) = (Ok tt, (s', w')) ∧
    csv_text s' "eval" = Some "episode,reward" ∧
    (_summary s' ≫= (.!! "eval")) = (_summary s ≫= (.!! "eval")).
Proof.
  destruct two_groups_constructed as (s & w & Hinit).
  destruct (init_local_registered two_group_args empty_world s w "train" eq_refl Hinit)
    as (sm & cols & Hreg & Hsm & Hcols & _); [by_evaluation|].
  vm_compute in Hsm. injection Hsm as <-.
  vm_compute in Hcols. injection Hcols as <-.
  destruct (init_local_registered two_group_args empty_world s w "eval" eq_refl Hinit)
    as (sm & cols & _ & Hsm & Hcols & Htext); [by_evaluation|].
  vm_compute in Hsm. injection Hsm as <-.
  vm_compute in Hcols. injection Hcols as <-.
  destruct Hreg as [Hmode Hen Hsm Hcols Hne (summary & Hsum & [sg Hsg])
                      (files & f & Hfiles & Hf & Hopen)].
  pose proof (log_local_Ok s w "train" "step" ["metric1"; "metric2"] example_record false
                summary sg files f Hmode Hen Hsm Hcols Hne Hsum Hsg Hfiles Hf Hopen)
    as Hrun.
  eexists s, w, _, _. split; [exact Hinit|]. split.
  - apply Hrun; [by_evaluation|discriminate].
  - destruct (log_leaves_other_groups s w example_record "train" false _ _ _ "eval"
                (Hrun ltac:(by_evaluation) ltac:(discriminate)) ltac:(discriminate))
      as [Hs Hf'].
    split; [|exact Hs].
    unfold csv_text in Htext |- *.
    destruct (_metrics_files s) as [files0|]; [|discriminate Htext].
    injection Hfiles as <-. cbn in Hf', Htext |- *. rewrite Hf'. exact Htext.
Defined.

Lemma finish_closes_dumps_and_marks_witness :
  ∃ s w s' w' summary closes,
    __init__ (example_args "local" ["metric1"; "metric2"] BinNone) empty_world
      = (Ok s, w) ∧
    finish (s, w) = (Ok tt, (s', w')) ∧
    csv_text s' "train" = Some "step,metric1,metric2" ∧
    _summary s = Some summary ∧
    Forall is_close closes ∧
    w_io w' = w_io w ++ closes ++
      finish_trace summary "debug_data/debug/summary.json" "debug_data/debug/status.txt".
Proof.
  destruct (example_constructed BinNone) as (s & w & Hinit); [by left|].
  destruct (example_registered _ _ _ Hinit) as (Hreg & Htext & _).
  destruct (init_local_ready
              (example_args "local" ["metric1"; "metric2"] BinNone) empty_world s w
              eq_refl Hinit)
    as (files & summary & summary_path & run_dir & status_path &
        Hmode & Hen & Hfin & Hfiles & Hsum & Hpath & Hdir & Hjoin & Hdom).
  destruct (finish_closes_dumps_and_marks s w files summary summary_path run_dir
              status_path Hmode Hen Hfin Hfiles Hsum Hpath Hdir Hjoin Hdom)
    as (closes & w' & Hrun & Hcloses & Hio & _).
  eexists s, w, _, w', summary, closes.
  split; [exact Hinit|]. split; [exact Hrun|]. split; [|split; [exact Hsum|]].
  - unfold csv_text in Htext |- *. rewrite Hfiles in Htext. cbn in Htext |- *.
    rewrite lookup_fmap. destruct (files !! "train") as [f|]; [|discriminate Htext].
    exact Htext.
  - split; [exact Hcloses|]. rewrite Hio. clear Hrun Hio.
    destruct (init_local_paths
                (example_args "local" ["metric1"; "metric2"] BinNone) empty_world s w
                eq_refl Hinit)
      as (run_dir' & summary_path' & _ & Hj1 & Hj2 & _ & Hdir' & Hpath' & _).
    rewrite Hdir in Hdir'. injection Hdir' as <-.
    rewrite Hpath in Hpath'. injection Hpath' as <-.
    vm_compute in Hj1. injection Hj1 as <-.
    vm_compute in Hj2. injection Hj2 as <-.
    vm_compute in Hjoin. injection Hjoin as <-.
    reflexivity.
Defined.

Lemma log_after_finish_raises_witness :
  ∃ s w s1 w1 s2 path,
    __init__ (example_args "local" ["metric1"; "metric2"] BinNone) empty_world
      = (Ok s, w) ∧
    finish (s, w) = (Ok tt, (s1, w1)) ∧
    log example_record "train" false (s1, w1)
      = (Raise (ValueError (ClosedFile path)), (s2, w1)) ∧
    csv_text s2 "train" = Some "step,metric1,metric2" ∧
    summary_value s2 "train" "metric1" = Some (Some (PInt 10)).
Proof.
  destruct (example_constructed BinNone) as (s & w & Hinit); [by left|].
  destruct (example_registered _ _ _ Hinit) as (Hreg & Htext & _).
  destruct (finish_twice_after_local_init
              (example_args "local" ["metric1"; "metric2"] BinNone) empty_world s w
              eq_refl Hinit) as (s1 & w1 & _ & _ & Hrun & _).
  destruct (init_schema
              (example_args "local" ["metric1"; "metric2"] BinNone) empty_world s w Hinit)
    as (Hgroups & _).
  destruct (log_after_finish_raises s w s1 w1 "train" "step" ["metric1"; "metric2"]
              example_record false Hreg)
    as (path & s2 & Hlog & Htext' & Hsum).
  { rewrite Hgroups. by_evaluation. }
  { split; [by_evaluation|discriminate]. }
  { exact Hrun. }
  exists s, w, s1, w1, s2, path.
  split; [exact Hinit|]. split; [exact Hrun|]. split; [exact Hlog|]. split.
  - rewrite Htext'. exact Htext.
  - rewrite (Hsum "metric1"). reflexivity.
Defined.

Lemma log_binned_never_returns_witness :
  ∃ s w e,
    __init__ (example_args "local" ["metric1"; "metric2"] (BinInt 3)) empty_world
      = (Ok s, w) ∧
    log_binned {[ "step" := PInt 1; "metric1" := PInt 5; "metric2" := PInt 5 ]} "train" (s, w)
      = (Raise e, (s, w)).
Proof.
  destruct (example_constructed (BinInt 3)) as (s & w & Hinit); [by right|].
  destruct (example_registered _ _ _ Hinit) as ([_ Hen _ _ _ _ _] & _).
  destruct (log_binned_never_returns
              (example_args "local" ["metric1"; "metric2"] (BinInt 3)) empty_world s w s w
              {[ "step" := PInt 1; "metric1" := PInt 5; "metric2" := PInt 5 ]} "train"
              Hinit Hen eq_refl eq_refl) as [e Hrun].
  exists s, w, e. split; [exact Hinit|exact Hrun].
Defined.

Lemma log_local_key_check_is_void_witness :
  ∃ s w,
    __init__ (example_args "local" ["metric1"; "metric2"] BinNone) empty_world
      = (Ok s, w) ∧
    _log_local example_record "train" true (s, w)
      = _log_local example_record "train" false (s, w).
Proof.
  destruct (example_constructed BinNone) as (s & w & Hinit); [by left|].
  exists s, w. split; [exact Hinit|].
  exact (log_local_key_check_is_void
           (example_args "local" ["metric1"; "metric2"] BinNone) empty_world s w s w
           example_record "train" Hinit eq_refl).
Defined.

Lemma log_file_skips_known_name_witness :
  ∃ s w w1,
    __init__ (example_args "local" ["metric1"; "metric2"] BinNone) empty_world
      = (Ok s, w) ∧
    log_file "model.pt" (s, w) = (Ok tt, (s, w1)) ∧
    log_file "model.pt" (s, w1)
      = (Ok tt, (s, printed "WARNING: model.pt already in files dir so skipped." w1)).
Proof.
  destruct (example_constructed BinNone) as (s & w & Hinit); [by left|].
  destruct (example_registered _ _ _ Hinit) as ([Hmode Hen _ _ _ _ _] & _).
  destruct (init_local_paths
              (example_args "local" ["metric1"; "metric2"] BinNone) empty_world s w
              eq_refl Hinit)
    as (run_dir & _ & files_dir & Hj1 & _ & Hj3 & _ & _ & Hfiles).
  vm_compute in Hj1. injection Hj1 as <-.
  vm_compute in Hj3. injection Hj3 as <-.
  assert (utils.join_paths [Some "debug_data/debug/files"; Some (os_path_basename "model.pt")]
          = Ok "debug_data/debug/files/model.pt") as Hjoin by (vm_compute; reflexivity).
  destruct (log_file_local_returns s w "model.pt" "debug_data/debug/files"
              "debug_data/debug/files/model.pt" Hen Hmode Hfiles Hjoin) as [w1 Hrun].
  exists s, w, w1. split; [exact Hinit|]. split; [exact Hrun|].
  exact (log_file_skips_known_name s w s w1 "model.pt" "model.pt" Hen Hmode Hrun eq_refl).
Defined.

Lemma calls_keep_the_schema_witness :
  ∃ s w r s' w',
    __init__ (example_args "local" ["metric1"; "metric2"] BinNone) empty_world
      = (Ok s, w) ∧
    run_calls [CallLog example_record "train" false; CallLogSummary; CallFinish;
               CallFinish; CallLogBinned example_record "train"] (s, w)
      = (r, (s', w')) ∧
    _metrics s' = _metrics s ∧ _is_finished s' = false.
Proof.
  destruct (example_constructed BinNone) as (s & w & Hinit); [by left|].
  destruct (run_calls [CallLog example_record "train" false; CallLogSummary; CallFinish;
                       CallFinish; CallLogBinned example_record "train"] (s, w))
    as [r [s' w']] eqn:Hrun.
  exists s, w, r, s', w'. split; [exact Hinit|]. split; [exact Hrun|].
  pose proof (calls_keep_the_schema _ s w r s' w' Hrun) as Hfixed.
  destruct (init_schema
              (example_args "local" ["metric1"; "metric2"] BinNone) empty_world s w Hinit)
    as (_ & _ & _ & Hfin).
  destruct (fixed_schema _ _ Hfixed) as (_ & _ & _ & _ & Hm & _).
  split; [exact Hm|].
  unfold fixed in Hfixed. injection Hfixed as _ _ _ _ _ _ _ _ _ _ _ _ _ _ _ _ _ _ _ _ ->.
  exact Hfin.
Defined.

Lemma init_wandb_needs_two_character_names_witness :
  ∃ e w, __init__ (example_args "wandb" ["metric1"; "metric2"] BinNone) empty_world
           = (Raise e, w).
Proof.
  apply (init_wandb_needs_two_character_names
           (example_args "wandb" ["metric1"; "metric2"] BinNone) empty_world
           "train" ["metric1"; "metric2"] "metric1").
  - reflexivity.
  - vm_compute. reflexivity.
  - left.
  - vm_compute. discriminate.
Defined.

(** With names of two characters the remote construction goes through. *)
Lemma example_wandb_constructed :
  ∃ s w, __init__ (example_args "wandb" ["m1"; "m2"] BinNone) empty_world = (Ok s, w).
Proof. eexists _, _. vm_compute. reflexivity. Qed.

Lemma log_wandb_forwards_record_witness :
  ∃ s w,
    __init__ (example_args "wandb" ["m1"; "m2"] BinNone) empty_world = (Ok s, w) ∧
    log {[ "m1" := PInt 10 ]} "train" true (s, w)
      = (Ok tt, (s, OS.emit (WandbLog {[ "m1" := PInt 10 ]} true) w)).
Proof.
  destruct example_wandb_constructed as (s & w & Hinit).
  exists s, w. split; [exact Hinit|].
  destruct (init_schema (example_args "wandb" ["m1"; "m2"] BinNone) empty_world s w Hinit)
    as (_ & Hsm & Hm & _).
  apply (log_wandb_forwards_record
           (example_args "wandb" ["m1"; "m2"] BinNone) empty_world s w w
           {[ "m1" := PInt 10 ]} "train" "step" ["m1"; "m2"] true eq_refl Hinit).
  - rewrite Hsm. vm_compute. reflexivity.
  - rewrite Hm. vm_compute. reflexivity.
  - intros _. by_evaluation.
Defined.

Lemma init_local_lays_out_run_directory_witness :
  ∃ s w,
    __init__ (example_args "local" ["metric1"; "metric2"] BinNone) empty_world
      = (Ok s, w) ∧
    w_io w =
      [FsMkdir "debug_data/debug"; FsMkdir "debug_data/debug/temp";
       FsMkdir "debug_data/debug/files"; FsMkdir "debug_data/debug/artifacts";
       FsMkdir "debug_data/debug/metrics";
       FsOpenW "debug_data/debug/config.json";
       FsDumpJson "debug_data/debug/config.json" (JConfig None);
       FsClose "debug_data/debug/config.json";
       FsOpenW "debug_data/debug/metadata.json";
       FsDumpJson "debug_data/debug/metadata.json"
         (JMetadata "debug" None None None None None None);
       FsClose "debug_data/debug/metadata.json";
       FsOpenW "debug_data/debug/metrics/train.csv";
       FsWrite "debug_data/debug/metrics/train.csv" "step,metric1,metric2";
       FsOpenW "debug_data/debug/status.txt";
       FsWrite "debug_data/debug/status.txt" "started";
       FsClose "debug_data/debug/status.txt"] ∧
    w_stdout w = ["WARNING: conv_to_json_d not properly implemented"].
Proof.
  destruct (example_constructed BinNone) as (s & w & Hinit); [by left|].
  exists s, w. split; [exact Hinit|].
  destruct (example_registered _ _ _ Hinit) as ([_ _ Hsm Hcols _ _ _] & _).
  destruct (init_local_lays_out_run_directory
              (example_args "local" ["metric1"; "metric2"] BinNone) empty_world s w
              eq_refl Hinit)
    as (run_dir & temp_dir & files_dir & artifacts_dir & metrics_dir & config_path &
        metadata_path & status_path & Hj1 & Hj2 & Hj3 & Hj4 & Hj5 & Hj6 & Hj7 & Hj8 &
        Hio & Hout).
  vm_compute in Hj1. injection Hj1 as <-.
  vm_compute in Hj2. injection Hj2 as <-.
  vm_compute in Hj3. injection Hj3 as <-.
  vm_compute in Hj4. injection Hj4 as <-.
  vm_compute in Hj5. injection Hj5 as <-.
  vm_compute in Hj6. injection Hj6 as <-.
  vm_compute in Hj7. injection Hj7 as <-.
  vm_compute in Hj8. injection Hj8 as <-.
  split.
  - rewrite Hio. cbn [flat_map fmap list_fmap example_args Args.metrics fst].
    unfold group_setup_trace. rewrite Hsm, Hcols. vm_compute. reflexivity.
  - rewrite Hout. vm_compute. reflexivity.
Defined.
